(** * Cement-plant optimizer: synthetic data generator and prediction services

    A shallow embedding of
      - [data/tabular data/data_generator.py]   (module [Generator]),
      - the four Flask back-end services        (modules [FreeLime],
        [ThermalEnergy], [ImageAnalysis], [Recommendation]), with the
        model client, the few-shot prompt and the call to the hosted
        model of the last two (modules [Gemini], [KilnPrompt],
        [RecommendationPrompt]),
    followed by the properties proved about them.

    Numbers.  The generator computes with IEEE doubles; here every number
    is an exact rational ([Q], compared with [==]).  The statements are
    therefore about the arithmetic the script writes down, not about the
    last-bit error of its floating-point evaluation.

    Randomness.  [numpy.random] is an external library.  It is an interface
    ([RandomState]) whose three sampling operations thread an explicit
    generator state; the only facts assumed about it ([RandomLaws]) are the
    ones numpy documents: result sizes, the range of uniform samples, and
    that [choice(..., replace=False)] returns distinct elements of its
    population. *)

From Stdlib Require Import ZArith QArith Qround Qabs Lqa Lia String Ascii
  DecimalString.
From stdpp Require Import base option list sorting.

Open Scope Q_scope.

(* ===================================================================== *)
(** ** Numeric helpers: rounding to two decimals *)
(* ===================================================================== *)

Module Numeric.

(** [numpy.rint]: round to the nearest integer, ties to the even one. *)
Definition rint (y : Q) : Z :=
  let f := Qfloor y in
  match Qcompare (y - inject_Z f) (1 # 2) with
  | Lt => f
  | Gt => (f + 1)%Z
  | Eq => if Z.even f then f else (f + 1)%Z
  end.

(** [DataFrame.round(2)] on one value, and Python's [round(x, 2)]:
    scale by 100, round half to even, scale back. *)
Definition round2 (x : Q) : Q := inject_Z (rint (x * 100)) / 100.

(** A value with at most two decimals. *)
Definition two_decimals (x : Q) : Prop := exists k : Z, x == inject_Z k / 100.

(** Series are lists; a cell read outside the series is reported as 0. *)
Definition cell (s : list Q) (i : nat) : Q := default 0 (s !! i).

(** Element-wise arithmetic, with numpy's scalar broadcasting. *)
Definition vv_add (a b : list Q) : list Q := zip_with Qplus a b.
Definition vv_sub (a b : list Q) : list Q := zip_with Qminus a b.
Definition vv_div (a b : list Q) : list Q := zip_with Qdiv a b.
Definition vs_sub (a : list Q) (k : Q) : list Q := (fun x => x - k) <$> a.
Definition vs_mul (a : list Q) (k : Q) : list Q := (fun x => x * k) <$> a.
Definition sv_add (k : Q) (a : list Q) : list Q := (fun x => k + x) <$> a.
Definition sv_sub (k : Q) (a : list Q) : list Q := (fun x => k - x) <$> a.

(** [series.loc[idx]]: the cells at the labels [idx], in the order of [idx]. *)
Definition gather (s : list Q) (idx : list nat) : list Q :=
  (fun i => cell s i) <$> idx.

(** [series.loc[idx] = vals]: label [idx[j]] receives [vals[j]]. *)
Definition scatter (s : list Q) (idx : list nat) (vals : list Q) : list Q :=
  foldl (fun acc iv => <[iv.1 := iv.2]> acc) s (zip idx vals).

End Numeric.
Export Numeric.

(* ===================================================================== *)
(** ** The random source *)
(* ===================================================================== *)

(** The part of [numpy.random] the script calls.  [seed] is
    [np.random.seed]; the samplers return the sample and the next state. *)
Class RandomState := {
  rng : Type;
  seed : Z -> rng;
  normal : Q -> Q -> nat -> rng -> list Q * rng;
  uniform : Q -> Q -> nat -> rng -> list Q * rng;
  choice : list nat -> nat -> rng -> list nat * rng
}.

(** What numpy promises about them.  [choice a k] stands for
    [np.random.choice(a, k, replace=False)]. *)
Class RandomLaws (R : RandomState) : Prop := {
  normal_length : forall mu sd n s, length (normal mu sd n s).1 = n;
  uniform_length : forall lo hi n s, length (uniform lo hi n s).1 = n;
  uniform_range : forall lo hi n s x,
      lo <= hi -> x ∈ (uniform lo hi n s).1 -> lo <= x <= hi;
  choice_length : forall a k s,
      NoDup a -> (k <= length a)%nat -> length (choice a k s).1 = k;
  choice_sub : forall a k s, NoDup a -> (choice a k s).1 ⊆+ a
}.

(** Sequencing of sampling steps: a state monad over the generator state. *)
Definition Rand `{RandomState} (A : Type) : Type := rng -> A * rng.

Definition ret `{RandomState} {A} (a : A) : Rand A := fun s => (a, s).

Definition bind `{RandomState} {A B} (m : Rand A) (k : A -> Rand B) : Rand B :=
  fun s => let r := m s in k r.1 r.2.

Notation "x <- m ;; k" := (bind m (fun x => k))
  (at level 100, m at next level, k at level 200, right associativity).

(* ===================================================================== *)
(** ** data_generator.py *)
(* ===================================================================== *)

Module Generator.

(** *** 1. Configuration *)

Definition NUM_POINTS : nat := Z.to_nat 50000.
Definition INTERVAL_MINUTES : Z := 15.

(** *** 2. Normal operating ranges *)

Definition limestone_feed_rate_mean : Q := 78.
Definition clay_feed_rate_mean : Q := 16.
Definition iron_ore_feed_rate_mean : Q := 35 # 10.
Definition bauxite_feed_rate_mean : Q := 25 # 10.
Definition raw_meal_feed_rate_mean : Q := 175.
Definition raw_meal_feed_rate_std : Q := 5.
Definition fuel_feed_rate_mean : Q := 95 # 10.
Definition fuel_feed_rate_std : Q := 3 # 10.
Definition fuel_alt_substitution_rate_mean : Q := 15.
Definition fuel_alt_substitution_rate_std : Q := 2.
Definition kiln_hood_pressure_mean : Q := -6.
Definition kiln_hood_pressure_std : Q := 5 # 10.
Definition kiln_burner_air_flow_mean : Q := 25000.
Definition kiln_burner_air_flow_std : Q := 500.
Definition clinker_feed_rate_mill_mean : Q := 110.
Definition clinker_feed_rate_mill_std : Q := 3.
Definition gypsum_feed_rate_mean : Q := 55 # 10.
Definition gypsum_feed_rate_std : Q := 2 # 10.
Definition mill_recirculation_ratio_mean : Q := 55.
Definition mill_recirculation_ratio_std : Q := 5.
Definition kiln_main_drive_current_mean : Q := 200.
Definition kiln_main_drive_current_std : Q := 5.

(** *** The table *)

(** The twenty numeric columns of the frame.  [column_name] gives the key
    under which the script stores each of them. *)
Inductive column : Set :=
  | limestone_feed_rate | clay_feed_rate | iron_ore_feed_rate
  | bauxite_feed_rate | raw_meal_feed_rate_tph | fuel_feed_rate_tph
  | fuel_alt_substitution_rate | kiln_hood_pressure_mmH2O
  | kiln_burner_air_flow | clinker_feed_rate_tph | gypsum_feed_rate_tph
  | mill_recirculation_ratio | kiln_main_drive_current_Amp
  | raw_meal_lsf_ratio | clinker_free_lime | kiln_specific_thermal_energy
  | kiln_exit_nox_emissions | mill_motor_power_draw_kW
  | cement_fineness_blaine | mill_specific_electrical_energy.

#[global] Instance column_eq_dec : EqDecision column.
Proof. solve_decision. Defined.

Definition column_name (c : column) : string :=
  match c with
  | limestone_feed_rate => "limestone_feed_rate_%"
  | clay_feed_rate => "clay_feed_rate_%"
  | iron_ore_feed_rate => "iron_ore_feed_rate_%"
  | bauxite_feed_rate => "bauxite_feed_rate_%"
  | raw_meal_feed_rate_tph => "raw_meal_feed_rate_tph"
  | fuel_feed_rate_tph => "fuel_feed_rate_tph"
  | fuel_alt_substitution_rate => "fuel_alt_substitution_rate_%"
  | kiln_hood_pressure_mmH2O => "kiln_hood_pressure_mmH2O"
  | kiln_burner_air_flow => "kiln_burner_air_flow_m3/hr"
  | clinker_feed_rate_tph => "clinker_feed_rate_tph"
  | gypsum_feed_rate_tph => "gypsum_feed_rate_tph"
  | mill_recirculation_ratio => "mill_recirculation_ratio_%"
  | kiln_main_drive_current_Amp => "kiln_main_drive_current_Amp"
  | raw_meal_lsf_ratio => "raw_meal_lsf_ratio"
  | clinker_free_lime => "clinker_free_lime_%"
  | kiln_specific_thermal_energy =>
      "kiln_specific_thermal_energy_Kcal/kg_clinker"
  | kiln_exit_nox_emissions => "kiln_exit_nox_emissions_mg/Nm3"
  | mill_motor_power_draw_kW => "mill_motor_power_draw_kW"
  | cement_fineness_blaine => "cement_fineness_blaine_cm2/g"
  | mill_specific_electrical_energy =>
      "mill_specific_electrical_energy_kWh/ton_cement"
  end.

(** The frame: the timestamp column (microseconds) and the numeric
    columns.  A column that was never assigned is empty. *)
Record DataFrame : Type := {
  timestamp : list Z;
  num : column -> list Q
}.

(** [len(data)] and [data.index]. *)
Definition len (data : DataFrame) : nat := length (timestamp data).
Definition index (data : DataFrame) : list nat := seq 0 (len data).

(** [data[c] = v]. *)
Definition set (c : column) (v : list Q) (data : DataFrame) : DataFrame :=
  {| timestamp := timestamp data;
     num := fun c' => if decide (c' = c) then v else num data c' |}.

(** [data.loc[idx, c]] and [data.loc[idx, c] = v]. *)
Definition loc (data : DataFrame) (idx : list nat) (c : column) : list Q :=
  gather (num data c) idx.

Definition loc_set (idx : list nat) (c : column) (v : list Q)
    (data : DataFrame) : DataFrame :=
  set c (scatter (num data c) idx v) data.

(** *** 3. Base data *)

(** One minute, in microseconds (the resolution of [datetime]). *)
Definition minute : Z := 60000000.

(** [[datetime.now() - timedelta(minutes=i*INTERVAL_MINUTES)
      for i in range(n)]].  The clock is read once per element:
    [now i] is the reading taken while element [i] is built. *)
Definition timestamps (interval : Z) (now : nat -> Z) (n : nat) : list Z :=
  (fun i => now i - Z.of_nat i * interval * minute)%Z <$> seq 0 n.

Section WithRandom.
Context `{RandomState}.

Definition base_data (interval : Z) (now : nat -> Z) (n : nat)
    : Rand DataFrame :=
  let data := {| timestamp := timestamps interval now n;
                 num := fun _ => [] |} in
  x <- normal limestone_feed_rate_mean (15 # 10) n ;;
  let data := set limestone_feed_rate x data in
  x <- normal clay_feed_rate_mean 1 n ;;
  let data := set clay_feed_rate x data in
  x <- normal iron_ore_feed_rate_mean (3 # 10) n ;;
  let data := set iron_ore_feed_rate x data in
  let data := set bauxite_feed_rate
    (sv_sub 100 (vv_add (vv_add (num data limestone_feed_rate)
                                (num data clay_feed_rate))
                        (num data iron_ore_feed_rate))) data in
  x <- normal raw_meal_feed_rate_mean raw_meal_feed_rate_std n ;;
  let data := set raw_meal_feed_rate_tph x data in
  x <- normal fuel_feed_rate_mean fuel_feed_rate_std n ;;
  let data := set fuel_feed_rate_tph x data in
  x <- normal fuel_alt_substitution_rate_mean
              fuel_alt_substitution_rate_std n ;;
  let data := set fuel_alt_substitution_rate x data in
  x <- normal kiln_hood_pressure_mean kiln_hood_pressure_std n ;;
  let data := set kiln_hood_pressure_mmH2O x data in
  x <- normal kiln_burner_air_flow_mean kiln_burner_air_flow_std n ;;
  let data := set kiln_burner_air_flow x data in
  x <- normal clinker_feed_rate_mill_mean clinker_feed_rate_mill_std n ;;
  let data := set clinker_feed_rate_tph x data in
  x <- normal gypsum_feed_rate_mean gypsum_feed_rate_std n ;;
  let data := set gypsum_feed_rate_tph x data in
  x <- normal mill_recirculation_ratio_mean mill_recirculation_ratio_std n ;;
  let data := set mill_recirculation_ratio x data in
  x <- normal kiln_main_drive_current_mean kiln_main_drive_current_std n ;;
  let data := set kiln_main_drive_current_Amp x data in
  ret data.

(** *** 4. Target KPIs from the instantaneous inputs *)

Definition simulate_kpis (n : nat) (data : DataFrame) : Rand DataFrame :=
  e <- normal 0 (5 # 10) n ;;
  let data := set raw_meal_lsf_ratio
    (vv_add (sv_add 95
               (vs_mul (vs_sub (num data limestone_feed_rate)
                               limestone_feed_rate_mean) (25 # 10)))
            e) data in
  e <- normal 0 (1 # 10) n ;;
  let data := set clinker_free_lime
    (vv_add (vv_add (sv_sub 1
                       (vs_mul (vs_sub (num data fuel_feed_rate_tph)
                                       fuel_feed_rate_mean) (5 # 10)))
                    (vs_mul (vs_sub (num data raw_meal_lsf_ratio) 95)
                            (4 # 10)))
            e) data in
  e <- normal 0 10 n ;;
  let data := set kiln_specific_thermal_energy
    (vv_add (vv_sub (sv_add 750
                       (vs_mul (vs_sub (num data raw_meal_feed_rate_tph)
                                       raw_meal_feed_rate_mean) 5))
                    (vs_mul (vs_sub (num data fuel_alt_substitution_rate)
                                    fuel_alt_substitution_rate_mean) 2))
            e) data in
  e <- normal 0 20 n ;;
  let data := set kiln_exit_nox_emissions
    (vv_add (vv_add (sv_add 400
                       (vs_mul (vs_sub (num data fuel_feed_rate_tph)
                                       fuel_feed_rate_mean) 50))
                    (vs_mul (vs_sub (num data fuel_alt_substitution_rate)
                                    fuel_alt_substitution_rate_mean) 3))
            e) data in
  e <- normal 0 50 n ;;
  let data := set mill_motor_power_draw_kW
    (vv_add (vv_sub (vv_add (sv_add 4800
                               (vs_mul (vs_sub (num data clinker_feed_rate_tph)
                                               clinker_feed_rate_mill_mean)
                                       20))
                            (vs_mul (vs_sub (num data mill_recirculation_ratio)
                                            mill_recirculation_ratio_mean)
                                    10))
                    (vs_mul (vs_sub (num data clinker_free_lime) 1) 50))
            e) data in
  e <- normal 0 50 n ;;
  let data := set cement_fineness_blaine
    (vv_add (vv_sub (sv_sub 3600
                       (vs_mul (vs_sub (num data clinker_feed_rate_tph)
                                       clinker_feed_rate_mill_mean) 15))
                    (vs_mul (vs_sub (num data mill_motor_power_draw_kW) 4800)
                            (1 # 10)))
            e) data in
  let data := set mill_specific_electrical_energy
    (vv_div (num data mill_motor_power_draw_kW)
            (vv_add (num data clinker_feed_rate_tph)
                    (num data gypsum_feed_rate_tph))) data in
  ret data.

(** *** 5. Problematic scenarios *)

(** [int(len(data) * 0.15)]: the product truncated to an integer. *)
Definition num_problems (data : DataFrame) : nat :=
  Z.to_nat (Qfloor (inject_Z (Z.of_nat (len data)) * (15 # 100))).

Definition num_scenarios : nat := 3.

(** Rows drawn for one scenario: [num_problems // num_scenarios] labels
    out of the whole index, without replacement. *)
Definition pick_rows (data : DataFrame) : Rand (list nat) :=
  choice (index data) (num_problems data / num_scenarios)%nat.

(** Scenario 1: high LSF. *)
Definition high_lsf (data : DataFrame) : Rand (list nat * DataFrame) :=
  high_lsf_indices <- pick_rows data ;;
  u <- uniform 4 8 (length high_lsf_indices) ;;
  let data := loc_set high_lsf_indices limestone_feed_rate
    (vv_add (loc data high_lsf_indices limestone_feed_rate) u) data in
  e <- normal 0 (5 # 10) (length high_lsf_indices) ;;
  let data := loc_set high_lsf_indices raw_meal_lsf_ratio
    (vv_add (sv_add 95
               (vs_mul (vs_sub (loc data high_lsf_indices limestone_feed_rate)
                               limestone_feed_rate_mean) (25 # 10)))
            e) data in
  u <- uniform 1 (15 # 10) (length high_lsf_indices) ;;
  let data := loc_set high_lsf_indices clinker_free_lime
    (vv_add (sv_add 1
               (vs_mul (vs_sub (loc data high_lsf_indices raw_meal_lsf_ratio)
                               95) (4 # 10)))
            u) data in
  ret (high_lsf_indices, data).

(** Scenario 2: mill inefficiency. *)
Definition mill_inefficiency (data : DataFrame)
    : Rand (list nat * DataFrame) :=
  mill_ineff_indices <- pick_rows data ;;
  u <- uniform 200 400 (length mill_ineff_indices) ;;
  let data := loc_set mill_ineff_indices mill_motor_power_draw_kW
    (vv_add (loc data mill_ineff_indices mill_motor_power_draw_kW) u) data in
  u <- uniform 300 500 (length mill_ineff_indices) ;;
  let data := loc_set mill_ineff_indices cement_fineness_blaine
    (vv_sub (loc data mill_ineff_indices cement_fineness_blaine) u) data in
  let data := loc_set mill_ineff_indices mill_specific_electrical_energy
    (vv_div (loc data mill_ineff_indices mill_motor_power_draw_kW)
            (vv_add (loc data mill_ineff_indices clinker_feed_rate_tph)
                    (loc data mill_ineff_indices gypsum_feed_rate_tph)))
    data in
  ret (mill_ineff_indices, data).

(** Scenario 3: kiln instability with main drive current spikes. *)
Definition kiln_instability (data : DataFrame)
    : Rand (list nat * DataFrame) :=
  kiln_instability_indices <- pick_rows data ;;
  u <- uniform 30 60 (length kiln_instability_indices) ;;
  let data := loc_set kiln_instability_indices kiln_main_drive_current_Amp
    (vv_add (loc data kiln_instability_indices kiln_main_drive_current_Amp) u)
    data in
  u <- uniform (5 # 10) (8 # 10) (length kiln_instability_indices) ;;
  let data := loc_set kiln_instability_indices clinker_free_lime
    (vv_add (loc data kiln_instability_indices clinker_free_lime) u) data in
  u <- uniform 50 80 (length kiln_instability_indices) ;;
  let data := loc_set kiln_instability_indices kiln_specific_thermal_energy
    (vv_add (loc data kiln_instability_indices kiln_specific_thermal_energy) u)
    data in
  ret (kiln_instability_indices, data).

(** Everything the script holds just before step 6: the frame after
    step 4, the three row selections, the frame after each scenario. *)
Record Simulation : Type := {
  baseline : DataFrame;
  high_lsf_indices : list nat;
  after_high_lsf : DataFrame;
  mill_ineff_indices : list nat;
  after_mill_ineff : DataFrame;
  kiln_instability_indices : list nat;
  perturbed : DataFrame
}.

(** Steps 3 to 5, in the order of the script. *)
Definition simulate (interval : Z) (now : nat -> Z) (n : nat)
    : Rand Simulation :=
  data <- base_data interval now n ;;
  d0 <- simulate_kpis n data ;;
  r1 <- high_lsf d0 ;;
  r2 <- mill_inefficiency r1.2 ;;
  r3 <- kiln_instability r2.2 ;;
  ret {| baseline := d0;
         high_lsf_indices := r1.1; after_high_lsf := r1.2;
         mill_ineff_indices := r2.1; after_mill_ineff := r2.2;
         kiln_instability_indices := r3.1; perturbed := r3.2 |}.

End WithRandom.

(** *** 6. Finalize and save *)

(** [data.round(2)]: every numeric column is rounded; the timestamp column
    is not numeric and is left alone. *)
Definition round (data : DataFrame) : DataFrame :=
  {| timestamp := timestamp data;
     num := fun c => round2 <$> num data c |}.

Definition column_order : list string :=
  [ "timestamp"; "limestone_feed_rate_%"; "clay_feed_rate_%";
    "iron_ore_feed_rate_%"; "bauxite_feed_rate_%";
    "raw_meal_feed_rate_tph"; "fuel_feed_rate_tph";
    "fuel_alt_substitution_rate_%";
    "kiln_hood_pressure_mmH2O"; "kiln_burner_air_flow_m3/hr";
    "kiln_main_drive_current_Amp";
    "clinker_feed_rate_tph"; "gypsum_feed_rate_tph";
    "mill_recirculation_ratio_%"; "raw_meal_lsf_ratio";
    "clinker_free_lime_%";
    "kiln_specific_thermal_energy_Kcal/kg_clinker";
    "kiln_exit_nox_emissions_mg/Nm3"; "mill_motor_power_draw_kW";
    "mill_specific_electrical_energy_kWh/ton_cement";
    "cement_fineness_blaine_cm2/g" ]%string.

Definition bq_friendly_columns : list string :=
  [ "timestamp"; "limestone_feed_rate_pct"; "clay_feed_rate_pct";
    "iron_ore_feed_rate_pct"; "bauxite_feed_rate_pct";
    "raw_meal_feed_rate_tph"; "fuel_feed_rate_tph";
    "fuel_alt_substitution_rate_pct";
    "kiln_hood_pressure_mmH2O"; "kiln_burner_air_flow_m3_hr";
    "kiln_main_drive_current_amp";
    "clinker_feed_rate_tph"; "gypsum_feed_rate_tph";
    "mill_recirculation_ratio_pct"; "raw_meal_lsf_ratio";
    "clinker_free_lime_pct";
    "kiln_specific_thermal_energy_kcal_per_kg_clinker";
    "kiln_exit_nox_emissions_mg_per_nm3";
    "mill_motor_power_draw_kW";
    "mill_specific_electrical_energy_kwh_per_ton_cement";
    "cement_fineness_blaine_cm2_per_g" ]%string.

(** A column of the saved table: instants or numbers. *)
Inductive series : Type :=
  | Instants (v : list Z)
  | Numbers (v : list Q).

(** A frame with named, ordered columns, as step 6 handles it. *)
Definition Table : Type := list (string * series).

Definition columns : list column :=
  [ limestone_feed_rate; clay_feed_rate; iron_ore_feed_rate;
    bauxite_feed_rate; raw_meal_feed_rate_tph; fuel_feed_rate_tph;
    fuel_alt_substitution_rate; kiln_hood_pressure_mmH2O;
    kiln_burner_air_flow; clinker_feed_rate_tph; gypsum_feed_rate_tph;
    mill_recirculation_ratio; kiln_main_drive_current_Amp;
    raw_meal_lsf_ratio; clinker_free_lime; kiln_specific_thermal_energy;
    kiln_exit_nox_emissions; mill_motor_power_draw_kW;
    cement_fineness_blaine; mill_specific_electrical_energy ].

(** [data[name]]: the column stored under [name]; pandas raises [KeyError]
    for an unknown key ([None]). *)
Definition getitem (data : DataFrame) (name : string) : option series :=
  if String.eqb name "timestamp" then Some (Instants (timestamp data))
  else (fun c => Numbers (num data c))
         <$> List.find (fun c => String.eqb (column_name c) name) columns.

(** [data[names]]: the named columns, in the order asked for. *)
Definition reorder (data : DataFrame) (names : list string) : option Table :=
  mapM (fun name => (fun s => (name, s)) <$> getitem data name) names.

(** [data.columns = names]; pandas raises [ValueError] when the number of
    names is not the number of columns ([None]). *)
Definition set_columns (names : list string) (t : Table) : option Table :=
  if decide (length names = length t) then Some (zip names t.*2) else None.

(** One field of one record of the file. *)
Inductive field : Type :=
  | Instant (t : Z)
  | Number (x : Q).

Definition series_length (s : series) : nat :=
  match s with Instants v => length v | Numbers v => length v end.

Definition series_field (s : series) (i : nat) : option field :=
  match s with
  | Instants v => Instant <$> v !! i
  | Numbers v => Number <$> v !! i
  end.

(** The delimited file: a header line, then one record per row. *)
Record Csv : Type := {
  header : list string;
  records : list (list field)
}.

(** [data.to_csv(path, index=False)]. *)
Definition to_csv (t : Table) : Csv :=
  let rows := match t with [] => 0%nat | c :: _ => series_length c.2 end in
  {| header := t.*1;
     records := (fun i => omap (fun c => series_field c.2 i) t)
                  <$> seq 0 rows |}.

Definition finalize (data : DataFrame) : option Csv :=
  let data := round data in
  t ← reorder data column_order;
  t ← set_columns bq_friendly_columns t;
  Some (to_csv t).

(** The whole script for [n] rows: the file it writes. *)
Definition generate `{RandomState} (interval : Z) (now : nat -> Z) (n : nat)
    : Rand (option Csv) :=
  sim <- simulate interval now n ;;
  ret (finalize (perturbed sim)).

(** The script as configured: seed 42, 50000 rows, 15 minutes. *)
Definition main `{RandomState} (now : nat -> Z) : option Csv :=
  (generate INTERVAL_MINUTES now NUM_POINTS (seed 42)).1.

End Generator.

(* ===================================================================== *)
(** ** A scripted random source *)
(* ===================================================================== *)

(** A concrete [RandomState] for running the script on small inputs: the
    generator state is a list of prepared answers, consumed one per call,
    together with the log of the calls made so far.  Prepared answers are
    fitted to what was asked (resized, clamped into the requested interval,
    restricted to distinct members of the population), so that the source
    obeys [RandomLaws] whatever the script says. *)
Module Script.

Inductive answer : Type :=
  | Values (z : list Q)     (* standard variates, or fractions of a range *)
  | Rows (p : list nat).    (* preferred labels *)

(** One logged request. *)
Inductive request : Type :=
  | AskNormal (mu sd : Q) (n : nat)
  | AskUniform (lo hi : Q) (n : nat)
  | AskChoice (population size : nat).

Record state : Type := {
  script : list answer;
  log : list request
}.

Definition next (r : request) (s : state) : state :=
  {| script := tail (script s); log := log s ++ [r] |}.

Definition values (s : state) : list Q :=
  match script s with Values z :: _ => z | _ => [] end.

Definition rows (s : state) : list nat :=
  match script s with Rows p :: _ => p | _ => [] end.

Definition clamp01 (u : Q) : Q :=
  if Qle_bool u 0 then 0 else if Qle_bool 1 u then 1 else u.

Definition mem (a : list nat) (i : nat) : bool := bool_decide (i ∈ a).

Definition scripted (book : Z -> list answer) : RandomState := {|
  rng := state;
  seed := fun z => {| script := book z; log := [] |};
  normal := fun mu sd n s =>
    (resize n mu ((fun z => mu + sd * z) <$> values s),
     next (AskNormal mu sd n) s);
  uniform := fun lo hi n s =>
    (resize n lo ((fun u => lo + (hi - lo) * clamp01 u) <$> values s),
     next (AskUniform lo hi n) s);
  choice := fun a k s =>
    let p := remove_dups (filter (fun i => mem a i = true) (rows s)) in
    (take k (p ++ list_difference a p), next (AskChoice (length a) k) s)
|}.

End Script.

(* ===================================================================== *)
(** ** Python and Flask values shared by the four services *)
(* ===================================================================== *)

Module Py.

Open Scope string_scope.

(** A decoded JSON document.  [JNull] is Python's [None]; an object is its
    list of members, keys distinct, as [json.loads] leaves them. *)
#[local] Unset Elimination Schemes.
Inductive json : Type :=
  | JNull
  | JBool (b : bool)
  | JNum (q : Q)
  | JStr (s : string)
  | JArr (l : list json)
  | JObj (o : list (string * json)).
#[local] Set Elimination Schemes.

(** The exceptions the handlers tell apart: [ValueError] has a handler of
    its own in two services, [KeyError] prints its message quoted, every
    other class only reaches an [except Exception]. *)
Inductive exception : Type :=
  | ValueError (msg : string)
  | KeyError (msg : string)
  | Error (class msg : string).

Inductive result (A : Type) : Type :=
  | Ok (a : A)
  | Raise (e : exception).
Arguments Ok {A} a.
Arguments Raise {A} e.

Definition and_then {A B} (r : result A) (k : A -> result B) : result B :=
  match r with Ok a => k a | Raise e => Raise e end.

Notation "'try!' x := r 'in' k" := (and_then r (fun x => k))
  (at level 10, x name, r at level 100, k at level 200).

Definition quote_char (c : ascii) : string := String c EmptyString.
Definition single_quote : ascii := ascii_of_nat 39.
Definition double_quote : ascii := ascii_of_nat 34.

Fixpoint has_char (c : ascii) (s : string) : bool :=
  match s with
  | EmptyString => false
  | String d s' => if Ascii.eqb c d then true else has_char c s'
  end.

(** [repr] of a [str] without backslashes or control characters: double
    quotes are used when the text holds a single quote and no double one. *)
Definition repr (s : string) : string :=
  let q := if has_char single_quote s && negb (has_char double_quote s)
           then double_quote else single_quote in
  quote_char q ++ s ++ quote_char q.

(** [str(e)]. *)
Definition str (e : exception) : string :=
  match e with
  | ValueError m => m
  | KeyError m => repr m
  | Error _ m => m
  end.

(** [repr] of a list of strings, as an f-string prints it. *)
Definition repr_list (l : list string) : string :=
  "[" ++ String.concat ", " (repr <$> l) ++ "]".

(** Truth value of a decoded document ([if not request_json]). *)
Definition truthy (v : json) : bool :=
  match v with
  | JNull => false
  | JBool b => b
  | JNum q => negb (Qeq_bool q 0)
  | JStr s => negb (String.eqb s EmptyString)
  | JArr l => match l with [] => false | _ => true end
  | JObj o => match o with [] => false | _ => true end
  end.

Definition lookup_key (k : string) (o : list (string * json)) : option json :=
  snd <$> List.find (fun kv => String.eqb kv.1 k) o.

(** [v.get(k, d)]: only a dict has the method. *)
Definition get (v : json) (k : string) (d : json) : result json :=
  match v with
  | JObj o => Ok (default d (lookup_key k o))
  | _ => Raise (Error "AttributeError" "object has no attribute 'get'")
  end.

Definition is_str (k : string) (v : json) : bool :=
  match v with JStr s => String.eqb s k | _ => false end.

Fixpoint prefix (p s : string) : bool :=
  match p, s with
  | EmptyString, _ => true
  | String a p', String b s' => Ascii.eqb a b && prefix p' s'
  | String _ _, EmptyString => false
  end.

Fixpoint substring (p s : string) : bool :=
  prefix p s || match s with EmptyString => false | String _ s' => substring p s' end.

(** [k in v] for a string key [k]. *)
Definition contains (k : string) (v : json) : result bool :=
  match v with
  | JObj o => Ok (bool_decide (is_Some (lookup_key k o)))
  | JArr l => Ok (existsb (is_str k) l)
  | JStr s => Ok (substring k s)
  | _ => Raise (Error "TypeError" "argument is not iterable")
  end.

(** [v[k]] for a string key [k]. *)
Definition getitem (v : json) (k : string) : result json :=
  match v with
  | JObj o => match lookup_key k o with
              | Some x => Ok x
              | None => Raise (KeyError k)
              end
  | _ => Raise (Error "TypeError" "indices must be integers")
  end.

(** Python's parser of float literals, [float(s)] on a [str], is not
    part of the services; [None] stands for its [ValueError]. *)
Class FloatSyntax := float_of_str : string -> option Q.

(** [float(v)]. *)
Definition float `{FloatSyntax} (v : json) : result Q :=
  match v with
  | JNum q => Ok q
  | JBool b => Ok (if b then 1%Q else 0%Q)
  | JStr s => match float_of_str s with
              | Some q => Ok q
              | None => Raise (ValueError "could not convert string to float")
              end
  | _ => Raise (Error "TypeError"
                  "float() argument must be a string or a real number")
  end.

(** [round(v, 2)] on whatever the endpoint returned. *)
Definition round (v : json) : result Q :=
  match v with
  | JNum q => Ok (round2 q)
  | JBool b => Ok (if b then 1%Q else 0%Q)
  | _ => Raise (Error "TypeError" "type doesn't define __round__ method")
  end.

(** [isinstance(v, (int, float))]; [bool] is a subclass of [int]. *)
Definition is_number (v : json) : bool :=
  match v with JNum _ | JBool _ => true | _ => false end.

(** *** Flask *)

(** The two methods the routes accept. *)
Inductive http_method : Set := POST | OPTIONS.

(** A request: its method and its body as [get_json] sees it, [None] when
    the body cannot be read as JSON. *)
Record request : Type := {
  method : http_method;
  body : option json
}.

(** [request.get_json(silent=...)]: an unreadable body is [None] when
    silenced and a [BadRequest] otherwise. *)
Definition get_json (silent : bool) (r : request) : result json :=
  match body r with
  | Some v => Ok v
  | None => if silent then Ok JNull
            else Raise (Error "BadRequest"
                          "Failed to decode JSON object")
  end.

Inductive content : Type :=
  | Json (v : json)       (* jsonify(...) *)
  | Text (s : string).    (* a response built from literal text *)

Record response : Type := {
  status : nat;
  payload : content
}.

(** [jsonify({"error": msg})]. *)
Definition error_body (msg : string) : content :=
  Json (JObj [("error", JStr msg)]).

(** A deployed regression endpoint: [endpoint.predict(instances=[features])]
    either raises or answers with a list of predictions. *)
Definition Endpoint : Type := list (string * Q) -> result (list json).

End Py.

Module PyList.
Import Py.

(** A comprehension whose element expression may raise: the first
    exception ends it. *)
Fixpoint traverse {A B} (f : A -> result B) (l : list A) : result (list B) :=
  match l with
  | [] => Ok []
  | a :: l' => try! b := f a in try! bs := traverse f l' in Ok (b :: bs)
  end.

(** [d.get(k)] on a dict literal of the module. *)
Definition assoc {V} (k : string) (d : list (string * V)) : option V :=
  snd <$> List.find (fun kv => String.eqb kv.1 k) d.

Definition is_null (v : json) : bool :=
  match v with JNull => true | _ => false end.

(** Truth value of [os.environ.get(...)]. *)
Definition is_set (v : option string) : bool :=
  match v with Some (String _ _) => true | _ => false end.

End PyList.

(* ===================================================================== *)
(** ** backend_server_prediction-clinker-free-lime.py *)
(* ===================================================================== *)

Module FreeLime.
Import Py PyList.
Open Scope string_scope.

Definition MODEL_ENDPOINT_IDS : list (string * string) :=
  [ ("clinker_free_lime_%", "6552534048172933120");
    ("raw_meal_lsf_ratio", "your-raw-meal-lsf-deployed-model-id");
    ("kiln_specific_thermal_energy_Kcal/kg_clinker",
     "your-kiln-thermal-energy-deployed-model-id");
    ("kiln_exit_nox_emissions_mg/Nm3", "your-kiln-nox-deployed-model-id");
    ("mill_motor_power_draw_kW", "your-mill-motor-power-deployed-model-id");
    ("mill_specific_electrical_energy_kWh/ton_cement",
     "your-mill-specific-electrical-energy-deployed-model-id");
    ("cement_fineness_blaine_cm2/g", "your-cement-fineness-deployed-model-id") ].

Definition MODEL_FEATURES : list (string * list string) :=
  [ ("clinker_free_lime_%",
     [ "raw_meal_lsf_ratio"; "limestone_feed_rate_pct"; "clay_feed_rate_pct";
       "iron_ore_feed_rate_pct"; "bauxite_feed_rate_pct";
       "raw_meal_feed_rate_tph"; "fuel_feed_rate_tph";
       "fuel_alt_substitution_rate_pct"; "kiln_hood_pressure_mmH2O";
       "kiln_burner_air_flow_m3_hr"; "kiln_main_drive_current_amp" ]);
    ("raw_meal_lsf_ratio",
     [ "limestone_feed_rate_pct"; "clay_feed_rate_pct";
       "iron_ore_feed_rate_pct"; "bauxite_feed_rate_pct";
       "raw_meal_feed_rate_tph" ]);
    ("kiln_specific_thermal_energy_Kcal/kg_clinker",
     [ "raw_meal_feed_rate_tph"; "fuel_feed_rate_tph";
       "fuel_alt_substitution_rate_pct"; "kiln_hood_pressure_mmH2O";
       "kiln_burner_air_flow_m3_hr"; "kiln_main_drive_current_amp" ]);
    ("kiln_exit_nox_emissions_mg/Nm3",
     [ "fuel_feed_rate_tph"; "fuel_alt_substitution_rate_pct";
       "kiln_burner_air_flow_m3_hr" ]);
    ("mill_motor_power_draw_kW",
     [ "clinker_feed_rate_tph"; "gypsum_feed_rate_tph";
       "mill_recirculation_ratio_%" ]);
    ("mill_specific_electrical_energy_kWh/ton_cement",
     [ "clinker_feed_rate_tph"; "gypsum_feed_rate_tph";
       "mill_recirculation_ratio_%"; "mill_motor_power_draw_kW" ]);
    ("cement_fineness_blaine_cm2/g",
     [ "mill_recirculation_ratio_%"; "mill_motor_power_draw_kW";
       "clinker_feed_rate_tph"; "gypsum_feed_rate_tph" ]) ].

(** Global initialisation: one endpoint object per KPI whose identifier is
    not a placeholder, provided the project is configured and the
    constructor ([connect]) does not raise. *)
Definition init_global_endpoints (PROJECT_ID : option string)
    (connect : string -> result Endpoint) : list (string * Endpoint) :=
  omap (fun kv : string * string =>
          let (kpi, endpoint_id) := kv in
          if is_set PROJECT_ID && is_set (Some endpoint_id)
             && negb (prefix "your-" endpoint_id)
          then match connect endpoint_id with
               | Ok ep => Some (kpi, ep)
               | Raise _ => None
               end
          else None)
       MODEL_ENDPOINT_IDS.

(** [None] is the Python [None] the function returns on every failure. *)
Definition get_vertex_prediction `{FloatSyntax} (endpoint : Endpoint)
    (input_data : list (string * Q)) : option Q :=
  match endpoint input_data with
  | Raise _ => None
  | Ok predictions =>
      match predictions with
      | JNull :: _ | [] => None
      | JObj o :: _ =>
          match lookup_key "value" o with
          | Some v => match float v with Ok q => Some q | Raise _ => None end
          | None => None
          end
      | prediction :: _ =>
          if is_number prediction
          then match float prediction with Ok q => Some q | Raise _ => None end
          else None
      end
  end.

Definition kpi_to_predict : string := "clinker_free_lime_%".

(** The body of the [try] block: the value stored under the KPI key. *)
Definition predict `{FloatSyntax} (global_endpoints : list (string * Endpoint))
    (current_request : request) : result json :=
  try! request_json := get_json false current_request in
  if is_null request_json
  then Raise (ValueError "The request body is empty or not a valid JSON.")
  else
    match assoc kpi_to_predict global_endpoints with
    | None => Ok JNull
    | Some endpoint =>
        let required_features :=
          default [] (assoc kpi_to_predict MODEL_FEATURES) in
        try! input_data :=
          traverse (fun feature =>
                      try! v := get request_json feature JNull in
                      Ok (feature, v))
                   required_features in
        let missing_features :=
          (filter (fun fv => is_null fv.2 = true) input_data).*1 in
        match missing_features with
        | _ :: _ => Ok JNull
        | [] =>
            try! input_data_float :=
              traverse (fun kv : string * json =>
                          try! x := float kv.2 in Ok (kv.1, x))
                       input_data in
            match get_vertex_prediction endpoint input_data_float with
            | Some predicted_value => Ok (JNum (round2 predicted_value))
            | None => Ok JNull
            end
        end
    end.

Definition flask_predict `{FloatSyntax}
    (global_endpoints : list (string * Endpoint))
    (current_request : request) : response :=
  match method current_request with
  | OPTIONS => {| status := 200; payload := Json (JObj [("status", JStr "OK")]) |}
  | POST =>
      match predict global_endpoints current_request with
      | Ok prediction =>
          {| status := 200;
             payload := Json (JObj [("clinker_free_lime_%", prediction)]) |}
      | Raise (ValueError ve) =>
          {| status := 400; payload := error_body ve |}
      | Raise _ =>
          {| status := 500;
             payload := error_body "An internal server error occurred." |}
      end
  end.

End FreeLime.

(* ===================================================================== *)
(** ** backend-server-prediction-kiln-thermal-energy.py *)
(* ===================================================================== *)

Module ThermalEnergy.
Import Py PyList.
Open Scope string_scope.

Definition MODEL_ENDPOINT_IDS : list (string * string) :=
  [ ("kiln_specific_thermal_energy_Kcal/kg_clinker", "8596851619650338816");
    ("clinker_free_lime_%", "6552534048172933120") ].

Definition MODEL_FEATURES : list (string * list string) :=
  [ ("kiln_specific_thermal_energy_Kcal/kg_clinker",
     [ "raw_meal_feed_rate_tph"; "fuel_feed_rate_tph";
       "fuel_alt_substitution_rate_pct"; "kiln_hood_pressure_mmH2O";
       "kiln_burner_air_flow_m3_hr"; "kiln_main_drive_current_amp" ]) ].

Definition TARGET_KPI : string :=
  "kiln_specific_thermal_energy_Kcal/kg_clinker".

(** Global initialisation of the one endpoint this service uses. *)
Definition init_global_endpoints (PROJECT_ID : option string)
    (connect : string -> result Endpoint) : list (string * Endpoint) :=
  match assoc TARGET_KPI MODEL_ENDPOINT_IDS with
  | None => []
  | Some endpoint_id =>
      if is_set PROJECT_ID && is_set (Some endpoint_id)
         && negb (prefix "your-" endpoint_id)
      then match connect endpoint_id with
           | Ok ep => [(TARGET_KPI, ep)]
           | Raise _ => []
           end
      else []
  end.

(** The value returned, [JNull] for Python's [None].  A dict answer is
    unwrapped without conversion. *)
Definition get_vertex_prediction (endpoint : Endpoint)
    (input_data : list (string * Q)) : json :=
  match endpoint input_data with
  | Raise _ => JNull
  | Ok predictions =>
      match predictions with
      | JObj o :: _ => default JNull (lookup_key "value" o)
      | JNum q :: _ => JNum q
      | JBool b :: _ => JNum (if b then 1%Q else 0%Q)
      | _ => JNull
      end
  end.

(** What the [try] block returns before any exception handler runs. *)
Definition predict `{FloatSyntax} (global_endpoints : list (string * Endpoint))
    (current_request : request) : result response :=
  try! request_json := get_json false current_request in
  if is_null request_json
  then Raise (ValueError "The request body is empty or not a valid JSON.")
  else
    let kpi_to_predict := TARGET_KPI in
    match assoc kpi_to_predict global_endpoints with
    | None =>
        Ok {| status := 503;
              payload := error_body ("Prediction service is unavailable for "
                                     ++ kpi_to_predict ++ ".") |}
    | Some endpoint =>
        let required_features :=
          default [] (assoc kpi_to_predict MODEL_FEATURES) in
        try! input_data :=
          traverse (fun feature =>
                      try! v := get request_json feature JNull in
                      Ok (feature, v))
                   required_features in
        let missing_features :=
          (filter (fun fv => is_null fv.2 = true) input_data).*1 in
        match missing_features with
        | _ :: _ =>
            Ok {| status := 400;
                  payload := error_body
                    ("Missing data for required features: "
                     ++ repr_list missing_features ++ ". Required: "
                     ++ repr_list required_features) |}
        | [] =>
            try! input_data_float :=
              traverse (fun kv : string * json =>
                          try! x := float kv.2 in Ok (kv.1, x))
                       input_data in
            let predicted_value :=
              get_vertex_prediction endpoint input_data_float in
            if is_null predicted_value
            then Ok {| status := 500;
                       payload := error_body
                         "Prediction returned an invalid or null value." |}
            else
              try! formatted_prediction := round predicted_value in
              Ok {| status := 200;
                    payload := Json (JObj
                      [("kiln_specific_thermal_energy_Kcal/kg_clinker",
                        JNum formatted_prediction)]) |}
        end
    end.

Definition flask_predict `{FloatSyntax}
    (global_endpoints : list (string * Endpoint))
    (current_request : request) : response :=
  match method current_request with
  | OPTIONS => {| status := 200; payload := Json (JObj [("status", JStr "OK")]) |}
  | POST =>
      match predict global_endpoints current_request with
      | Ok r => r
      | Raise (ValueError ve) =>
          {| status := 400; payload := error_body ve |}
      | Raise e =>
          {| status := 500;
             payload := error_body
               ("An internal server error occurred: " ++ str e) |}
      end
  end.

End ThermalEnergy.

(* ===================================================================== *)
(** ** backend-server_image_analysis-kiln.py *)
(* ===================================================================== *)

Module ImageAnalysis.
Import Py PyList.
Open Scope string_scope.

(** Everything the handler does once the payload is accepted
    ([get_gemini_client], [create_kiln_prompt] with its bucket listing and
    base64 decoding, [generate_content]) runs in external services; it is
    one call that raises or yields the text of the model's answer. *)
Definition Analysis : Type := json -> json -> result string.

Definition analyse_request (analyse : Analysis) (flask_request : request)
    : result string :=
  try! request_json := get_json true flask_request in
  if negb (truthy request_json)
  then Raise (ValueError "Invalid JSON or empty request body.")
  else
    try! present := contains "image_data_b64" request_json in
    if negb present
    then Raise (KeyError
                  "Missing required key 'image_data_b64' in the JSON payload.")
    else
      try! test_image_b64 := getitem request_json "image_data_b64" in
      try! test_image_mimetype :=
        get request_json "mime_type" (JStr "image/jpeg") in
      analyse test_image_b64 test_image_mimetype.

Definition flask_predict (analyse : Analysis) (flask_request : request)
    : response :=
  match method flask_request with
  | OPTIONS => {| status := 204; payload := Text EmptyString |}
  | POST =>
      match analyse_request analyse flask_request with
      | Ok text => {| status := 200; payload := Text text |}
      | Raise e => {| status := 500; payload := error_body (str e) |}
      end
  end.

End ImageAnalysis.

(* ===================================================================== *)
(** ** backend_server_recommendation.py *)
(* ===================================================================== *)

Module Recommendation.
Import Py PyList.
Open Scope string_scope.

(** [generate_recommendations_llm]: the prompt is sent to the hosted
    model and its answer decoded; the call raises or yields a document. *)
Definition Recommender : Type := json -> json -> result json.

Definition recommend (generate_recommendations_llm : Recommender)
    (flask_request : request) : result json :=
  try! request_json := get_json true flask_request in
  if negb (truthy request_json)
  then Raise (ValueError
    "Invalid JSON or empty request body. Expected 'current_inputs' and 'predicted_kpis'.")
  else
    try! current_inputs := get request_json "current_inputs" (JObj []) in
    try! predicted_kpis := get request_json "predicted_kpis" (JObj []) in
    if negb (truthy current_inputs) || negb (truthy predicted_kpis)
    then Raise (KeyError
      "Missing 'current_inputs' or 'predicted_kpis' in the JSON payload.")
    else generate_recommendations_llm current_inputs predicted_kpis.

Definition flask_route_recommendations
    (generate_recommendations_llm : Recommender) (flask_request : request)
    : response :=
  match method flask_request with
  | OPTIONS => {| status := 204; payload := Text EmptyString |}
  | POST =>
      match recommend generate_recommendations_llm flask_request with
      | Ok recommendations =>
          {| status := 200; payload := Json recommendations |}
      | Raise e =>
          {| status := 500;
             payload := Json (JObj
               [ ("error", JStr (str e));
                 ("message", JStr
    "The LLM recommendation engine encountered an error. Please check the logs.") ]) |}
      end
  end.

End Recommendation.

(* ===================================================================== *)
(** ** The specification's formulas *)
(* ===================================================================== *)

(** The dependencies, counts and naming rule as the specification words
    them, to be compared with what the script computes. *)
Module Spec.

(** Derived KPIs of one row: mean formula plus the row's noise term. *)
Definition raw_meal_lsf_ratio (limestone_pct noise : Q) : Q :=
  95 + (25 # 10) * (limestone_pct - 78) + noise.

Definition clinker_free_lime_pct (fuel_tph lsf noise : Q) : Q :=
  1 - (5 # 10) * (fuel_tph - (95 # 10)) + (4 # 10) * (lsf - 95) + noise.

Definition kiln_specific_thermal_energy (raw_meal_tph fuel_alt_pct noise : Q)
    : Q :=
  750 + 5 * (raw_meal_tph - 175) - 2 * (fuel_alt_pct - 15) + noise.

Definition kiln_exit_nox (fuel_tph fuel_alt_pct noise : Q) : Q :=
  400 + 50 * (fuel_tph - (95 # 10)) + 3 * (fuel_alt_pct - 15) + noise.

Definition mill_motor_power_draw_kW
    (clinker_tph recirc_pct free_lime noise : Q) : Q :=
  4800 + 20 * (clinker_tph - 110) + 10 * (recirc_pct - 55)
  - 50 * (free_lime - 1) + noise.

Definition cement_fineness_blaine (clinker_tph mill_power noise : Q) : Q :=
  3600 - 15 * (clinker_tph - 110) - (1 # 10) * (mill_power - 4800) + noise.

Definition mill_specific_electrical_energy
    (mill_power clinker_tph gypsum_tph : Q) : Q :=
  mill_power / (clinker_tph + gypsum_tph).

(** High-LSF rows: free lime from the LSF alone, plus the excursion. *)
Definition high_lsf_free_lime (lsf excursion : Q) : Q :=
  1 + (4 # 10) * (lsf - 95) + excursion.

(** Size of each anomaly subset: the floor of [0.15 * N / 3]. *)
Definition anomaly_rows (N : nat) : nat :=
  Z.to_nat (Qfloor ((15 # 100) * inject_Z (Z.of_nat N) / 3)).

(** The storage-safe naming rule: percent becomes [pct], a slash becomes
    [per], any other non-alphanumeric character becomes an underscore.
    [per] is the text put in place of a slash (the rule does not say
    whether separators surround the word). *)
Definition alphanumeric (c : ascii) : bool :=
  let n := nat_of_ascii c in
  ((48 <=? n) && (n <=? 57) || (65 <=? n) && (n <=? 90)
   || (97 <=? n) && (n <=? 122))%nat.

Fixpoint storage_safe (per : string) (name : string) : string :=
  match name with
  | EmptyString => EmptyString
  | String c rest =>
      (if Ascii.eqb c "%" then "pct"
       else if Ascii.eqb c "/" then per
       else if alphanumeric c then String c EmptyString
       else "_")
      ++ storage_safe per rest
  end%string.

(** Letter case folded away, to compare names up to case. *)
Definition lower (c : ascii) : ascii :=
  let n := nat_of_ascii c in
  if ((65 <=? n) && (n <=? 90))%nat then ascii_of_nat (n + 32) else c.

Fixpoint lowercase (s : string) : string :=
  match s with
  | EmptyString => EmptyString
  | String c rest => String (lower c) (lowercase rest)
  end.

End Spec.

(* ===================================================================== *)
(** ** Vocabulary of the statements *)
(* ===================================================================== *)

Module Rows.
Import Generator.

(** The value of column [c] in row [i]. *)
Definition value (data : DataFrame) (c : column) (i : nat) : Q :=
  cell (num data c) i.

(** Every column has [n] rows. *)
Definition complete (n : nat) (data : DataFrame) : Prop :=
  len data = n /\ forall c, length (num data c) = n.



(** Power draw over the mill feed, from the columns of row [i]. *)
Definition energy_ratio (data : DataFrame) (i : nat) : Q :=
  value data mill_motor_power_draw_kW i
  / (value data clinker_feed_rate_tph i + value data gypsum_feed_rate_tph i).

(** The energy relation as the specification states it for a row: exact
    before rounding, within 0.01 over the rounded columns. *)
Definition energy_claim (data : DataFrame) (i : nat) : Prop :=
  value data mill_specific_electrical_energy i == energy_ratio data i
  /\ Qabs (value (round data) mill_specific_electrical_energy i
           - energy_ratio (round data) i) <= 1 # 100.

(** A scenario's row selection out of [n] rows: as many labels as the
    specification says, all different, all in the index. *)
Definition selection (n : nat) (idx : list nat) : Prop :=
  length idx = Spec.anomaly_rows n
  /\ NoDup idx
  /\ forall i, i ∈ idx -> (i < n)%nat.

Section WithRandom.
Context `{RandomState}.

(** The generator state reached after the independent variables have
    been sampled, where the KPI noise is drawn. *)
Definition after_base (interval : Z) (now : nat -> Z) (n : nat) (s : rng)
    : rng :=
  (base_data interval now n s).2.

(** The six noise series of step 4: one [normal] call each, one after the
    other, in the order of the script. *)
Record Noise : Type := {
  lsf_noise : list Q;
  free_lime_noise : list Q;
  thermal_noise : list Q;
  nox_noise : list Q;
  power_noise : list Q;
  fineness_noise : list Q
}.

Definition kpi_noise (n : nat) (s : rng) : Noise :=
  let r1 := normal 0 (5 # 10) n s in
  let r2 := normal 0 (1 # 10) n r1.2 in
  let r3 := normal 0 10 n r2.2 in
  let r4 := normal 0 20 n r3.2 in
  let r5 := normal 0 50 n r4.2 in
  let r6 := normal 0 50 n r5.2 in
  {| lsf_noise := r1.1; free_lime_noise := r2.1; thermal_noise := r3.1;
     nox_noise := r4.1; power_noise := r5.1; fineness_noise := r6.1 |}.

(** What each scenario draws after selecting its rows, in call order. *)
Record HighLsf : Type := {
  limestone_rise : list Q;      (* U(4, 8) *)
  lsf_renoise : list Q;         (* N(0, 0.5) *)
  free_lime_excursion : list Q  (* U(1.0, 1.5) *)
}.

Definition high_lsf_draws (data : DataFrame) (s : rng) : HighLsf :=
  let r0 := pick_rows data s in
  let k := length r0.1 in
  let r1 := uniform 4 8 k r0.2 in
  let r2 := normal 0 (5 # 10) k r1.2 in
  let r3 := uniform 1 (15 # 10) k r2.2 in
  {| limestone_rise := r1.1; lsf_renoise := r2.1;
     free_lime_excursion := r3.1 |}.

Record MillInefficiency : Type := {
  power_rise : list Q;          (* U(200, 400) *)
  fineness_drop : list Q        (* U(300, 500) *)
}.

Definition mill_inefficiency_draws (data : DataFrame) (s : rng)
    : MillInefficiency :=
  let r0 := pick_rows data s in
  let k := length r0.1 in
  let r1 := uniform 200 400 k r0.2 in
  let r2 := uniform 300 500 k r1.2 in
  {| power_rise := r1.1; fineness_drop := r2.1 |}.

Record KilnInstability : Type := {
  current_rise : list Q;        (* U(30, 60) *)
  free_lime_rise : list Q;      (* U(0.5, 0.8) *)
  thermal_rise : list Q         (* U(50, 80) *)
}.

Definition kiln_instability_draws (data : DataFrame) (s : rng)
    : KilnInstability :=
  let r0 := pick_rows data s in
  let k := length r0.1 in
  let r1 := uniform 30 60 k r0.2 in
  let r2 := uniform (5 # 10) (8 # 10) k r1.2 in
  let r3 := uniform 50 80 k r2.2 in
  {| current_rise := r1.1; free_lime_rise := r2.1; thermal_rise := r3.1 |}.

(** The run cut into its stages, each with the generator state it leaves:
    steps 3 and 4, then the three scenarios in turn. *)
Definition kpis_stage (interval : Z) (now : nat -> Z) (n : nat) (s : rng)
    : DataFrame * rng :=
  let b := base_data interval now n s in
  simulate_kpis n b.1 b.2.

Definition high_lsf_stage (interval : Z) (now : nat -> Z) (n : nat) (s : rng)
    : list nat * DataFrame * rng :=
  let k := kpis_stage interval now n s in
  high_lsf k.1 k.2.

Definition mill_stage (interval : Z) (now : nat -> Z) (n : nat) (s : rng)
    : list nat * DataFrame * rng :=
  let r := high_lsf_stage interval now n s in
  mill_inefficiency r.1.2 r.2.

Definition kiln_stage (interval : Z) (now : nat -> Z) (n : nat) (s : rng)
    : list nat * DataFrame * rng :=
  let r := mill_stage interval now n s in
  kiln_instability r.1.2 r.2.

(** All scenario draws of one run. *)
Record Draws : Type := {
  scenario1 : HighLsf;
  scenario2 : MillInefficiency;
  scenario3 : KilnInstability
}.

Definition draws (interval : Z) (now : nat -> Z) (n : nat) (s : rng)
    : Draws :=
  let k := kpis_stage interval now n s in
  let r1 := high_lsf_stage interval now n s in
  let r2 := mill_stage interval now n s in
  {| scenario1 := high_lsf_draws k.1 k.2;
     scenario2 := mill_inefficiency_draws r1.1.2 r1.2;
     scenario3 := kiln_instability_draws r2.1.2 r2.2 |}.

End WithRandom.
End Rows.

(* ===================================================================== *)
(** ** Vocabulary for the saved file and the order of draws *)
(* ===================================================================== *)

Module Files.
Import Generator.

Definition is_number (f : field) : bool :=
  match f with Number _ => true | Instant _ => false end.

(** The file without its timestamp column: the header loses that name,
    every record loses its instants. *)
Definition without_timestamp (c : Csv) : Csv :=
  {| header := filter (fun name => String.eqb name "timestamp" = false)
                     (header c);
     records := (fun r => filter (fun f => is_number f = true) r)
                  <$> records c |}.

(** Two frames with the same numeric columns and the same number of rows;
    their timestamps may differ. *)
Definition same_numbers (d1 d2 : DataFrame) : Prop :=
  num d1 = num d2 /\ len d1 = len d2.

(** The numeric columns in the order of the saved file. *)
Definition numeric_order : list column :=
  [ limestone_feed_rate; clay_feed_rate; iron_ore_feed_rate;
    bauxite_feed_rate; raw_meal_feed_rate_tph; fuel_feed_rate_tph;
    fuel_alt_substitution_rate; kiln_hood_pressure_mmH2O;
    kiln_burner_air_flow; kiln_main_drive_current_Amp;
    clinker_feed_rate_tph; gypsum_feed_rate_tph; mill_recirculation_ratio;
    raw_meal_lsf_ratio; clinker_free_lime; kiln_specific_thermal_energy;
    kiln_exit_nox_emissions; mill_motor_power_draw_kW;
    mill_specific_electrical_energy; cement_fineness_blaine ].

(** The rounded numeric columns under their storage names. *)
Definition saved_numbers (data : DataFrame) : Table :=
  zip (tail bq_friendly_columns)
      ((fun c => Numbers (round2 <$> num data c)) <$> numeric_order).

(** The table that is written out: the timestamps, then the rounded
    numeric columns, under the storage names. *)
Definition saved_table (data : DataFrame) : Table :=
  zip bq_friendly_columns
      (Instants (timestamp data)
       :: ((fun c => Numbers (round2 <$> num data c)) <$> numeric_order)).

(** The requests one run makes of the random source, in order: the twelve
    independent variables and the six KPI noise series, all of size [n];
    then, scenario after scenario, the selection of [k] rows of [n]
    followed at once by that scenario's magnitudes, of size [k]. *)
Definition replay_order (n : nat) : list Script.request :=
  let k := Spec.anomaly_rows n in
  [ Script.AskNormal limestone_feed_rate_mean (15 # 10) n;
    Script.AskNormal clay_feed_rate_mean 1 n;
    Script.AskNormal iron_ore_feed_rate_mean (3 # 10) n;
    Script.AskNormal raw_meal_feed_rate_mean raw_meal_feed_rate_std n;
    Script.AskNormal fuel_feed_rate_mean fuel_feed_rate_std n;
    Script.AskNormal fuel_alt_substitution_rate_mean
                     fuel_alt_substitution_rate_std n;
    Script.AskNormal kiln_hood_pressure_mean kiln_hood_pressure_std n;
    Script.AskNormal kiln_burner_air_flow_mean kiln_burner_air_flow_std n;
    Script.AskNormal clinker_feed_rate_mill_mean clinker_feed_rate_mill_std n;
    Script.AskNormal gypsum_feed_rate_mean gypsum_feed_rate_std n;
    Script.AskNormal mill_recirculation_ratio_mean
                     mill_recirculation_ratio_std n;
    Script.AskNormal kiln_main_drive_current_mean
                     kiln_main_drive_current_std n;
    Script.AskNormal 0 (5 # 10) n; Script.AskNormal 0 (1 # 10) n;
    Script.AskNormal 0 10 n; Script.AskNormal 0 20 n;
    Script.AskNormal 0 50 n; Script.AskNormal 0 50 n;
    Script.AskChoice n k;
    Script.AskUniform 4 8 k; Script.AskNormal 0 (5 # 10) k;
    Script.AskUniform 1 (15 # 10) k;
    Script.AskChoice n k;
    Script.AskUniform 200 400 k; Script.AskUniform 300 500 k;
    Script.AskChoice n k;
    Script.AskUniform 30 60 k; Script.AskUniform (5 # 10) (8 # 10) k;
    Script.AskUniform 50 80 k ].

(** The order as the specification words it: main sampling, then the
    three subset selections, then the per-scenario magnitude draws. *)
Definition phased_order (n : nat) : list Script.request :=
  let k := Spec.anomaly_rows n in
  take 18 (replay_order n)
  ++ [ Script.AskChoice n k; Script.AskChoice n k; Script.AskChoice n k ]
  ++ [ Script.AskUniform 4 8 k; Script.AskNormal 0 (5 # 10) k;
       Script.AskUniform 1 (15 # 10) k;
       Script.AskUniform 200 400 k; Script.AskUniform 300 500 k;
       Script.AskUniform 30 60 k; Script.AskUniform (5 # 10) (8 # 10) k;
       Script.AskUniform 50 80 k ].

End Files.

(* ===================================================================== *)
(** ** Vocabulary for the services *)
(* ===================================================================== *)

Module Http.
Import Py PyList.
Open Scope string_scope.

(** A POST request with a given body. *)
Definition post (b : option json) : request :=
  {| method := POST; body := b |}.

(** A response is an error report: its body is [{error: message}]. *)
Definition error_report (r : response) : Prop :=
  exists msg, payload r = error_body msg.

(** The statuses the specification assigns to errors. *)
Definition error_status (r : response) : Prop :=
  status r = 400%nat \/ status r = 503%nat \/ status r = 500%nat.

(** The free-lime service's answer without a prediction. *)
Definition null_prediction : response :=
  {| status := 200;
     payload := Json (JObj [("clinker_free_lime_%", JNull)]) |}.

(** The free-lime service's answer with a prediction. *)
Definition prediction (q : Q) : response :=
  {| status := 200;
     payload := Json (JObj [("clinker_free_lime_%", JNum (round2 q))]) |}.

(** The payload's value of a feature, [JNull] when it has none. *)
Definition feature (o : list (string * json)) (f : string) : json :=
  default JNull (lookup_key f o).

(** The features of the free-lime model. *)
Definition free_lime_features : list string :=
  default [] (assoc FreeLime.kpi_to_predict FreeLime.MODEL_FEATURES).

(** A feature of the free-lime model is missing from the payload. *)
Definition feature_missing (o : list (string * json)) : Prop :=
  exists f, f ∈ free_lime_features /\ feature o f = JNull.

(** All features are present and convert to the numbers [xs]. *)
Definition features_convert `{FloatSyntax} (o : list (string * json))
    (xs : list (string * Q)) : Prop :=
  (forall f, f ∈ free_lime_features -> feature o f <> JNull)
  /\ traverse (fun f => try! x := float (feature o f) in Ok (f, x))
       free_lime_features = Ok xs.

(** The features of the thermal-energy model. *)
Definition thermal_features : list string :=
  default [] (assoc ThermalEnergy.TARGET_KPI ThermalEnergy.MODEL_FEATURES).

(** The recommendation service's error report: two members. *)
Definition recommendation_error (r : response) : Prop :=
  exists e,
    payload r
    = Json (JObj
        [ ("error", JStr (str e));
          ("message", JStr
    "The LLM recommendation engine encountered an error. Please check the logs.") ]).

(** The specification's reading of the error statuses, for one response
    to a request that fails validation: status 400 and [{error: message}]. *)
Definition validation_error (r : response) : Prop :=
  status r = 400%nat /\ error_report r.

(** The specification's reading of the free-lime service: a POST with a
    well-formed JSON body is answered with status 200 and the KPI key. *)
Definition always_ok `{FloatSyntax} (eps : list (string * Endpoint))
    (v : json) : Prop :=
  exists p,
    FreeLime.flask_predict eps (post (Some v))
    = {| status := 200;
         payload := Json (JObj [("clinker_free_lime_%", p)]) |}.

End Http.

(* ===================================================================== *)
(** ** Small concrete runs *)
(* ===================================================================== *)

Module Demo.
Import Generator Script.

(** A clock that advances one microsecond per reading. *)
Definition ticking (i : nat) : Z := Z.of_nat i.

(** A clock that stands still. *)
Definition frozen (t : Z) (i : nat) : Z := t.

(** An empty script: every normal sample is its mean, every uniform
    sample its lower bound, every selection the first rows. *)
Definition quiet (z : Z) : list answer := [].

(** No prepared answer for a call: it gets the default sample. *)
Definition blank : answer := Values [].


(** Scenarios 1 and 3 both select row 2. *)
Definition overlap (z : Z) : list answer :=
  repeat blank 18
  ++ [ Rows [2%nat]; Values [1 # 2]; blank; Values [1 # 2] ]
  ++ [ Rows [5%nat]; blank; blank ]
  ++ [ Rows [2%nat]; blank; Values [1 # 3]; blank ].

(** Row 1 runs the mill hard on little clinker: limestone 72, clinker
    101.005, gypsum 5.505, recirculation 80, power noise 162.8, and
    scenario 2 raises its power by 400, to 5732.9. *)
Definition coarse (z : Z) : list answer :=
  [ Values [0; -4]; blank; blank; blank; blank; blank; blank; blank;
    Values [0; -1799 # 600]; Values [0; 1 # 40]; Values [0; 5]; blank ]
  ++ [ blank; blank; blank; blank; Values [0; 407 # 125]; blank ]
  ++ [ blank; blank; blank; blank ]
  ++ [ Rows [1%nat]; Values [1]; blank ].

(** A float syntax for concrete requests: it reads a non-empty string of
    decimal digits as that integer and rejects every other string (on
    the strings it accepts it agrees with Python's [float]). *)
Fixpoint digits (acc : Z) (s : string) : option Z :=
  match s with
  | EmptyString => Some acc
  | String c rest =>
      let n := Z.of_nat (nat_of_ascii c) in
      if ((48 <=? n) && (n <=? 57))%Z
      then digits (10 * acc + (n - 48))%Z rest
      else None
  end.

Definition plain_digits : Py.FloatSyntax :=
  fun s => match s with
           | EmptyString => None
           | _ => inject_Z <$> digits 0 s
           end.

(** An endpoint that answers every instance with 1.234. *)
Definition steady : Py.Endpoint := fun _ => Py.Ok [Py.JNum (1234 # 1000)].

(** An endpoint whose call raises. *)
Definition broken : Py.Endpoint :=
  fun _ => Py.Raise (Py.Error "ServiceUnavailable" "endpoint unreachable").

(** A payload with every feature of the free-lime model, all equal to 1;
    and the same payload with the fuel feed rate replaced by [v]. *)
Definition reading (v : Py.json) : list (string * Py.json) :=
  [ ("raw_meal_lsf_ratio", Py.JNum 1); ("limestone_feed_rate_pct", Py.JNum 1);
    ("clay_feed_rate_pct", Py.JNum 1); ("iron_ore_feed_rate_pct", Py.JNum 1);
    ("bauxite_feed_rate_pct", Py.JNum 1);
    ("raw_meal_feed_rate_tph", Py.JNum 1); ("fuel_feed_rate_tph", v);
    ("fuel_alt_substitution_rate_pct", Py.JNum 1);
    ("kiln_hood_pressure_mmH2O", Py.JNum 1);
    ("kiln_burner_air_flow_m3_hr", Py.JNum 1);
    ("kiln_main_drive_current_amp", Py.JNum 1) ]%string.

(** The free-lime service with its endpoint initialised, and not. *)
Definition live (ep : Py.Endpoint) : list (string * Py.Endpoint) :=
  [ (FreeLime.kpi_to_predict, ep) ].

Definition offline : list (string * Py.Endpoint) := [].

End Demo.
(* ===================================================================== *)
(** ** The model client shared by the image and recommendation services *)
(* ===================================================================== *)

Module Gemini.
Import Py PyList.
Open Scope string_scope.

(** The two ways [genai.Client] is configured. *)
Inductive credentials : Type :=
  | ApiKey (api_key : string)
  | VertexAI (project : option string) (location : string).

Section Client.
Context {Client : Type}.

(** [os.environ.get] and the constructor [genai.Client], which may raise. *)
Variable environ : string -> option string.
Variable genai_Client : credentials -> result Client.

(** [get_gemini_client], the same function in both services.  The
    module-level [_gemini_client] is passed in and handed back; a
    constructor that raises leaves it unset. *)
Definition get_gemini_client (_gemini_client : option Client)
    : result Client * option Client :=
  match _gemini_client with
  | Some client => (Ok client, Some client)
  | None =>
      let API_KEY := environ "GEMINI_API_KEY" in
      let made :=
        if is_set API_KEY
        then genai_Client (ApiKey (default EmptyString API_KEY))
        else
          let PROJECT_ID := environ "GOOGLE_CLOUD_PROJECT" in
          genai_Client (VertexAI PROJECT_ID "us-central1") in
      match made with
      | Ok client => (Ok client, Some client)
      | Raise e => (Raise e, None)
      end
  end.

End Client.
End Gemini.

(* ===================================================================== *)
(** ** backend-server_image_analysis-kiln.py: bucket listing and prompt *)
(* ===================================================================== *)

Module KilnPrompt.
Import Py PyList Gemini.
Open Scope string_scope.

Definition nl : string := String (ascii_of_nat 10) EmptyString.

Definition GCS_BUCKET_NAME : string := "hackathon-cement-plant-image-data".
Definition KILN_GCS_PREFIX : string := "kiln/".

(** The fuel-rate range; an f-string prints the two bounds as [9.2] and
    [9.8]. *)
Definition FUEL_RATE_NORMAL_MIN : Q := 92 # 10.
Definition FUEL_RATE_NORMAL_MAX : Q := 98 # 10.
Definition FUEL_RATE_VARIABLE : string := "fuel_feed_rate_tph".

(** [str.lower] on the ASCII letters; no other character lowers to a
    letter of the four suffixes below. *)
Definition lower_char (c : ascii) : ascii :=
  let n := nat_of_ascii c in
  if ((65 <=? n) && (n <=? 90))%nat then ascii_of_nat (n + 32) else c.

Fixpoint lower (s : string) : string :=
  match s with
  | EmptyString => EmptyString
  | String c rest => String (lower_char c) (lower rest)
  end.

(** [s.endswith(suffix)]: some tail of [s] is [suffix]. *)
Fixpoint endswith (s suffix : string) : bool :=
  String.eqb s suffix
  || match s with
     | EmptyString => false
     | String _ s' => endswith s' suffix
     end.

Definition image_suffixes : list string := [".jpg"; ".jpeg"; ".png"; ".webp"].

(** The filter of the comprehension, on a blob name. *)
Definition is_image (prefix name : string) : bool :=
  negb (String.eqb name prefix)
  && existsb (endswith (lower name)) image_suffixes.

(** Python's order on [str], by code point; [sorted] over it.  The order
    is total and antisymmetric, so the sorted list does not depend on the
    sorting algorithm. *)
Definition str_le (a b : string) : Prop := String.leb a b = true.

#[global] Instance str_le_dec : RelDecision str_le.
Proof. intros a b. unfold str_le. apply bool_eq_dec. Defined.

Definition sorted (l : list string) : list string := merge_sort str_le l.

Definition gs_uri (bucket_name name : string) : string :=
  "gs://" ++ bucket_name ++ "/" ++ name.

Section Bucket.

(** [storage_client.bucket(bucket_name).list_blobs(prefix=prefix)]: the
    names of the blobs, or the exception of the storage client. *)
Variable list_blobs : string -> string -> result (list string).

Definition get_gcs_image_uris (bucket_name prefix : string)
    : result (list string) :=
  try! blobs := list_blobs bucket_name prefix in
  let uris :=
    gs_uri bucket_name
      <$> filter (fun name => is_image prefix name = true) blobs in
  match uris with
  | [] =>
      Raise (ValueError ("No few-shot images found in gs://" ++ bucket_name
                         ++ "/" ++ prefix
                         ++ ". Please verify images and path."))
  | _ :: _ => Ok (sorted uris)
  end.

End Bucket.

(** [os.path.basename]: what follows the last slash. *)
Fixpoint basename (p : string) : string :=
  match p with
  | EmptyString => EmptyString
  | String c p' =>
      if has_char "/" p' then basename p'
      else if Ascii.eqb c "/" then p' else p
  end.

Definition KPI_FOCUS : string := "kiln_specific_thermal_energy_Kcal/kg_clinker".

(** The dict literal every branch of [get_target_json] returns. *)
Definition target (recommendation_type visual_finding severity_level
    action : string) (value : Q) (recommendation : string) : json :=
  JObj [ ("recommendation_type", JStr recommendation_type);
         ("kpi_focus", JStr KPI_FOCUS);
         ("visual_finding", JStr visual_finding);
         ("severity_level", JStr severity_level);
         ("adjustments",
          JArr [ JObj [ ("variable", JStr FUEL_RATE_VARIABLE);
                        ("action", JStr action);
                        ("value", JNum value) ] ]);
         ("recommendation", JStr recommendation) ].

Definition get_target_json (uri : string) : json :=
  if substring "kiln_operating_normal" uri then
    target "KILN_SETPOINT_ADJUSTMENT"
      "Stable flame, optimal combustion, normal shell temperature distribution."
      "low" "MAINTAIN" 0
      ("The kiln appears to be operating optimally. Continue maintaining the "
       ++ FUEL_RATE_VARIABLE ++ " between 9.2 and 9.8 tph.")
  else if substring "kiln_overheating_anomaly_high" uri then
    target "CRITICAL_ALERT"
      "Severe, extensive overheating anomaly (large red glowing areas on the shell). High risk of immediate refractory failure and shell damage."
      "high" "DECREASE" (3 # 10)
      ("CRITICAL ALERT: Extensive overheating detected. Immediately decrease the "
       ++ FUEL_RATE_VARIABLE
       ++ " by 0.3 tph to prevent catastrophic damage.")
  else if substring "kiln_overheating_anomaly_medium" uri then
    target "WARNING"
      "Medium overheating anomaly (isolated, bright red spots on shell). Potential for localized refractory wear."
      "medium" "DECREASE" (2 # 10)
      ("WARNING: Isolated thermal deviation detected. Reduce the "
       ++ FUEL_RATE_VARIABLE
       ++ " by 0.2 tph and monitor closely for stabilization.")
  else
    target "WARNING"
      ("Unclassified thermal deviation: " ++ basename uri
       ++ ". Requires cautious adjustment.")
      "medium" "DECREASE" (2 # 10)
      ("Unclassified visual anomaly detected. As a cautious measure, decrease the "
       ++ FUEL_RATE_VARIABLE ++ " by 0.2 tph to stabilize the process.").

Definition system_instruction : string :=
  "You are the autonomous Kiln Controller. Analyze the attached " ++
  "images to predict the kiln's thermal efficiency. Your primary " ++
  "objective is to minimize " ++
  "'kiln_specific_thermal_energy_Kcal/kg_clinker' by recommending " ++
  "immediate adjustments. The standard operating range for the fuel " ++
  "feed rate is 9.2 - 9.8 tph. Output MUST be a single JSON object " ++
  "matching the schema shown in the examples." ++
  nl ++
  nl ++
  "--- DYNAMIC LOGIC RULES ---" ++
  nl ++
  "1. Severity Level: Classify the thermal state into 'low' " ++
  "(normal/minor), 'medium' (deviation/warning), or 'high' " ++
  "(critical/severe)." ++
  nl ++
  "2. Adjustment Value (Dynamic):" ++
  nl ++
  "  - If action is 'DECREASE' and severity is 'low', set 'value' to " ++
  "0.1." ++
  nl ++
  "  - If action is 'DECREASE' and severity is 'medium', set 'value' " ++
  "to 0.2." ++
  nl ++
  "  - If action is 'DECREASE' and severity is 'high', set 'value' " ++
  "to 0.3." ++
  nl ++
  "  - If action is 'MAINTAIN', 'value' MUST be 0.0." ++
  nl ++
  "3. Recommendation Key: Generate a **unique, non-repetitive** " ++
  "natural language explanation (1-2 sentences) of the visual " ++
  "finding and the prescribed corrective action. The tone should be " ++
  "authoritative and informative. Reference the fuel feed rate range " ++
  "(9.2 - 9.8 tph) when the action is MAINTAIN.".

(** [types.Part]: a text, a file in the bucket, or inline bytes. *)
Inductive Part : Type :=
  | Text_part (text : string)
  | File_part (file_uri mime_type : string)
  | Bytes_part (data : string) (mime_type : string).

(** [types.Content]. *)
Record Content : Type := {
  role : string;
  parts : list Part
}.

(** [str(i)] for a natural number. *)
Definition decimal (i : nat) : string :=
  NilEmpty.string_of_uint (Nat.to_uint i).

Section Prompt.

Variable list_blobs : string -> string -> result (list string).

(** Library functions the prompt is built with: [json.dumps],
    [base64.b64decode] (it raises on an argument that is not base64
    text) and [types.Part.from_bytes] (it validates its arguments). *)
Variable dumps : json -> string.
Variable b64decode : json -> result string.
Variable from_bytes : string -> json -> result Part.

(** One pass of the loop over [enumerate(KILN_FEW_SHOT_URIS)]: the two
    contents it appends. *)
Definition few_shot (i : nat) (uri : string) : list Content :=
  let target_json := get_target_json uri in
  let text_part :=
    Text_part ("EXAMPLE " ++ decimal (i + 1)
               ++ ": Analyze this image at " ++ uri) in
  let uri_part := File_part uri "image/jpeg" in
  let json_part := Text_part (dumps target_json) in
  [ {| role := "user"; parts := [text_part; uri_part] |};
    {| role := "model"; parts := [json_part] |} ].

Definition final_text : string :=
  "FINAL TASK: Analyze this current live image and provide the required JSON recommendation, strictly following the specified DYNAMIC LOGIC RULES.".

Definition create_kiln_prompt (test_image_b64 test_image_mimetype : json)
    : result (list Content * string) :=
  try! KILN_FEW_SHOT_URIS :=
    get_gcs_image_uris list_blobs GCS_BUCKET_NAME KILN_GCS_PREFIX in
  let contents := concat (imap few_shot KILN_FEW_SHOT_URIS) in
  try! live_image_bytes := b64decode test_image_b64 in
  let final_text_part := Text_part final_text in
  try! final_image_part := from_bytes live_image_bytes test_image_mimetype in
  Ok ((contents
       ++ [ {| role := "user";
               parts := [final_text_part; final_image_part] |} ])%list,
      system_instruction).

(** The part of [flask_predict] that runs once the payload is accepted:
    client, prompt, model call.  [generate_content] is the hosted model:
    it raises or yields the text of its answer. *)
Context {Client : Type}.
Variable environ : string -> option string.
Variable genai_Client : credentials -> result Client.
Variable generate_content :
  Client -> list Content -> string -> result string.

Definition analyse (_gemini_client : option Client)
    : ImageAnalysis.Analysis :=
  fun test_image_b64 test_image_mimetype =>
    try! gemini_client :=
      (get_gemini_client environ genai_Client _gemini_client).1 in
    try! prompt := create_kiln_prompt test_image_b64 test_image_mimetype in
    generate_content gemini_client prompt.1 prompt.2.

(** The handler with its collaborators in place. *)
Definition flask_predict (_gemini_client : option Client)
    : request -> response :=
  ImageAnalysis.flask_predict (analyse _gemini_client).

End Prompt.
End KilnPrompt.

(* ===================================================================== *)
(** ** backend_server_recommendation.py: the call to the model *)
(* ===================================================================== *)

Module RecommendationPrompt.
Import Py PyList Gemini.
Open Scope string_scope.

Definition nl : string := String (ascii_of_nat 10) EmptyString.
Definition dq : string := String (ascii_of_nat 34) EmptyString.

Definition CONTROLLABLE_RANGES : list (string * string) :=
  [ ("raw_meal_lsf_ratio",
     "92.0 - 98.0 Ratio (Primary quality lever, lagged 5h)");
    ("limestone_feed_rate_pct",
     "76.0 - 80.0 % (Typical: ~78%. Composition control.)");
    ("clay_feed_rate_pct",
     "14.0 - 18.0 % (Typical: ~16%. Composition control.)");
    ("iron_ore_feed_rate_pct",
     "3.0 - 4.0 % (Typical: ~3.5%. Composition control.)");
    ("bauxite_feed_rate_pct",
     "2.0 - 3.0 % (Typical: ~2.5%. Composition control.)");
    ("raw_meal_feed_rate_tph", "170.0 - 180.0 tph (Overall production rate)");
    ("fuel_feed_rate_tph",
     "9.2 - 9.8 tph (Primary control for Thermal Energy)");
    ("fuel_alt_substitution_rate_pct", "15.0 - 25.0 % (Efficiency control)");
    ("kiln_hood_pressure_mmH2O",
     "-7.0 to -5.0 mmH2O (Air control, inverse sign)");
    ("kiln_burner_air_flow_m3/hr",
     "24000.0 - 26000.0 m3/hr (Combustion control)");
    ("kiln_main_drive_current_Amp",
     "190.0 - 210.0 Amp (Used for stabilization/load balance.)") ].

(** The two targets print as [1.2] and [750.0] in the f-strings. *)
Definition SYSTEM_INSTRUCTION : string :=
  "You are an elite AI engineer specializing in cement plant " ++
  "Pyroprocessing optimization. Analyze the inputs and KPIs, then " ++
  "use your domain knowledge to generate the single best set of " ++
  "prescriptive recommendations. Crucially, your recommendations for " ++
  "'magnitude' MUST be small, safe adjustments that aim to keep the " ++
  "variable within its NORMAL OPERATING RANGE, unless a KPI is " ++
  "critically out of bounds. " ++
  nl ++
  nl ++
  "--- OPTIMIZATION GOALS ---" ++
  nl ++
  "1. **Primary Goal (Quality):** Maintain Clinker Free Lime " ++
  "($\%$clinker\_free\_lime) **at or below 1.2$\%$**. Blending " ++
  "component feed rates are the primary levers for this, as their " ++
  "effect is **lagged (approx. 5 hours)**." ++
  nl ++
  "2. **Secondary Goal (Energy):** Minimize Specific Thermal Energy " ++
  "(kiln\_specific\_thermal\_energy\_Kcal/kg\_clinker) **toward or " ++
  "below 750.0 Kcal/kg**. Fuel inputs and kiln conditions are the " ++
  "primary controls for this, as their effects are " ++
  "**real-time/non-lagged**." ++
  nl ++
  "3. **General Constraint:** Do not recommend changes to more than " ++
  "two or three variables simultaneously." ++
  nl ++
  nl ++
  "--- REQUIRED OUTPUT SCHEMA (STRICTLY FOLLOW THIS JSON ARRAY) ---[" ++
  nl ++ " { " ++ nl ++
  " " ++ dq ++ "variable\_name" ++ dq ++ ": " ++ dq ++
  "string (MUST be one of the input keys)" ++ dq ++ ", " ++
  nl ++
  " " ++ dq ++ "description" ++ dq ++ ": " ++ dq ++
  "string (Detailed, prescriptive reason for the action based on " ++
  "domain knowledge, referencing the current and target state.)" ++
  dq ++ "," ++
  nl ++
  " " ++ dq ++ "action" ++ dq ++ ": " ++ dq ++
  "string (MUST be INCREASE, DECREASE, or MAINTAIN)" ++ dq ++ "," ++
  nl ++
  " " ++ dq ++ "magnitude" ++ dq ++ ": " ++ dq ++
  "number (The specific value to change. Must be 0.0 if action is " ++
  "MAINTAIN.)" ++ dq ++ " " ++
  nl ++ " }" ++ nl ++ "]".

Section Model.

(** [json.dumps(..., indent=2)] and [json.loads], which raises on text
    that is not JSON. *)
Variable dumps_indent : json -> string.
Variable loads : string -> result json.

Context {Client : Type}.
Variable environ : string -> option string.
Variable genai_Client : credentials -> result Client.

(** The hosted model, called with the contents and the system
    instruction: it raises or yields the text of its answer. *)
Variable generate_content :
  Client -> list string -> string -> result string.

Definition context_lines : list string :=
  (fun kv : string * string => "- **" ++ kv.1 ++ "**: " ++ kv.2)
    <$> CONTROLLABLE_RANGES.

Definition user_prompt (current_inputs predicted_kpis : json) : string :=
  "Based on the following data, generate the prescriptive recommendations JSON array: "
  ++ nl ++ nl ++ "--- PREDICTED KPI VALUES ---"
  ++ nl ++ dumps_indent predicted_kpis
  ++ nl ++ nl
  ++ "--- CURRENT PROCESS INPUTS (All 11 Independent Variables) ---"
  ++ nl ++ dumps_indent current_inputs
  ++ nl ++ nl
  ++ "--- NORMAL OPERATING RANGES FOR CONTROLLABLE VARIABLES ---"
  ++ nl ++ String.concat nl context_lines
  ++ nl ++ nl
  ++ "Now, generate the JSON output, prioritizing the maintenance of quality and using small, safe magnitudes that respect the Normal Operating Ranges.".

Definition generate_recommendations_llm (_gemini_client : option Client)
    : Recommendation.Recommender :=
  fun current_inputs predicted_kpis =>
    let prompt := user_prompt current_inputs predicted_kpis in
    try! gemini_client :=
      (get_gemini_client environ genai_Client _gemini_client).1 in
    try! text :=
      generate_content gemini_client [prompt] SYSTEM_INSTRUCTION in
    loads text.

(** The route with its collaborators in place. *)
Definition flask_route_recommendations (_gemini_client : option Client)
    : request -> response :=
  Recommendation.flask_route_recommendations
    (generate_recommendations_llm _gemini_client).

End Model.
End RecommendationPrompt.
(* ===================================================================== *)
(** ** Small concrete surroundings for the two model-backed services *)
(* ===================================================================== *)

Module PromptDemo.
Import Py PyList Gemini KilnPrompt.
Open Scope string_scope.

(** A bucket folder with the folder entry, two images and a text file. *)
Definition shelf : string -> string -> result (list string) :=
  fun _ _ =>
    Ok [ "kiln/"; "kiln/kiln_overheating_anomaly_high_2.PNG";
         "kiln/kiln_operating_normal_1.jpg"; "kiln/notes.txt" ].

(** A folder without images. *)
Definition bare : string -> string -> result (list string) :=
  fun _ prefix => Ok [ prefix; "kiln/notes.txt" ].

(** Stand-ins for the library functions: a serialiser that prints every
    document alike, a decoder that accepts any string as it is, and a
    part constructor that accepts string MIME types. *)
Definition flat (v : json) : string := "{}".

Definition plain (v : json) : result string :=
  match v with
  | JStr s => Ok s
  | _ => Raise (Error "TypeError" "argument should be a bytes-like object or ASCII string")
  end.

Definition inline (data : string) (mime_type : json) : result Part :=
  match mime_type with
  | JStr m => Ok (Bytes_part data m)
  | _ => Raise (Error "ValidationError" "mime_type: input should be a valid string")
  end.

(** An environment without variables, a client constructor that always
    succeeds, and a model that answers every prompt with the same text. *)
Definition unset : string -> option string := fun _ => None.
Definition ready : credentials -> result unit := fun _ => Ok tt.
Definition canned {Contents : Type} (text : string)
    : unit -> Contents -> string -> result string :=
  fun _ _ _ => Ok text.

(** A decoder of model answers that knows one text. *)
Definition reads (text : string) (v : json) : string -> result json :=
  fun t => if String.eqb t text then Ok v
           else Raise (Error "JSONDecodeError" "Expecting value").

(** A payload for the image service. *)
Definition snapshot : list (string * json) :=
  [ ("image_data_b64", JStr "aGVsbG8="); ("mime_type", JStr "image/png") ].

(** A payload for the recommendation service. *)
Definition situation : list (string * json) :=
  [ ("current_inputs", JObj [("fuel_feed_rate_tph", JNum (95 # 10))]);
    ("predicted_kpis", JObj [("clinker_free_lime_%", JNum (14 # 10))]) ].

End PromptDemo.
(* ===================================================================== *)
(** * Properties *)
(* ===================================================================== *)

(** ** Rounding *)

Lemma Qdiv_100 (z : Q) : z / 100 == z * (1 # 100).
Proof. reflexivity. Qed.

Lemma rint_close (y : Q) : - (1 # 2) <= inject_Z (rint y) - y <= 1 # 2.
Proof.
  unfold rint.
  pose proof (Qfloor_le y) as Hlo.
  pose proof (Qlt_floor y) as Hhi.
  rewrite inject_Z_plus in Hhi.
  change (inject_Z 1) with 1 in Hhi.
  destruct (Qcompare_spec (y - inject_Z (Qfloor y)) (1 # 2)) as [He|Hl|Hg].
  - destruct (Z.even (Qfloor y));
      [|rewrite inject_Z_plus; change (inject_Z 1) with 1]; lra.
  - lra.
  - rewrite inject_Z_plus. change (inject_Z 1) with 1. lra.
Qed.

Lemma round2_close (x : Q) : - (1 # 200) <= round2 x - x <= 1 # 200.
Proof.
  unfold round2. pose proof (rint_close (x * 100)) as H.
  set (z := inject_Z (rint (x * 100))) in *.
  rewrite (Qdiv_100 z). lra.
Qed.

Lemma round2_two_decimals (x : Q) : two_decimals (round2 x).
Proof. exists (rint (x * 100)). reflexivity. Qed.

(** ** Series *)

Lemma cell_lookup (s : list Q) (i : nat) (x : Q) :
  s !! i = Some x -> cell s i = x.
Proof. unfold cell. intros ->. reflexivity. Qed.

Lemma lookup_cell (s : list Q) (i : nat) :
  (i < length s)%nat -> s !! i = Some (cell s i).
Proof.
  intros Hi. destruct (lookup_lt_is_Some_2 s i Hi) as [x Hx].
  rewrite Hx. f_equal. symmetry. apply cell_lookup, Hx.
Qed.

Lemma cell_fmap (f : Q -> Q) (s : list Q) (i : nat) :
  (i < length s)%nat -> cell (f <$> s) i = f (cell s i).
Proof.
  intros Hi. apply cell_lookup.
  rewrite list_lookup_fmap, (lookup_cell s i Hi). reflexivity.
Qed.

Lemma cell_zip_with (f : Q -> Q -> Q) (a b : list Q) (i : nat) :
  (i < length a)%nat -> (i < length b)%nat ->
  cell (zip_with f a b) i = f (cell a i) (cell b i).
Proof.
  intros Ha Hb. apply cell_lookup.
  rewrite lookup_zip_with, (lookup_cell a i Ha), (lookup_cell b i Hb).
  reflexivity.
Qed.

Lemma length_scatter (s : list Q) (idx : list nat) (vals : list Q) :
  length (scatter s idx vals) = length s.
Proof.
  unfold scatter. revert s. induction (zip idx vals) as [|[i v] l IH];
    intros s; simpl; [reflexivity|].
  rewrite IH. apply length_insert.
Qed.

Lemma scatter_notin (s : list Q) (idx : list nat) (vals : list Q) (i : nat) :
  i ∉ idx -> scatter s idx vals !! i = s !! i.
Proof.
  unfold scatter. revert s vals.
  induction idx as [|j idx IH]; intros s vals Hi; [reflexivity|].
  destruct vals as [|v vals]; [reflexivity|]. simpl.
  rewrite not_elem_of_cons in Hi. destruct Hi as [Hne Hi].
  rewrite (IH _ _ Hi). apply list_lookup_insert_ne. congruence.
Qed.

Lemma scatter_in (s : list Q) (idx : list nat) (vals : list Q)
    (j i : nat) (x : Q) :
  NoDup idx -> idx !! j = Some i -> vals !! j = Some x ->
  (i < length s)%nat ->
  scatter s idx vals !! i = Some x.
Proof.
  unfold scatter. revert s vals j.
  induction idx as [|i0 idx IH]; intros s vals j Hnd Hj Hx Hlen;
    [discriminate|].
  destruct vals as [|v vals]; [destruct j; discriminate|].
  apply NoDup_cons in Hnd. destruct Hnd as [Hni Hnd].
  destruct j as [|j]; simpl in *.
  - injection Hj as ->. injection Hx as ->.
    fold (scatter (<[i:=x]> s) idx vals).
    rewrite scatter_notin by assumption.
    apply list_lookup_insert_eq. assumption.
  - apply (IH _ _ j); try assumption.
    rewrite length_insert. assumption.
Qed.

Lemma cell_scatter_notin (s : list Q) (idx : list nat) (vals : list Q)
    (i : nat) :
  i ∉ idx -> cell (scatter s idx vals) i = cell s i.
Proof. intros Hi. unfold cell. rewrite scatter_notin by assumption. reflexivity. Qed.

Lemma cell_scatter_in (s : list Q) (idx : list nat) (vals : list Q)
    (j i : nat) :
  NoDup idx -> idx !! j = Some i -> (j < length vals)%nat ->
  (i < length s)%nat ->
  cell (scatter s idx vals) i = cell vals j.
Proof.
  intros Hnd Hj Hv Hi. apply cell_lookup.
  apply (scatter_in s idx vals j i); try assumption.
  apply lookup_cell, Hv.
Qed.

Lemma cell_gather (s : list Q) (idx : list nat) (j i : nat) :
  idx !! j = Some i -> cell (gather s idx) j = cell s i.
Proof.
  intros Hj. apply cell_lookup. unfold gather.
  rewrite list_lookup_fmap, Hj. reflexivity.
Qed.

Lemma length_gather (s : list Q) (idx : list nat) :
  length (gather s idx) = length idx.
Proof. apply length_fmap. Qed.
Module ScriptFacts.
Import Script.

Lemma clamp01_range (u : Q) : 0 <= clamp01 u <= 1.
Proof.
  unfold clamp01.
  destruct (Qle_bool u 0) eqn:E0; [lra|].
  destruct (Qle_bool 1 u) eqn:E1; [lra|].
  split.
  - apply Qnot_lt_le. intros Hlt.
    assert (Hle : u <= 0) by lra.
    apply Qle_bool_iff in Hle. congruence.
  - apply Qnot_lt_le. intros Hlt.
    assert (Hle : 1 <= u) by lra.
    apply Qle_bool_iff in Hle. congruence.
Qed.

Lemma scaled_in_range (lo hi c : Q) :
  lo <= hi -> 0 <= c <= 1 -> lo <= lo + (hi - lo) * c <= hi.
Proof.
  intros Hlh [H0 H1].
  assert (Ha : 0 <= (hi - lo) * c) by (apply Qmult_le_0_compat; lra).
  assert (Hb : 0 <= (hi - lo) * (1 - c)) by (apply Qmult_le_0_compat; lra).
  split; [lra|].
  assert (E : (hi - lo) * (1 - c) == (hi - lo) - (hi - lo) * c) by ring.
  lra.
Qed.

Lemma elem_of_resize {A} (n : nat) (d x : A) (l : list A) :
  x ∈ resize n d l -> x = d \/ x ∈ l.
Proof.
  rewrite resize_spec, elem_of_app, elem_of_replicate.
  intros [Hx|[-> _]]; [right|left; reflexivity].
  apply (subseteq_take n l), Hx.
Qed.

#[global] Instance scripted_laws (book : Z -> list answer) :
  RandomLaws (scripted book).
Proof.
  split; simpl.
  - intros. apply length_resize.
  - intros. apply length_resize.
  - intros lo hi n s x Hlh Hx.
    apply elem_of_resize in Hx. destruct Hx as [->|Hx]; [lra|].
    apply list_elem_of_fmap in Hx. destruct Hx as [u [-> _]].
    apply scaled_in_range; [assumption|apply clamp01_range].
  - intros a k s Hnd Hk.
    rewrite length_take. apply Nat.min_l.
    rewrite length_app.
    set (p := remove_dups _).
    assert (Hsub : a ⊆+ p ++ list_difference a p).
    { apply NoDup_submseteq; [assumption|].
      intros x Hx. rewrite elem_of_app, list_elem_of_difference.
      destruct (decide (x ∈ p)); [left|right]; auto. }
    apply submseteq_length in Hsub. rewrite length_app in Hsub. lia.
  - intros a k s Hnd.
    set (p := remove_dups _).
    assert (Hp : forall x, x ∈ p -> x ∈ a).
    { intros x. unfold p. rewrite elem_of_remove_dups, list_elem_of_filter.
      unfold mem. intros [Hx _]. apply bool_decide_eq_true in Hx. exact Hx. }
    transitivity (p ++ list_difference a p).
    + apply sublist_submseteq, sublist_take.
    + apply NoDup_submseteq.
      * apply NoDup_app. split; [apply NoDup_remove_dups|].
        split; [|apply NoDup_list_difference, Hnd].
        intros x Hx. rewrite list_elem_of_difference. tauto.
      * intros x. rewrite elem_of_app, list_elem_of_difference.
        intros [Hx|[Hx _]]; auto.
Qed.

End ScriptFacts.
Module RatioFacts.

Lemma Qabs_bound (x y : Q) : - y <= x <= y -> Qabs x <= y.
Proof. intros H. apply Qabs_Qle_condition. exact H. Qed.

Lemma Qabs_unbound (x y : Q) : Qabs x <= y -> - y <= x <= y.
Proof. intros H. apply Qabs_Qle_condition. exact H. Qed.

(** Rounding the power and the two feed rates moves their ratio by at
    most half a cent, as long as the mill is fed at least 105 t/h and
    draws at most 5400 kW. *)
Lemma ratio_of_rounded (p c g : Q) :
  105 <= c + g -> 0 <= p <= 5400 ->
  - (1 # 200) <= round2 p / (round2 c + round2 g) - p / (c + g) <= 1 # 200.
Proof.
  intros Hs [Hp0 Hp1].
  pose proof (round2_close p) as Rp.
  pose proof (round2_close c) as Rc.
  pose proof (round2_close g) as Rg.
  set (p' := round2 p) in *. set (c' := round2 c) in *.
  set (g' := round2 g) in *.
  set (q := p / (c + g)).
  assert (Hq : q * (c + g) == p).
  { unfold q. field. lra. }
  assert (Hq0 : 0 <= q).
  { unfold q. apply Qle_shift_div_l; lra. }
  assert (M1 : 0 <= q * (c + g - 105)) by (apply Qmult_le_0_compat; lra).
  assert (M2 : 0 <= q * (c' + g' - (c + g) + (1 # 100)))
    by (apply Qmult_le_0_compat; lra).
  assert (M3 : 0 <= q * ((1 # 100) - (c' + g' - (c + g))))
    by (apply Qmult_le_0_compat; lra).
  assert (Hpos : 0 < c' + g') by lra.
  assert (Hup : p' / (c' + g') <= q + (1 # 200)).
  { apply Qle_shift_div_r; [exact Hpos|]. nra. }
  assert (Hlo : q - (1 # 200) <= p' / (c' + g')).
  { apply Qle_shift_div_l; [exact Hpos|]. nra. }
  lra.
Qed.

End RatioFacts.

(** ** The generator *)

Module GeneratorFacts.
Import Generator Rows.

Ltac vector_ops :=
  unfold vv_add, vv_sub, vv_div, sv_add, sv_sub, vs_mul, vs_sub.

Ltac lengths :=
  vector_ops;
  repeat first [ rewrite length_scatter | rewrite length_gather
               | rewrite length_zip_with | rewrite length_fmap ];
  try lia.

Ltac cells :=
  vector_ops;
  repeat first
    [ rewrite cell_zip_with by lengths
    | rewrite cell_fmap by lengths ].

Lemma length_timestamps interval now n : length (timestamps interval now n) = n.
Proof. unfold timestamps. rewrite length_fmap. apply length_seq. Qed.

Section Laws.
Context `{L : RandomLaws}.

Lemma kpi_noise_lengths n s :
  let e := kpi_noise n s in
  length (lsf_noise e) = n /\ length (free_lime_noise e) = n
  /\ length (thermal_noise e) = n /\ length (nox_noise e) = n
  /\ length (power_noise e) = n /\ length (fineness_noise e) = n.
Proof. repeat split; apply normal_length. Qed.

(** Column by column, what step 4 leaves in the frame. *)
Lemma simulate_kpis_columns n data s :
  let d := (simulate_kpis n data s).1 in
  let e := kpi_noise n s in
  num d raw_meal_lsf_ratio =
    vv_add (sv_add 95 (vs_mul (vs_sub (num d limestone_feed_rate)
                                      limestone_feed_rate_mean) (25 # 10)))
           (lsf_noise e)
  /\ num d clinker_free_lime =
    vv_add (vv_add (sv_sub 1 (vs_mul (vs_sub (num d fuel_feed_rate_tph)
                                             fuel_feed_rate_mean) (5 # 10)))
                   (vs_mul (vs_sub (num d raw_meal_lsf_ratio) 95) (4 # 10)))
           (free_lime_noise e)
  /\ num d kiln_specific_thermal_energy =
    vv_add (vv_sub (sv_add 750 (vs_mul (vs_sub (num d raw_meal_feed_rate_tph)
                                               raw_meal_feed_rate_mean) 5))
                   (vs_mul (vs_sub (num d fuel_alt_substitution_rate)
                                   fuel_alt_substitution_rate_mean) 2))
           (thermal_noise e)
  /\ num d kiln_exit_nox_emissions =
    vv_add (vv_add (sv_add 400 (vs_mul (vs_sub (num d fuel_feed_rate_tph)
                                               fuel_feed_rate_mean) 50))
                   (vs_mul (vs_sub (num d fuel_alt_substitution_rate)
                                   fuel_alt_substitution_rate_mean) 3))
           (nox_noise e)
  /\ num d mill_motor_power_draw_kW =
    vv_add (vv_sub (vv_add (sv_add 4800
                              (vs_mul (vs_sub (num d clinker_feed_rate_tph)
                                              clinker_feed_rate_mill_mean) 20))
                           (vs_mul (vs_sub (num d mill_recirculation_ratio)
                                           mill_recirculation_ratio_mean) 10))
                   (vs_mul (vs_sub (num d clinker_free_lime) 1) 50))
           (power_noise e)
  /\ num d cement_fineness_blaine =
    vv_add (vv_sub (sv_sub 3600
                      (vs_mul (vs_sub (num d clinker_feed_rate_tph)
                                      clinker_feed_rate_mill_mean) 15))
                   (vs_mul (vs_sub (num d mill_motor_power_draw_kW) 4800)
                           (1 # 10)))
           (fineness_noise e)
  /\ num d mill_specific_electrical_energy =
    vv_div (num d mill_motor_power_draw_kW)
           (vv_add (num d clinker_feed_rate_tph)
                   (num d gypsum_feed_rate_tph)).
Proof. repeat split; reflexivity. Qed.

Lemma baseline_bauxite interval now n s :
  let d := baseline (simulate interval now n s).1 in
  num d bauxite_feed_rate =
    sv_sub 100 (vv_add (vv_add (num d limestone_feed_rate)
                               (num d clay_feed_rate))
                       (num d iron_ore_feed_rate)).
Proof. reflexivity. Qed.

(** After step 4 every column is filled, with one value per row. *)
Lemma baseline_complete interval now n s :
  complete n (baseline (simulate interval now n s).1).
Proof.
  pose proof (simulate_kpis_columns n (base_data interval now n s).1
                (after_base interval now n s)) as H.
  pose proof (kpi_noise_lengths n (after_base interval now n s)) as He.
  pose proof (baseline_bauxite interval now n s) as Hb.
  change (simulate_kpis n _ _).1 with (baseline (simulate interval now n s).1)
    in H.
  cbv zeta in H, He, Hb.
  set (d := baseline _) in *. set (e := kpi_noise _ _) in *.
  assert (Hs : Forall (fun c => length (num d c) = n)
       [ limestone_feed_rate; clay_feed_rate; iron_ore_feed_rate;
         raw_meal_feed_rate_tph; fuel_feed_rate_tph;
         fuel_alt_substitution_rate; kiln_hood_pressure_mmH2O;
         kiln_burner_air_flow; clinker_feed_rate_tph; gypsum_feed_rate_tph;
         mill_recirculation_ratio; kiln_main_drive_current_Amp ]).
  { repeat (constructor; [apply normal_length|]). constructor. }
  assert (Ht : len d = n) by apply length_timestamps.
  clearbody d e.
  destruct H as (H1 & H2 & H3 & H4 & H5 & H6 & H7).
  destruct He as (E1 & E2 & E3 & E4 & E5 & E6).
  rewrite !Forall_cons in Hs.
  destruct Hs as (L1 & L2 & L3 & L4 & L5 & L6 & L7 & L8 & L9 & L10 & L11 & L12 & _).
  assert (L13 : length (num d bauxite_feed_rate) = n)
    by (rewrite Hb; lengths).
  assert (L14 : length (num d raw_meal_lsf_ratio) = n)
    by (rewrite H1; lengths).
  assert (L15 : length (num d clinker_free_lime) = n)
    by (rewrite H2; lengths).
  assert (L16 : length (num d kiln_specific_thermal_energy) = n)
    by (rewrite H3; lengths).
  assert (L17 : length (num d kiln_exit_nox_emissions) = n)
    by (rewrite H4; lengths).
  assert (L18 : length (num d mill_motor_power_draw_kW) = n)
    by (rewrite H5; lengths).
  assert (L19 : length (num d cement_fineness_blaine) = n)
    by (rewrite H6; lengths).
  assert (L20 : length (num d mill_specific_electrical_energy) = n)
    by (rewrite H7; lengths).
  split; [assumption|]. intros c. destruct c; assumption.
Qed.

(** C2.  In the frame left by step 4, before any anomaly is injected, each
    of the seven KPIs of every row is the specification's formula applied
    to that row's columns and to that row's term of the KPI's own noise
    series; the six noise series are six successive [normal] draws with
    standard deviations 0.5, 0.1, 10, 20, 50 and 50, and the electrical
    energy is the bare ratio, without a noise term. *)
Theorem kpi_formulas interval now n s i :
  let d := baseline (simulate interval now n s).1 in
  let e := kpi_noise n (after_base interval now n s) in
  (i < n)%nat ->
  value d raw_meal_lsf_ratio i ==
    Spec.raw_meal_lsf_ratio (value d limestone_feed_rate i)
                            (cell (lsf_noise e) i)
  /\ value d clinker_free_lime i ==
    Spec.clinker_free_lime_pct (value d fuel_feed_rate_tph i)
                               (value d raw_meal_lsf_ratio i)
                               (cell (free_lime_noise e) i)
  /\ value d kiln_specific_thermal_energy i ==
    Spec.kiln_specific_thermal_energy (value d raw_meal_feed_rate_tph i)
                                      (value d fuel_alt_substitution_rate i)
                                      (cell (thermal_noise e) i)
  /\ value d kiln_exit_nox_emissions i ==
    Spec.kiln_exit_nox (value d fuel_feed_rate_tph i)
                       (value d fuel_alt_substitution_rate i)
                       (cell (nox_noise e) i)
  /\ value d mill_motor_power_draw_kW i ==
    Spec.mill_motor_power_draw_kW (value d clinker_feed_rate_tph i)
                                  (value d mill_recirculation_ratio i)
                                  (value d clinker_free_lime i)
                                  (cell (power_noise e) i)
  /\ value d cement_fineness_blaine i ==
    Spec.cement_fineness_blaine (value d clinker_feed_rate_tph i)
                                (value d mill_motor_power_draw_kW i)
                                (cell (fineness_noise e) i)
  /\ value d mill_specific_electrical_energy i ==
    Spec.mill_specific_electrical_energy
      (value d mill_motor_power_draw_kW i)
      (value d clinker_feed_rate_tph i)
      (value d gypsum_feed_rate_tph i).
Proof.
  intros d e Hi.
  pose proof (simulate_kpis_columns n (base_data interval now n s).1
                (after_base interval now n s)) as H.
  pose proof (kpi_noise_lengths n (after_base interval now n s)) as He.
  pose proof (baseline_complete interval now n s) as [_ Hc].
  change (simulate_kpis n _ _).1 with d in H.
  change (kpi_noise _ _) with e in H, He.
  fold d in Hc. cbv zeta in H, He.
  clearbody d e.
  destruct H as (H1 & H2 & H3 & H4 & H5 & H6 & H7).
  destruct He as (E1 & E2 & E3 & E4 & E5 & E6).
  unfold value, Spec.raw_meal_lsf_ratio, Spec.clinker_free_lime_pct,
    Spec.kiln_specific_thermal_energy, Spec.kiln_exit_nox,
    Spec.mill_motor_power_draw_kW, Spec.cement_fineness_blaine,
    Spec.mill_specific_electrical_energy.
  pose proof (Hc limestone_feed_rate). pose proof (Hc fuel_feed_rate_tph).
  pose proof (Hc raw_meal_lsf_ratio). pose proof (Hc raw_meal_feed_rate_tph).
  pose proof (Hc fuel_alt_substitution_rate).
  pose proof (Hc clinker_feed_rate_tph).
  pose proof (Hc mill_recirculation_ratio). pose proof (Hc clinker_free_lime).
  pose proof (Hc mill_motor_power_draw_kW). pose proof (Hc gypsum_feed_rate_tph).
  unfold limestone_feed_rate_mean, fuel_feed_rate_mean,
    raw_meal_feed_rate_mean, fuel_alt_substitution_rate_mean,
    clinker_feed_rate_mill_mean, mill_recirculation_ratio_mean in *.
  repeat split.
  - rewrite H1 at 1. cells. lra.
  - rewrite H2 at 1. cells. lra.
  - rewrite H3 at 1. cells. lra.
  - rewrite H4 at 1. cells. lra.
  - rewrite H5 at 1. cells. lra.
  - rewrite H6 at 1. cells. lra.
  - rewrite H7 at 1. cells. reflexivity.
Qed.

End Laws.

Lemma kpi_formulas_witness :
  let R := Script.scripted Demo.quiet in
  let d := baseline (simulate 15 Demo.ticking 20 (seed 42)).1 in
  let e := kpi_noise 20 (after_base 15 Demo.ticking 20 (seed 42)) in
  (3 < 20)%nat
  /\ value d raw_meal_lsf_ratio 3 ==
     Spec.raw_meal_lsf_ratio (value d limestone_feed_rate 3)
                             (cell (lsf_noise e) 3).
Proof.
  intros R d e. split; [lia|].
  apply (kpi_formulas (L := ScriptFacts.scripted_laws Demo.quiet)
           15 Demo.ticking 20 (seed 42) 3).
  lia.
Defined.

End GeneratorFacts.

(** ** Row selection and the three scenarios *)

Module AnomalyFacts.
Import Generator Rows GeneratorFacts.

Lemma fifteen_percent_thirds (n : nat) :
  (Z.to_nat ((Z.of_nat n * 15) / 100) / 3 = n / 20)%nat
  /\ Z.to_nat ((15 * Z.of_nat n) / 300) = (n / 20)%nat.
Proof.
  assert (E : ((Z.of_nat n * 15) / 100 / 3 = Z.of_nat n / 20)%Z).
  { rewrite Z.div_div by lia. change (100 * 3)%Z with (20 * 15)%Z.
    apply Z.div_mul_cancel_r; lia. }
  split.
  - apply Nat2Z.inj. rewrite Nat2Z.inj_div, Z2Nat.id.
    + rewrite Nat2Z.inj_div. exact E.
    + apply Z.div_pos; lia.
  - apply Nat2Z.inj. rewrite Z2Nat.id, Nat2Z.inj_div.
    + change 300%Z with (20 * 15)%Z. rewrite (Z.mul_comm 15).
      apply Z.div_mul_cancel_r; lia.
    + apply Z.div_pos; lia.
Qed.

Lemma num_problems_share (data : DataFrame) :
  (num_problems data / num_scenarios = len data / 20)%nat.
Proof. apply (proj1 (fifteen_percent_thirds (len data))). Qed.

Lemma anomaly_rows_share (n : nat) : Spec.anomaly_rows n = (n / 20)%nat.
Proof.
  unfold Spec.anomaly_rows, Qfloor, Qdiv, Qmult, Qinv, inject_Z.
  simpl Qnum. simpl Qden. rewrite Z.mul_1_r.
  apply (proj2 (fifteen_percent_thirds n)).
Qed.

Lemma submseteq_NoDup (l k : list nat) : l ⊆+ k -> NoDup k -> NoDup l.
Proof.
  intros Hs Hk. apply submseteq_Permutation in Hs. destruct Hs as [k' Hp].
  rewrite Hp in Hk. apply NoDup_app in Hk. apply Hk.
Qed.

Section Laws.
Context `{L : RandomLaws}.

(** Every selection is taken from the whole index. *)
Lemma pick_rows_selection data s :
  selection (len data) (pick_rows data s).1.
Proof.
  unfold pick_rows, index.
  assert (Hnd : NoDup (seq 0 (len data))) by apply NoDup_seq.
  pose proof (choice_sub (seq 0 (len data))
                (num_problems data / num_scenarios) s Hnd) as Hsub.
  split; [|split].
  - rewrite choice_length; [|assumption|].
    + rewrite anomaly_rows_share. apply num_problems_share.
    + rewrite length_seq, num_problems_share.
      apply Nat.Div0.div_le_upper_bound. lia.
  - exact (submseteq_NoDup _ _ Hsub Hnd).
  - intros i Hi. apply (elem_of_submseteq _ _ _ Hi) in Hsub.
    apply elem_of_seq in Hsub. lia.
Qed.

(** *** Scenario 1 *)

Lemma high_lsf_columns data s :
  let r := (high_lsf data s).1 in
  let w := high_lsf_draws data s in
  r.1 = (pick_rows data s).1
  /\ num r.2 limestone_feed_rate =
      scatter (num data limestone_feed_rate) r.1
        (vv_add (gather (num data limestone_feed_rate) r.1)
                (limestone_rise w))
  /\ num r.2 raw_meal_lsf_ratio =
      scatter (num data raw_meal_lsf_ratio) r.1
        (vv_add (sv_add 95
                   (vs_mul (vs_sub (gather (num r.2 limestone_feed_rate) r.1)
                                   limestone_feed_rate_mean) (25 # 10)))
                (lsf_renoise w))
  /\ num r.2 clinker_free_lime =
      scatter (num data clinker_free_lime) r.1
        (vv_add (sv_add 1
                   (vs_mul (vs_sub (gather (num r.2 raw_meal_lsf_ratio) r.1)
                                   95) (4 # 10)))
                (free_lime_excursion w))
  /\ (forall c, c <> limestone_feed_rate -> c <> raw_meal_lsf_ratio ->
                c <> clinker_free_lime -> num r.2 c = num data c)
  /\ len r.2 = len data.
Proof.
  repeat split.
  intros c H1 H2 H3. destruct c; try reflexivity; congruence.
Qed.

Lemma high_lsf_draws_lengths data s :
  let k := length (pick_rows data s).1 in
  let w := high_lsf_draws data s in
  length (limestone_rise w) = k /\ length (lsf_renoise w) = k
  /\ length (free_lime_excursion w) = k.
Proof.
  repeat split;
    [apply uniform_length | apply normal_length | apply uniform_length].
Qed.

Lemma high_lsf_draws_ranges data s x :
  let w := high_lsf_draws data s in
  (x ∈ limestone_rise w -> 4 <= x <= 8)
  /\ (x ∈ free_lime_excursion w -> 1 <= x <= 15 # 10).
Proof.
  split; intros Hx;
    (eapply uniform_range; [|exact Hx]); lra.
Qed.

Lemma high_lsf_rows data s n :
  let r := (high_lsf data s).1 in
  let w := high_lsf_draws data s in
  complete n data ->
  complete n r.2
  /\ (forall c i, i ∉ r.1 -> value r.2 c i = value data c i)
  /\ (forall j i, r.1 !! j = Some i ->
        value r.2 limestone_feed_rate i
          = value data limestone_feed_rate i + cell (limestone_rise w) j
        /\ value r.2 raw_meal_lsf_ratio i
          = 95 + (value r.2 limestone_feed_rate i - limestone_feed_rate_mean)
                 * (25 # 10) + cell (lsf_renoise w) j
        /\ value r.2 clinker_free_lime i
          = 1 + (value r.2 raw_meal_lsf_ratio i - 95) * (4 # 10)
            + cell (free_lime_excursion w) j).
Proof.
  intros r w [Hlen Hc].
  pose proof (high_lsf_columns data s) as (Hidx & H1 & H2 & H3 & Ho & Ht).
  pose proof (high_lsf_draws_lengths data s) as (E1 & E2 & E3).
  pose proof (pick_rows_selection data s) as (_ & Hnd & Hlt).
  fold r in Hidx, H1, H2, H3, Ho, Ht. fold w in H1, H2, H3, E1, E2, E3.
  rewrite <- Hidx in Hnd, Hlt, E1, E2, E3. rewrite Hlen in Hlt.
  clearbody r w. destruct r as [idx d']. simpl in *.
  assert (Hc' : forall c, length (num d' c) = n).
  { intros c.
    destruct (decide (c = limestone_feed_rate)) as [->|N1];
      [rewrite H1, length_scatter; apply Hc|].
    destruct (decide (c = raw_meal_lsf_ratio)) as [->|N2];
      [rewrite H2, length_scatter; apply Hc|].
    destruct (decide (c = clinker_free_lime)) as [->|N3];
      [rewrite H3, length_scatter; apply Hc|].
    rewrite Ho by assumption. apply Hc. }
  split; [split; [congruence|exact Hc']|]. split.
  - intros c i Hi. unfold value.
    destruct (decide (c = limestone_feed_rate)) as [->|N1];
      [rewrite H1; apply cell_scatter_notin, Hi|].
    destruct (decide (c = raw_meal_lsf_ratio)) as [->|N2];
      [rewrite H2; apply cell_scatter_notin, Hi|].
    destruct (decide (c = clinker_free_lime)) as [->|N3];
      [rewrite H3; apply cell_scatter_notin, Hi|].
    rewrite Ho by assumption. reflexivity.
  - intros j i Hj. unfold value.
    assert (Hjl := lookup_lt_Some _ _ _ Hj).
    assert (Hi : (i < n)%nat) by (apply Hlt, list_elem_of_lookup; eauto).
    pose proof (Hc limestone_feed_rate). pose proof (Hc raw_meal_lsf_ratio).
    pose proof (Hc clinker_free_lime).
    repeat split.
    + rewrite H1 at 1.
      rewrite (cell_scatter_in _ _ _ j i) by (try assumption; lengths).
      cells. rewrite (cell_gather _ _ j i) by assumption. reflexivity.
    + rewrite H2 at 1.
      rewrite (cell_scatter_in _ _ _ j i) by (try assumption; lengths).
      cells. rewrite (cell_gather _ _ j i) by assumption. reflexivity.
    + rewrite H3 at 1.
      rewrite (cell_scatter_in _ _ _ j i) by (try assumption; lengths).
      cells. rewrite (cell_gather _ _ j i) by assumption. reflexivity.
Qed.

(** *** Scenario 2 *)

Lemma mill_inefficiency_columns data s :
  let r := (mill_inefficiency data s).1 in
  let w := mill_inefficiency_draws data s in
  r.1 = (pick_rows data s).1
  /\ num r.2 mill_motor_power_draw_kW =
      scatter (num data mill_motor_power_draw_kW) r.1
        (vv_add (gather (num data mill_motor_power_draw_kW) r.1)
                (power_rise w))
  /\ num r.2 cement_fineness_blaine =
      scatter (num data cement_fineness_blaine) r.1
        (vv_sub (gather (num data cement_fineness_blaine) r.1)
                (fineness_drop w))
  /\ num r.2 mill_specific_electrical_energy =
      scatter (num data mill_specific_electrical_energy) r.1
        (vv_div (gather (num r.2 mill_motor_power_draw_kW) r.1)
                (vv_add (gather (num r.2 clinker_feed_rate_tph) r.1)
                        (gather (num r.2 gypsum_feed_rate_tph) r.1)))
  /\ (forall c, c <> mill_motor_power_draw_kW -> c <> cement_fineness_blaine ->
                c <> mill_specific_electrical_energy ->
                num r.2 c = num data c)
  /\ len r.2 = len data.
Proof.
  repeat split.
  intros c H1 H2 H3. destruct c; try reflexivity; congruence.
Qed.

Lemma mill_inefficiency_draws_lengths data s :
  let k := length (pick_rows data s).1 in
  let w := mill_inefficiency_draws data s in
  length (power_rise w) = k /\ length (fineness_drop w) = k.
Proof. repeat split; apply uniform_length. Qed.

Lemma mill_inefficiency_draws_ranges data s x :
  let w := mill_inefficiency_draws data s in
  (x ∈ power_rise w -> 200 <= x <= 400)
  /\ (x ∈ fineness_drop w -> 300 <= x <= 500).
Proof.
  split; intros Hx;
    (eapply uniform_range; [|exact Hx]); lra.
Qed.

Lemma mill_inefficiency_rows data s n :
  let r := (mill_inefficiency data s).1 in
  let w := mill_inefficiency_draws data s in
  complete n data ->
  complete n r.2
  /\ (forall c i, i ∉ r.1 -> value r.2 c i = value data c i)
  /\ (forall j i, r.1 !! j = Some i ->
        value r.2 mill_motor_power_draw_kW i
          = value data mill_motor_power_draw_kW i + cell (power_rise w) j
        /\ value r.2 cement_fineness_blaine i
          = value data cement_fineness_blaine i - cell (fineness_drop w) j
        /\ value r.2 mill_specific_electrical_energy i
          = value r.2 mill_motor_power_draw_kW i
            / (value r.2 clinker_feed_rate_tph i
               + value r.2 gypsum_feed_rate_tph i)).
Proof.
  intros r w [Hlen Hc].
  pose proof (mill_inefficiency_columns data s)
    as (Hidx & H1 & H2 & H3 & Ho & Ht).
  pose proof (mill_inefficiency_draws_lengths data s) as (E1 & E2).
  pose proof (pick_rows_selection data s) as (_ & Hnd & Hlt).
  fold r in Hidx, H1, H2, H3, Ho, Ht. fold w in H1, H2, H3, E1, E2.
  rewrite <- Hidx in Hnd, Hlt, E1, E2. rewrite Hlen in Hlt.
  clearbody r w. destruct r as [idx d']. simpl in *.
  assert (Hc' : forall c, length (num d' c) = n).
  { intros c.
    destruct (decide (c = mill_motor_power_draw_kW)) as [->|N1];
      [rewrite H1, length_scatter; apply Hc|].
    destruct (decide (c = cement_fineness_blaine)) as [->|N2];
      [rewrite H2, length_scatter; apply Hc|].
    destruct (decide (c = mill_specific_electrical_energy)) as [->|N3];
      [rewrite H3, length_scatter; apply Hc|].
    rewrite Ho by assumption. apply Hc. }
  split; [split; [congruence|exact Hc']|]. split.
  - intros c i Hi. unfold value.
    destruct (decide (c = mill_motor_power_draw_kW)) as [->|N1];
      [rewrite H1; apply cell_scatter_notin, Hi|].
    destruct (decide (c = cement_fineness_blaine)) as [->|N2];
      [rewrite H2; apply cell_scatter_notin, Hi|].
    destruct (decide (c = mill_specific_electrical_energy)) as [->|N3];
      [rewrite H3; apply cell_scatter_notin, Hi|].
    rewrite Ho by assumption. reflexivity.
  - intros j i Hj. unfold value.
    assert (Hjl := lookup_lt_Some _ _ _ Hj).
    assert (Hi : (i < n)%nat) by (apply Hlt, list_elem_of_lookup; eauto).
    pose proof (Hc mill_motor_power_draw_kW).
    pose proof (Hc cement_fineness_blaine).
    pose proof (Hc mill_specific_electrical_energy).
    repeat split.
    + rewrite H1 at 1.
      rewrite (cell_scatter_in _ _ _ j i) by (try assumption; lengths).
      cells. rewrite (cell_gather _ _ j i) by assumption. reflexivity.
    + rewrite H2 at 1.
      rewrite (cell_scatter_in _ _ _ j i) by (try assumption; lengths).
      cells. rewrite (cell_gather _ _ j i) by assumption. reflexivity.
    + rewrite H3 at 1.
      rewrite (cell_scatter_in _ _ _ j i) by (try assumption; lengths).
      cells. rewrite !(cell_gather _ _ j i) by assumption. reflexivity.
Qed.

(** *** Scenario 3 *)

Lemma kiln_instability_columns data s :
  let r := (kiln_instability data s).1 in
  let w := kiln_instability_draws data s in
  r.1 = (pick_rows data s).1
  /\ num r.2 kiln_main_drive_current_Amp =
      scatter (num data kiln_main_drive_current_Amp) r.1
        (vv_add (gather (num data kiln_main_drive_current_Amp) r.1)
                (current_rise w))
  /\ num r.2 clinker_free_lime =
      scatter (num data clinker_free_lime) r.1
        (vv_add (gather (num data clinker_free_lime) r.1)
                (free_lime_rise w))
  /\ num r.2 kiln_specific_thermal_energy =
      scatter (num data kiln_specific_thermal_energy) r.1
        (vv_add (gather (num data kiln_specific_thermal_energy) r.1)
                (thermal_rise w))
  /\ (forall c, c <> kiln_main_drive_current_Amp -> c <> clinker_free_lime ->
                c <> kiln_specific_thermal_energy ->
                num r.2 c = num data c)
  /\ len r.2 = len data.
Proof.
  repeat split.
  intros c H1 H2 H3. destruct c; try reflexivity; congruence.
Qed.

Lemma kiln_instability_draws_lengths data s :
  let k := length (pick_rows data s).1 in
  let w := kiln_instability_draws data s in
  length (current_rise w) = k /\ length (free_lime_rise w) = k
  /\ length (thermal_rise w) = k.
Proof. repeat split; apply uniform_length. Qed.

Lemma kiln_instability_draws_ranges data s x :
  let w := kiln_instability_draws data s in
  (x ∈ current_rise w -> 30 <= x <= 60)
  /\ (x ∈ free_lime_rise w -> 5 # 10 <= x <= 8 # 10)
  /\ (x ∈ thermal_rise w -> 50 <= x <= 80).
Proof.
  split; [|split]; intros Hx;
    (eapply uniform_range; [|exact Hx]); lra.
Qed.

Lemma kiln_instability_rows data s n :
  let r := (kiln_instability data s).1 in
  let w := kiln_instability_draws data s in
  complete n data ->
  complete n r.2
  /\ (forall c i, i ∉ r.1 -> value r.2 c i = value data c i)
  /\ (forall j i, r.1 !! j = Some i ->
        value r.2 kiln_main_drive_current_Amp i
          = value data kiln_main_drive_current_Amp i + cell (current_rise w) j
        /\ value r.2 clinker_free_lime i
          = value data clinker_free_lime i + cell (free_lime_rise w) j
        /\ value r.2 kiln_specific_thermal_energy i
          = value data kiln_specific_thermal_energy i
            + cell (thermal_rise w) j).
Proof.
  intros r w [Hlen Hc].
  pose proof (kiln_instability_columns data s)
    as (Hidx & H1 & H2 & H3 & Ho & Ht).
  pose proof (kiln_instability_draws_lengths data s) as (E1 & E2 & E3).
  pose proof (pick_rows_selection data s) as (_ & Hnd & Hlt).
  fold r in Hidx, H1, H2, H3, Ho, Ht. fold w in H1, H2, H3, E1, E2, E3.
  rewrite <- Hidx in Hnd, Hlt, E1, E2, E3. rewrite Hlen in Hlt.
  clearbody r w. destruct r as [idx d']. simpl in *.
  assert (Hc' : forall c, length (num d' c) = n).
  { intros c.
    destruct (decide (c = kiln_main_drive_current_Amp)) as [->|N1];
      [rewrite H1, length_scatter; apply Hc|].
    destruct (decide (c = clinker_free_lime)) as [->|N2];
      [rewrite H2, length_scatter; apply Hc|].
    destruct (decide (c = kiln_specific_thermal_energy)) as [->|N3];
      [rewrite H3, length_scatter; apply Hc|].
    rewrite Ho by assumption. apply Hc. }
  split; [split; [congruence|exact Hc']|]. split.
  - intros c i Hi. unfold value.
    destruct (decide (c = kiln_main_drive_current_Amp)) as [->|N1];
      [rewrite H1; apply cell_scatter_notin, Hi|].
    destruct (decide (c = clinker_free_lime)) as [->|N2];
      [rewrite H2; apply cell_scatter_notin, Hi|].
    destruct (decide (c = kiln_specific_thermal_energy)) as [->|N3];
      [rewrite H3; apply cell_scatter_notin, Hi|].
    rewrite Ho by assumption. reflexivity.
  - intros j i Hj. unfold value.
    assert (Hjl := lookup_lt_Some _ _ _ Hj).
    assert (Hi : (i < n)%nat) by (apply Hlt, list_elem_of_lookup; eauto).
    pose proof (Hc kiln_main_drive_current_Amp).
    pose proof (Hc clinker_free_lime).
    pose proof (Hc kiln_specific_thermal_energy).
    repeat split.
    + rewrite H1 at 1.
      rewrite (cell_scatter_in _ _ _ j i) by (try assumption; lengths).
      cells. rewrite (cell_gather _ _ j i) by assumption. reflexivity.
    + rewrite H2 at 1.
      rewrite (cell_scatter_in _ _ _ j i) by (try assumption; lengths).
      cells. rewrite (cell_gather _ _ j i) by assumption. reflexivity.
    + rewrite H3 at 1.
      rewrite (cell_scatter_in _ _ _ j i) by (try assumption; lengths).
      cells. rewrite (cell_gather _ _ j i) by assumption. reflexivity.
Qed.

End Laws.
End AnomalyFacts.

(** ** A whole run *)

Module RunFacts.
Import Generator Rows GeneratorFacts AnomalyFacts.

Section Laws.
Context `{L : RandomLaws}.

(** The three scenarios applied in turn to a complete frame. *)
Lemma scenarios_facts n d0 s1 :
  complete n d0 ->
  let r1 := high_lsf d0 s1 in
  let r2 := mill_inefficiency r1.1.2 r1.2 in
  let r3 := kiln_instability r2.1.2 r2.2 in
  let w1 := high_lsf_draws d0 s1 in
  let w2 := mill_inefficiency_draws r1.1.2 r1.2 in
  let w3 := kiln_instability_draws r2.1.2 r2.2 in
  let d1 := r1.1.2 in
  let d2 := r2.1.2 in
  let d3 := r3.1.2 in
  (complete n d1 /\ complete n d2 /\ complete n d3)
  /\ (selection n r1.1.1 /\ selection n r2.1.1 /\ selection n r3.1.1)
  /\ ((forall c i, i ∉ r1.1.1 -> value d1 c i = value d0 c i)
      /\ (forall c i, i ∉ r2.1.1 -> value d2 c i = value d1 c i)
      /\ (forall c i, i ∉ r3.1.1 -> value d3 c i = value d2 c i))
  /\ ((forall c, c <> limestone_feed_rate -> c <> raw_meal_lsf_ratio ->
         c <> clinker_free_lime -> num d1 c = num d0 c)
      /\ (forall c, c <> mill_motor_power_draw_kW ->
            c <> cement_fineness_blaine ->
            c <> mill_specific_electrical_energy -> num d2 c = num d1 c)
      /\ (forall c, c <> kiln_main_drive_current_Amp ->
            c <> clinker_free_lime ->
            c <> kiln_specific_thermal_energy -> num d3 c = num d2 c))
  /\ (forall j i, r1.1.1 !! j = Some i ->
        value d1 limestone_feed_rate i
          = value d0 limestone_feed_rate i + cell (limestone_rise w1) j
        /\ value d1 raw_meal_lsf_ratio i
          = 95 + (value d1 limestone_feed_rate i - limestone_feed_rate_mean)
                 * (25 # 10) + cell (lsf_renoise w1) j
        /\ value d1 clinker_free_lime i
          = 1 + (value d1 raw_meal_lsf_ratio i - 95) * (4 # 10)
            + cell (free_lime_excursion w1) j)
  /\ (forall j i, r2.1.1 !! j = Some i ->
        value d2 mill_motor_power_draw_kW i
          = value d1 mill_motor_power_draw_kW i + cell (power_rise w2) j
        /\ value d2 cement_fineness_blaine i
          = value d1 cement_fineness_blaine i - cell (fineness_drop w2) j
        /\ value d2 mill_specific_electrical_energy i
          = value d2 mill_motor_power_draw_kW i
            / (value d2 clinker_feed_rate_tph i
               + value d2 gypsum_feed_rate_tph i))
  /\ (forall j i, r3.1.1 !! j = Some i ->
        value d3 kiln_main_drive_current_Amp i
          = value d2 kiln_main_drive_current_Amp i + cell (current_rise w3) j
        /\ value d3 clinker_free_lime i
          = value d2 clinker_free_lime i + cell (free_lime_rise w3) j
        /\ value d3 kiln_specific_thermal_energy i
          = value d2 kiln_specific_thermal_energy i
            + cell (thermal_rise w3) j).
Proof.
  intros C0. cbv zeta.
  pose proof (high_lsf_rows d0 s1 n C0) as (C1 & U1 & R1).
  pose proof (high_lsf_columns d0 s1) as (I1 & _ & _ & _ & O1 & _).
  pose proof (pick_rows_selection d0 s1) as P1.
  cbv zeta in C1, U1, R1, O1, I1. rewrite <- I1, (proj1 C0) in P1. clear I1.
  generalize dependent (high_lsf_draws d0 s1). intros w1.
  destruct (high_lsf d0 s1) as [[idx1 d1] s2]. cbn [fst snd] in *.
  pose proof (mill_inefficiency_rows d1 s2 n C1) as (C2 & U2 & R2).
  pose proof (mill_inefficiency_columns d1 s2) as (I2 & _ & _ & _ & O2 & _).
  pose proof (pick_rows_selection d1 s2) as P2.
  cbv zeta in C2, U2, R2, O2, I2. rewrite <- I2, (proj1 C1) in P2. clear I2.
  generalize dependent (mill_inefficiency_draws d1 s2). intros w2.
  destruct (mill_inefficiency d1 s2) as [[idx2 d2] s3]. cbn [fst snd] in *.
  pose proof (kiln_instability_rows d2 s3 n C2) as (C3 & U3 & R3).
  pose proof (kiln_instability_columns d2 s3) as (I3 & _ & _ & _ & O3 & _).
  pose proof (pick_rows_selection d2 s3) as P3.
  cbv zeta in C3, U3, R3, O3, I3. rewrite <- I3, (proj1 C2) in P3. clear I3.
  generalize dependent (kiln_instability_draws d2 s3). intros w3.
  destruct (kiln_instability d2 s3) as [[idx3 d3] s4]. cbn [fst snd] in *.
  cbn [fst snd] in *.
  repeat split; try assumption; try apply C1; try apply C2;
    try apply C3; try apply P1; try apply P2; try apply P3.
  all: try (edestruct R1 as (? & ? & ?); [eassumption|]; assumption).
  all: try (edestruct R2 as (? & ? & ?); [eassumption|]; assumption).
  all: try (edestruct R3 as (? & ? & ?); [eassumption|]; assumption).
Qed.

(** The record returned by [simulate], stage by stage. *)
Lemma simulate_stages interval now n s :
  (simulate interval now n s).1 =
  {| baseline := (kpis_stage interval now n s).1;
     high_lsf_indices := (high_lsf_stage interval now n s).1.1;
     after_high_lsf := (high_lsf_stage interval now n s).1.2;
     mill_ineff_indices := (mill_stage interval now n s).1.1;
     after_mill_ineff := (mill_stage interval now n s).1.2;
     kiln_instability_indices := (kiln_stage interval now n s).1.1;
     perturbed := (kiln_stage interval now n s).1.2 |}.
Proof.
  unfold simulate, kiln_stage, mill_stage, high_lsf_stage, kpis_stage.
  unfold bind at 1 2 3 4 5. unfold ret at 1.
  cbv beta zeta. cbn [fst snd]. reflexivity.
Qed.

(** The facts about one run that the claims draw on: every frame is
    complete, every selection is a proper one, selected rows carry the
    scenario's values and all other cells are carried over. *)
Lemma run_facts interval now n s :
  let sim := (simulate interval now n s).1 in
  let w := draws interval now n s in
  let d0 := baseline sim in
  let d1 := after_high_lsf sim in
  let d2 := after_mill_ineff sim in
  let d3 := perturbed sim in
  (complete n d1 /\ complete n d2 /\ complete n d3)
  /\ (selection n (high_lsf_indices sim)
      /\ selection n (mill_ineff_indices sim)
      /\ selection n (kiln_instability_indices sim))
  /\ ((forall c i, i ∉ high_lsf_indices sim -> value d1 c i = value d0 c i)
      /\ (forall c i, i ∉ mill_ineff_indices sim ->
            value d2 c i = value d1 c i)
      /\ (forall c i, i ∉ kiln_instability_indices sim ->
            value d3 c i = value d2 c i))
  /\ ((forall c, c <> limestone_feed_rate -> c <> raw_meal_lsf_ratio ->
         c <> clinker_free_lime -> num d1 c = num d0 c)
      /\ (forall c, c <> mill_motor_power_draw_kW ->
            c <> cement_fineness_blaine ->
            c <> mill_specific_electrical_energy -> num d2 c = num d1 c)
      /\ (forall c, c <> kiln_main_drive_current_Amp ->
            c <> clinker_free_lime ->
            c <> kiln_specific_thermal_energy -> num d3 c = num d2 c))
  /\ (forall j i, high_lsf_indices sim !! j = Some i ->
        value d1 limestone_feed_rate i
          = value d0 limestone_feed_rate i
            + cell (limestone_rise (scenario1 w)) j
        /\ value d1 raw_meal_lsf_ratio i
          = 95 + (value d1 limestone_feed_rate i - limestone_feed_rate_mean)
                 * (25 # 10) + cell (lsf_renoise (scenario1 w)) j
        /\ value d1 clinker_free_lime i
          = 1 + (value d1 raw_meal_lsf_ratio i - 95) * (4 # 10)
            + cell (free_lime_excursion (scenario1 w)) j)
  /\ (forall j i, mill_ineff_indices sim !! j = Some i ->
        value d2 mill_motor_power_draw_kW i
          = value d1 mill_motor_power_draw_kW i
            + cell (power_rise (scenario2 w)) j
        /\ value d2 cement_fineness_blaine i
          = value d1 cement_fineness_blaine i
            - cell (fineness_drop (scenario2 w)) j
        /\ value d2 mill_specific_electrical_energy i
          = value d2 mill_motor_power_draw_kW i
            / (value d2 clinker_feed_rate_tph i
               + value d2 gypsum_feed_rate_tph i))
  /\ (forall j i, kiln_instability_indices sim !! j = Some i ->
        value d3 kiln_main_drive_current_Amp i
          = value d2 kiln_main_drive_current_Amp i
            + cell (current_rise (scenario3 w)) j
        /\ value d3 clinker_free_lime i
          = value d2 clinker_free_lime i
            + cell (free_lime_rise (scenario3 w)) j
        /\ value d3 kiln_specific_thermal_energy i
          = value d2 kiln_specific_thermal_energy i
            + cell (thermal_rise (scenario3 w)) j).
Proof.
  intros sim w d0 d1 d2 d3.
  pose proof (baseline_complete interval now n s) as C0.
  subst d0 d1 d2 d3 w sim. rewrite simulate_stages in *.
  cbn [baseline high_lsf_indices after_high_lsf mill_ineff_indices
       after_mill_ineff kiln_instability_indices perturbed] in *.
  pose proof (scenarios_facts n _ (kpis_stage interval now n s).2 C0) as H.
  cbv zeta in H.
  unfold draws, kiln_stage, mill_stage, high_lsf_stage.
  cbv zeta. cbn [scenario1 scenario2 scenario3].
  exact H.
Qed.

End Laws.
End RunFacts.

Module DrawFacts.
Import Generator Rows GeneratorFacts AnomalyFacts RunFacts.

Lemma cell_in_range (l : list Q) (lo hi : Q) (j : nat) :
  (j < length l)%nat -> (forall x, x ∈ l -> lo <= x <= hi) ->
  lo <= cell l j <= hi.
Proof.
  intros Hj Hl. apply Hl, list_elem_of_lookup. exists j.
  apply lookup_cell, Hj.
Qed.

Section Laws.
Context `{L : RandomLaws}.

(** Every magnitude a scenario draws lies in the interval it was asked
    from. *)
Lemma draws_ranges interval now n s j :
  let w := draws interval now n s in
  (j < Spec.anomaly_rows n)%nat ->
  (4 <= cell (limestone_rise (scenario1 w)) j <= 8
   /\ 1 <= cell (free_lime_excursion (scenario1 w)) j <= 15 # 10)
  /\ (200 <= cell (power_rise (scenario2 w)) j <= 400
      /\ 300 <= cell (fineness_drop (scenario2 w)) j <= 500)
  /\ (30 <= cell (current_rise (scenario3 w)) j <= 60
      /\ 5 # 10 <= cell (free_lime_rise (scenario3 w)) j <= 8 # 10
      /\ 50 <= cell (thermal_rise (scenario3 w)) j <= 80).
Proof.
  intros w Hj. subst w.
  pose proof (baseline_complete interval now n s) as [T0 _].
  pose proof (run_facts interval now n s) as [([T1 _] & [T2 _] & _) _].
  rewrite simulate_stages in T0, T1, T2.
  cbn [baseline after_high_lsf after_mill_ineff] in T0, T1, T2.
  unfold draws. cbv zeta. cbn [scenario1 scenario2 scenario3].
  set (k := kpis_stage interval now n s) in *.
  set (r1 := high_lsf_stage interval now n s) in *.
  set (r2 := mill_stage interval now n s) in *.
  clearbody k r1 r2.
  pose proof (pick_rows_selection k.1 k.2) as [P0 _].
  pose proof (pick_rows_selection r1.1.2 r1.2) as [P1 _].
  pose proof (pick_rows_selection r2.1.2 r2.2) as [P2 _].
  rewrite T0 in P0. rewrite T1 in P1. rewrite T2 in P2.
  pose proof (high_lsf_draws_lengths k.1 k.2) as (A1 & _ & A3).
  pose proof (mill_inefficiency_draws_lengths r1.1.2 r1.2) as (B1 & B2).
  pose proof (kiln_instability_draws_lengths r2.1.2 r2.2) as (C1 & C2 & C3).
  cbv zeta in *.
  split; [split|split; [split|split; [|split]]].
  all: apply cell_in_range; [lia|].
  all: intros x Hx.
  1,2: apply (high_lsf_draws_ranges k.1 k.2 x); exact Hx.
  1,2: apply (mill_inefficiency_draws_ranges r1.1.2 r1.2 x); exact Hx.
  all: apply (kiln_instability_draws_ranges r2.1.2 r2.2 x); exact Hx.
Qed.

End Laws.
End DrawFacts.

(* ===================================================================== *)
(** * The generator's claims *)
(* ===================================================================== *)

Module AnomalyClaims.
Import Generator Rows GeneratorFacts AnomalyFacts RunFacts DrawFacts.

Section Laws.
Context `{L : RandomLaws}.


End Laws.


End AnomalyClaims.

Module SelectionClaims.
Import Generator Rows GeneratorFacts AnomalyFacts RunFacts DrawFacts.

(** The row selections written out as the calls that produce them. *)
Lemma selections_are_choices `{L : RandomLaws} interval now n s :
  let sim := (simulate interval now n s).1 in
  let k := Spec.anomaly_rows n in
  high_lsf_indices sim
    = (choice (seq 0 n) k (kpis_stage interval now n s).2).1
  /\ mill_ineff_indices sim
    = (choice (seq 0 n) k (high_lsf_stage interval now n s).2).1
  /\ kiln_instability_indices sim
    = (choice (seq 0 n) k (mill_stage interval now n s).2).1.
Proof.
  intros sim k. subst sim k.
  pose proof (baseline_complete interval now n s) as [T0 _].
  pose proof (run_facts interval now n s) as [([T1 _] & [T2 _] & _) _].
  rewrite simulate_stages in *.
  cbn [baseline after_high_lsf after_mill_ineff high_lsf_indices
       mill_ineff_indices kiln_instability_indices] in *.
  assert (E1 : high_lsf_stage interval now n s
               = high_lsf (kpis_stage interval now n s).1
                          (kpis_stage interval now n s).2) by reflexivity.
  assert (E2 : mill_stage interval now n s
               = mill_inefficiency (high_lsf_stage interval now n s).1.2
                                   (high_lsf_stage interval now n s).2)
    by reflexivity.
  assert (E3 : kiln_stage interval now n s
               = kiln_instability (mill_stage interval now n s).1.2
                                  (mill_stage interval now n s).2)
    by reflexivity.
  set (k0 := kpis_stage interval now n s) in *.
  set (r1 := high_lsf_stage interval now n s) in *.
  set (r2 := mill_stage interval now n s) in *.
  set (r3 := kiln_stage interval now n s) in *.
  clearbody k0 r1 r2 r3.
  split; [|split].
  - rewrite E1 at 1. rewrite (proj1 (high_lsf_columns k0.1 k0.2)).
    unfold pick_rows, index.
    rewrite num_problems_share, T0, anomaly_rows_share. reflexivity.
  - rewrite E2 at 1.
    rewrite (proj1 (mill_inefficiency_columns r1.1.2 r1.2)).
    unfold pick_rows, index.
    rewrite num_problems_share, T1, anomaly_rows_share. reflexivity.
  - rewrite E3 at 1.
    rewrite (proj1 (kiln_instability_columns r2.1.2 r2.2)).
    unfold pick_rows, index.
    rewrite num_problems_share, T2, anomaly_rows_share. reflexivity.
Qed.

(** C4.  Each of the three row selections has exactly floor(0.15 N / 3)
    labels, all different and all in the index; each is one
    [choice(index, k, replace=False)] over the whole index, whatever the
    earlier selections were; a row can be selected by scenarios 1 and 3
    together, and its free lime then ends as scenario 3, the last one
    applied, wrote it: scenario 3's rise on top of what scenario 1 left,
    so that scenario 1's own formula no longer holds in that cell. *)
Theorem anomaly_subsets :
  (forall (R : RandomState) (L : RandomLaws R) interval now n s,
     let sim := (simulate interval now n s).1 in
     let w := draws interval now n s in
     let k := Spec.anomaly_rows n in
     (selection n (high_lsf_indices sim)
      /\ selection n (mill_ineff_indices sim)
      /\ selection n (kiln_instability_indices sim))
     /\ (high_lsf_indices sim
           = (choice (seq 0 n) k (kpis_stage interval now n s).2).1
         /\ mill_ineff_indices sim
           = (choice (seq 0 n) k (high_lsf_stage interval now n s).2).1
         /\ kiln_instability_indices sim
           = (choice (seq 0 n) k (mill_stage interval now n s).2).1)
     /\ (forall j1 j3 i,
           high_lsf_indices sim !! j1 = Some i ->
           kiln_instability_indices sim !! j3 = Some i ->
           let v1 := cell (free_lime_excursion (scenario1 w)) j1 in
           let v3 := cell (free_lime_rise (scenario3 w)) j3 in
           let lsf := value (perturbed sim) raw_meal_lsf_ratio i in
           value (perturbed sim) clinker_free_lime i ==
             Spec.high_lsf_free_lime lsf v1 + v3
           /\ ~ value (perturbed sim) clinker_free_lime i ==
                Spec.high_lsf_free_lime lsf v1))
  /\ (let R := Script.scripted Demo.overlap in
      let sim := (simulate 15 Demo.ticking 20 (seed 42)).1 in
      2%nat ∈ high_lsf_indices sim /\ 2%nat ∈ kiln_instability_indices sim).
Proof.
  split.
  - intros R L interval now n s sim w k.
    pose proof (run_facts interval now n s)
      as (_ & (P1 & P2 & P3) & _ & (_ & O2 & O3) & R1 & _ & R3).
    pose proof (selections_are_choices interval now n s) as Hc.
    pose proof (draws_ranges interval now n s) as G.
    fold sim w in P1, P2, P3, O2, O3, R1, R3, G, Hc. cbv zeta in G, Hc.
    split; [auto|]. split; [exact Hc|]. clear Hc.
    intros j1 j3 i H1 H3. cbv zeta.
    assert (Hjl := lookup_lt_Some _ _ _ H3).
    rewrite (proj1 P3) in Hjl.
    destruct (G j3 Hjl) as (_ & _ & (_ & G3 & _)).
    destruct (R1 j1 i H1) as (_ & _ & A).
    destruct (R3 j3 i H3) as (_ & B & _).
    assert (K : value (perturbed sim) clinker_free_lime i ==
                Spec.high_lsf_free_lime
                  (value (perturbed sim) raw_meal_lsf_ratio i)
                  (cell (free_lime_excursion (scenario1 w)) j1)
                + cell (free_lime_rise (scenario3 w)) j3).
    { rewrite B. unfold value at 1. rewrite O2 by discriminate.
      fold (value (after_high_lsf sim) clinker_free_lime i). rewrite A.
      unfold value at 2. rewrite O3, O2 by discriminate.
      unfold Spec.high_lsf_free_lime, value. lra. }
    split; [exact K|]. rewrite K. lra.
  - intros R sim. split; apply list_elem_of_lookup; exists 0%nat;
      vm_compute; reflexivity.
Qed.

Lemma anomaly_subsets_witness :
  let R := Script.scripted Demo.overlap in
  let sim := (simulate 15 Demo.ticking 20 (seed 42)).1 in
  selection 20 (high_lsf_indices sim)
  /\ length (high_lsf_indices sim) = 1%nat.
Proof.
  intros R sim.
  destruct anomaly_subsets as [H _].
  destruct (H R (ScriptFacts.scripted_laws Demo.overlap)
              15%Z Demo.ticking 20%nat (seed 42)) as ((H1 & _) & _).
  split; [exact H1|]. vm_compute. reflexivity.
Defined.

End SelectionClaims.

Module BalanceClaims.
Import Generator Rows GeneratorFacts AnomalyFacts RunFacts DrawFacts RatioFacts.

Lemma value_round (data : DataFrame) (c : column) (i : nat) :
  (i < length (num data c))%nat ->
  value (round data) c i = round2 (value data c i).
Proof. intros Hi. unfold value, round. simpl. apply cell_fmap, Hi. Qed.

Section Laws.
Context `{L : RandomLaws}.



End Laws.



Section Laws.
Context `{L : RandomLaws}.

Lemma baseline_energy interval now n s i :
  (i < n)%nat ->
  let d := baseline (simulate interval now n s).1 in
  value d mill_specific_electrical_energy i = energy_ratio d i.
Proof.
  intros Hi d.
  pose proof (simulate_kpis_columns n (base_data interval now n s).1
                (after_base interval now n s)) as (_ & _ & _ & _ & _ & _ & H).
  pose proof (baseline_complete interval now n s) as [_ Hc].
  change (simulate_kpis n _ _).1 with d in H. fold d in Hc.
  clearbody d.
  pose proof (Hc mill_motor_power_draw_kW).
  pose proof (Hc clinker_feed_rate_tph). pose proof (Hc gypsum_feed_rate_tph).
  unfold energy_ratio, value. rewrite H at 1. cells. reflexivity.
Qed.

(** C5, amended.  In every row of the final frame before rounding,
    anomaly rows included, the electrical energy is the power draw over
    the sum of the clinker and gypsum feed rates.  The rounded energy is
    within 0.005 of that exact ratio, and within 0.01 of the ratio of the
    rounded columns whenever the row's feed rates add up to at least 105
    and its power draw lies between 0 and 5400. *)
Theorem energy_ratio_amended interval now n s i :
  let d := perturbed (simulate interval now n s).1 in
  (i < n)%nat ->
  value d mill_specific_electrical_energy i == energy_ratio d i
  /\ Qabs (value (round d) mill_specific_electrical_energy i
           - energy_ratio d i) <= 1 # 200
  /\ (105 <= value d clinker_feed_rate_tph i + value d gypsum_feed_rate_tph i ->
      0 <= value d mill_motor_power_draw_kW i <= 5400 ->
      Qabs (value (round d) mill_specific_electrical_energy i
            - energy_ratio (round d) i) <= 1 # 100).
Proof.
  intros d Hi. subst d.
  pose proof (baseline_energy interval now n s i Hi) as B0. cbv zeta in B0.
  pose proof (run_facts interval now n s)
    as ((_ & _ & [_ C3]) & _ & (_ & U2 & _) & (O1 & _ & O3) & _ & R2 & _).
  cbv zeta in *.
  set (sim := (simulate interval now n s).1) in *.
  set (d0 := baseline sim) in *. set (d1 := after_high_lsf sim) in *.
  set (d2 := after_mill_ineff sim) in *. set (d3 := perturbed sim) in *.
  set (idx := mill_ineff_indices sim) in *.
  clearbody sim d0 d1 d2 d3 idx.
  assert (K3 : forall c, c <> kiln_main_drive_current_Amp ->
                c <> clinker_free_lime -> c <> kiln_specific_thermal_energy ->
                value d3 c i = value d2 c i).
  { intros c ? ? ?. unfold value. rewrite O3 by assumption. reflexivity. }
  assert (K1 : forall c, c <> limestone_feed_rate -> c <> raw_meal_lsf_ratio ->
                c <> clinker_free_lime -> value d1 c i = value d0 c i).
  { intros c ? ? ?. unfold value. rewrite O1 by assumption. reflexivity. }
  assert (E : value d3 mill_specific_electrical_energy i = energy_ratio d3 i).
  { unfold energy_ratio. rewrite !K3 by discriminate.
    destruct (decide (i ∈ idx)) as [Hin|Hn].
    - apply list_elem_of_lookup in Hin. destruct Hin as [j Hj].
      destruct (R2 j i Hj) as (_ & _ & A). exact A.
    - rewrite !(U2 _ _ Hn), !K1 by discriminate. exact B0. }
  pose proof (round2_close (value d3 mill_specific_electrical_energy i)) as Re.
  rewrite <- (value_round d3 _ i) in Re by (rewrite C3; exact Hi).
  split; [rewrite E; reflexivity|]. split.
  - apply Qabs_bound. rewrite <- E. lra.
  - intros Hs Hp. apply Qabs_bound.
    pose proof (ratio_of_rounded _ _ _ Hs Hp) as Rr.
    unfold energy_ratio at 1 2.
    rewrite !(value_round d3) by (rewrite C3; exact Hi).
    fold (energy_ratio d3 i) in Rr. rewrite <- E in Rr.
    rewrite (value_round d3) in Re by (rewrite C3; exact Hi).
    lra.
Qed.

End Laws.

Lemma energy_ratio_amended_witness :
  let R := Script.scripted Demo.coarse in
  let d := perturbed (simulate 15 Demo.ticking 20 (seed 42)).1 in
  (1 < 20)%nat
  /\ value d mill_specific_electrical_energy 1 == energy_ratio d 1.
Proof.
  intros R d. assert (Hi : (1 < 20)%nat) by lia. split; [exact Hi|].
  exact (proj1 (energy_ratio_amended
                  (L := ScriptFacts.scripted_laws Demo.coarse)
                  15 Demo.ticking 20 (seed 42) 1 Hi)).
Defined.

(** C5 as stated fails on a run of 20 rows whose row 1 has clinker
    101.005, gypsum 5.505 and, after scenario 2, power 5732.9: the energy
    5732.9 / 106.51 is saved as 53.82, while the saved columns give
    5732.90 / (101.00 + 5.50), more than 53.83. *)
Lemma energy_ratio_counterexample :
  let R := Script.scripted Demo.coarse in
  let d := perturbed (simulate 15 Demo.ticking 20 (seed 42)).1 in
  (value (round d) mill_specific_electrical_energy 1 == 5382 # 100
   /\ energy_ratio (round d) 1 == 57329 # 1065)
  /\ ~ energy_claim d 1.
Proof.
  intros R d.
  assert (E1 : value (round d) mill_specific_electrical_energy 1
               == 5382 # 100) by (vm_compute; reflexivity).
  assert (E2 : energy_ratio (round d) 1 == 57329 # 1065)
    by (vm_compute; reflexivity).
  split; [split; assumption|]. intros [_ H].
  apply Qabs_unbound in H. rewrite E1, E2 in H.
  destruct H as [H _]. apply H. reflexivity.
Qed.

End BalanceClaims.

(** ** Independence of the clock *)

Module ReplayFacts.
Import Generator Rows Files GeneratorFacts AnomalyFacts RunFacts.

(** Unfolds the script's own definitions, and nothing of the arithmetic. *)
Ltac run_program :=
  lazy beta iota zeta delta
    [base_data simulate_kpis high_lsf mill_inefficiency kiln_instability
     pick_rows index num_problems len
     bind ret set loc loc_set num timestamp fst snd same_numbers].

Section Source.
Context `{R : RandomState}.

Lemma base_data_same interval now1 now2 n s :
  same_numbers (base_data interval now1 n s).1 (base_data interval now2 n s).1
  /\ (base_data interval now1 n s).2 = (base_data interval now2 n s).2.
Proof. run_program. rewrite !length_timestamps. repeat split. Qed.

Lemma simulate_kpis_same n d1 d2 s :
  same_numbers d1 d2 ->
  same_numbers (simulate_kpis n d1 s).1 (simulate_kpis n d2 s).1
  /\ (simulate_kpis n d1 s).2 = (simulate_kpis n d2 s).2.
Proof.
  destruct d1 as [t1 f1], d2 as [t2 f2]. intros [Hn Hl].
  simpl in Hn. subst f2. revert Hl. run_program. intros Hl.
  repeat split. exact Hl.
Qed.

Lemma high_lsf_same d1 d2 s :
  same_numbers d1 d2 ->
  (high_lsf d1 s).1.1 = (high_lsf d2 s).1.1
  /\ same_numbers (high_lsf d1 s).1.2 (high_lsf d2 s).1.2
  /\ (high_lsf d1 s).2 = (high_lsf d2 s).2.
Proof.
  destruct d1 as [t1 f1], d2 as [t2 f2]. intros [Hn Hl].
  simpl in Hn. subst f2. revert Hl. run_program. intros Hl. rewrite Hl.
  repeat split.
Qed.

Lemma mill_inefficiency_same d1 d2 s :
  same_numbers d1 d2 ->
  (mill_inefficiency d1 s).1.1 = (mill_inefficiency d2 s).1.1
  /\ same_numbers (mill_inefficiency d1 s).1.2 (mill_inefficiency d2 s).1.2
  /\ (mill_inefficiency d1 s).2 = (mill_inefficiency d2 s).2.
Proof.
  destruct d1 as [t1 f1], d2 as [t2 f2]. intros [Hn Hl].
  simpl in Hn. subst f2. revert Hl. run_program. intros Hl. rewrite Hl.
  repeat split.
Qed.

Lemma kiln_instability_same d1 d2 s :
  same_numbers d1 d2 ->
  (kiln_instability d1 s).1.1 = (kiln_instability d2 s).1.1
  /\ same_numbers (kiln_instability d1 s).1.2 (kiln_instability d2 s).1.2
  /\ (kiln_instability d1 s).2 = (kiln_instability d2 s).2.
Proof.
  destruct d1 as [t1 f1], d2 as [t2 f2]. intros [Hn Hl].
  simpl in Hn. subst f2. revert Hl. run_program. intros Hl. rewrite Hl.
  repeat split.
Qed.

(** The last stage of two runs that differ in their clocks only. *)
Lemma kiln_stage_same interval now1 now2 n s :
  same_numbers (kiln_stage interval now1 n s).1.2
               (kiln_stage interval now2 n s).1.2
  /\ (kiln_stage interval now1 n s).2 = (kiln_stage interval now2 n s).2.
Proof.
  unfold kiln_stage, mill_stage, high_lsf_stage, kpis_stage. cbv zeta.
  destruct (base_data_same interval now1 now2 n s) as [B Bs].
  rewrite Bs.
  destruct (simulate_kpis_same n _ _ (base_data interval now2 n s).2 B)
    as [K Ks].
  rewrite Ks.
  destruct (high_lsf_same _ _
              (simulate_kpis n (base_data interval now2 n s).1
                 (base_data interval now2 n s).2).2 K) as (_ & H1 & H1s).
  rewrite H1s.
  match type of H1s with _ = ?s2 =>
    destruct (mill_inefficiency_same _ _ s2 H1) as (_ & H2 & H2s) end.
  rewrite H2s.
  match type of H2s with _ = ?s3 =>
    destruct (kiln_instability_same _ _ s3 H2) as (_ & H3 & H3s) end.
  split; assumption.
Qed.

Lemma generate_stages interval now n s :
  generate interval now n s
  = (finalize (kiln_stage interval now n s).1.2,
     (kiln_stage interval now n s).2).
Proof.
  unfold generate, simulate, kiln_stage, mill_stage, high_lsf_stage,
    kpis_stage.
  unfold bind at 1 2 3 4 5 6. unfold ret at 1 2.
  cbv beta zeta. cbn [fst snd perturbed]. reflexivity.
Qed.

Lemma generate_state interval now n s :
  (generate interval now n s).2 = (kiln_stage interval now n s).2.
Proof. rewrite generate_stages. reflexivity. Qed.

Lemma generate_file interval now n s :
  (generate interval now n s).1 = finalize (kiln_stage interval now n s).1.2.
Proof. rewrite generate_stages. reflexivity. Qed.

End Source.

(** Step 6 on any frame: the written table is the explicit one. *)
Lemma finalize_table data : finalize data = Some (to_csv (saved_table data)).
Proof.
  destruct data as [t f].
  lazy beta iota zeta delta -[round2 to_csv]. reflexivity.
Qed.

Lemma saved_header data : header (to_csv (saved_table data)) = bq_friendly_columns.
Proof. reflexivity. Qed.

Lemma saved_records data :
  records (to_csv (saved_table data))
  = (fun i => omap (fun c : string * series => series_field c.2 i)
                (saved_table data)) <$> seq 0 (len data).
Proof. reflexivity. Qed.

Lemma saved_table_cons data :
  saved_table data
  = ("timestamp"%string, Instants (timestamp data)) :: saved_numbers data.
Proof. reflexivity. Qed.

Lemma omap_cons {A B} (f : A -> option B) (x : A) (l : list A) :
  omap f (x :: l)
  = match f x with Some y => y :: omap f l | None => omap f l end.
Proof. reflexivity. Qed.

(** One record of the file: the instant, then the numeric fields. *)
Lemma saved_row data i t :
  timestamp data !! i = Some t ->
  omap (fun c : string * series => series_field c.2 i) (saved_table data)
  = Instant t
    :: omap (fun c : string * series => series_field c.2 i)
         (saved_numbers data).
Proof.
  intros Ht. rewrite saved_table_cons, omap_cons.
  cbn [snd series_field]. rewrite Ht. reflexivity.
Qed.

Lemma finalize_same d1 d2 :
  same_numbers d1 d2 ->
  without_timestamp <$> finalize d1 = without_timestamp <$> finalize d2.
Proof.
  intros [Hn Hl]. rewrite !finalize_table.
  change (Some (without_timestamp (to_csv (saved_table d1)))
          = Some (without_timestamp (to_csv (saved_table d2)))).
  f_equal. unfold without_timestamp.
  rewrite !saved_header, !saved_records, Hl.
  f_equal. rewrite <- !list_fmap_compose.
  apply list_fmap_ext. intros k i' Hk.
  apply lookup_seq in Hk. destruct Hk as [-> Hi].
  change (0 + k)%nat with k. unfold len in *.
  destruct (lookup_lt_is_Some_2 (timestamp d2) k Hi) as [b Hb].
  rewrite <- Hl in Hi.
  destruct (lookup_lt_is_Some_2 (timestamp d1) k Hi) as [a Ha].
  unfold compose. rewrite (saved_row d1 k a Ha), (saved_row d2 k b Hb).
  rewrite !filter_cons_False by discriminate.
  unfold saved_numbers. rewrite Hn. reflexivity.
Qed.

End ReplayFacts.

(** ** The order of draws, as the scripted source logs it *)

Module LogFacts.
Import Generator Rows Files GeneratorFacts AnomalyFacts RunFacts ReplayFacts.
Import Script.

Section Scripted.
Variable book : Z -> list answer.
#[local] Hint Extern 0 RandomState => exact (scripted book)
  : typeclass_instances.

Lemma log_normal mu sd n (s : rng) :
  log (normal mu sd n s).2 = log s ++ [AskNormal mu sd n].
Proof. reflexivity. Qed.

Lemma log_uniform lo hi n (s : rng) :
  log (uniform lo hi n s).2 = log s ++ [AskUniform lo hi n].
Proof. reflexivity. Qed.

Lemma log_choice a k (s : rng) :
  log (choice a k s).2 = log s ++ [AskChoice (length a) k].
Proof. reflexivity. Qed.

Ltac stage_log :=
  unfold base_data, simulate_kpis, high_lsf, mill_inefficiency,
    kiln_instability, bind, ret;
  cbv beta zeta; cbn [fst snd]; unfold pick_rows;
  repeat first [ rewrite log_normal | rewrite log_uniform
               | rewrite log_choice ];
  rewrite <- ?app_assoc; reflexivity.

Lemma log_base_data interval now n (s : rng) :
  log (base_data interval now n s).2 = log s ++ take 12 (replay_order n).
Proof. stage_log. Qed.

Lemma log_simulate_kpis n data (s : rng) :
  log (simulate_kpis n data s).2
  = log s ++ take 6 (drop 12 (replay_order n)).
Proof. stage_log. Qed.

Lemma log_high_lsf data (s : rng) :
  let k := length (pick_rows data s).1 in
  log (high_lsf data s).2
  = log s ++ [ AskChoice (length (index data))
                 (num_problems data / num_scenarios);
               AskUniform 4 8 k; AskNormal 0 (5 # 10) k;
               AskUniform 1 (15 # 10) k ].
Proof. stage_log. Qed.

Lemma log_mill_inefficiency data (s : rng) :
  let k := length (pick_rows data s).1 in
  log (mill_inefficiency data s).2
  = log s ++ [ AskChoice (length (index data))
                 (num_problems data / num_scenarios);
               AskUniform 200 400 k; AskUniform 300 500 k ].
Proof. stage_log. Qed.

Lemma log_kiln_instability data (s : rng) :
  let k := length (pick_rows data s).1 in
  log (kiln_instability data s).2
  = log s ++ [ AskChoice (length (index data))
                 (num_problems data / num_scenarios);
               AskUniform 30 60 k; AskUniform (5 # 10) (8 # 10) k;
               AskUniform 50 80 k ].
Proof. stage_log. Qed.

(** The whole run asks for its draws in the order of [replay_order]. *)
Lemma log_generate interval now n (s : rng) :
  log (generate interval now n s).2 = log s ++ replay_order n.
Proof.
  pose proof (baseline_complete (L := ScriptFacts.scripted_laws book)
                interval now n s) as [T0 _].
  pose proof (run_facts (L := ScriptFacts.scripted_laws book)
                interval now n s) as [([T1 _] & [T2 _] & _) _].
  rewrite simulate_stages in T0, T1, T2.
  cbn [baseline after_high_lsf after_mill_ineff] in T0, T1, T2.
  rewrite generate_state.
  assert (E0 : kpis_stage interval now n s
               = simulate_kpis n (base_data interval now n s).1
                   (base_data interval now n s).2) by reflexivity.
  assert (E1 : high_lsf_stage interval now n s
               = high_lsf (kpis_stage interval now n s).1
                          (kpis_stage interval now n s).2) by reflexivity.
  assert (E2 : mill_stage interval now n s
               = mill_inefficiency (high_lsf_stage interval now n s).1.2
                                   (high_lsf_stage interval now n s).2)
    by reflexivity.
  assert (E3 : kiln_stage interval now n s
               = kiln_instability (mill_stage interval now n s).1.2
                                  (mill_stage interval now n s).2)
    by reflexivity.
  set (k0 := kpis_stage interval now n s) in *.
  set (r1 := high_lsf_stage interval now n s) in *.
  set (r2 := mill_stage interval now n s) in *.
  set (r3 := kiln_stage interval now n s) in *.
  clearbody k0 r1 r2 r3.
  pose proof (pick_rows_selection (L := ScriptFacts.scripted_laws book)
                k0.1 k0.2) as [P0 _].
  pose proof (pick_rows_selection (L := ScriptFacts.scripted_laws book)
                r1.1.2 r1.2) as [P1 _].
  pose proof (pick_rows_selection (L := ScriptFacts.scripted_laws book)
                r2.1.2 r2.2) as [P2 _].
  rewrite E3, log_kiln_instability. cbv zeta. unfold index.
  rewrite length_seq, num_problems_share, P2, T2, <- anomaly_rows_share.
  rewrite E2, log_mill_inefficiency. cbv zeta. unfold index.
  rewrite length_seq, num_problems_share, P1, T1, <- anomaly_rows_share.
  rewrite E1, log_high_lsf. cbv zeta. unfold index.
  rewrite length_seq, num_problems_share, P0, T0, <- anomaly_rows_share.
  rewrite E0, log_simulate_kpis, log_base_data.
  rewrite <- !app_assoc. reflexivity.
Qed.

End Scripted.
End LogFacts.

Module ReplayClaims.
Import Generator Rows Files ReplayFacts LogFacts.

(** C6, amended.  Two runs from the same generator state with the same
    number of rows write the same file once the timestamp column is left
    out, whatever their clocks read, and leave the random source in the
    same state.  The draws are requested in one fixed order: the
    independent variables and the KPI noise first, then for each scenario
    in turn its row selection followed at once by its own magnitudes. *)
Theorem reproducible_replay :
  (forall (R : RandomState) interval now1 now2 n s,
     without_timestamp <$> (generate interval now1 n s).1
       = without_timestamp <$> (generate interval now2 n s).1
     /\ (generate interval now1 n s).2 = (generate interval now2 n s).2)
  /\ (forall book interval now n z,
        Script.log (generate (H := Script.scripted book) interval now n
                      (seed z)).2
        = replay_order n).
Proof.
  split.
  - intros R interval now1 now2 n s.
    rewrite !generate_state, !generate_file.
    destruct (kiln_stage_same interval now1 now2 n s) as [H Hs].
    split; [apply finalize_same, H|exact Hs].
  - intros book interval now n z. rewrite log_generate. reflexivity.
Qed.

(** C6 as stated names another order: on a run of 20 rows the request
    after the first selection is scenario 1's limestone rise, not the
    second selection, so the draws are not made in the order main
    sampling, three selections, magnitudes. *)
Lemma replay_order_counterexample :
  let R := Script.scripted Demo.quiet in
  let asked := Script.log (generate 15 Demo.ticking 20 (seed 42)).2 in
  asked !! 18%nat = Some (Script.AskChoice 20 1)
  /\ asked !! 19%nat = Some (Script.AskUniform 4 8 1)
  /\ phased_order 20 !! 19%nat = Some (Script.AskChoice 20 1)
  /\ asked <> phased_order 20.
Proof.
  intros R asked.
  assert (E : asked = replay_order 20)
    by (apply (log_generate Demo.quiet)).
  rewrite E. repeat split. intros H.
  apply (f_equal (fun l => l !! 19%nat)) in H. discriminate H.
Qed.

End ReplayClaims.

(** ** The saved file *)

Module FileClaims.
Import Generator Rows Files GeneratorFacts AnomalyFacts RunFacts ReplayFacts.

Lemma length_append (a b : string) :
  String.length (a ++ b)%string = (String.length a + String.length b)%nat.
Proof. induction a as [|c a IH]; simpl; [reflexivity|]. rewrite IH. reflexivity. Qed.

Lemma length_lowercase (a : string) :
  String.length (Spec.lowercase a) = String.length a.
Proof. induction a as [|c a IH]; simpl; [reflexivity|]. rewrite IH. reflexivity. Qed.

(** C7 as stated fails on the names: whatever text stands for a slash,
    and even with letter case set aside, the storage-safe rule does not
    turn the script's column keys into its storage names, because
    [kiln_burner_air_flow_m3/hr] becomes [..._m3_hr] while
    [kiln_specific_thermal_energy_Kcal/kg_clinker] becomes
    [..._kcal_per_kg_clinker]. *)
Lemma naming_rule_counterexample :
  ~ exists per : string,
      Spec.lowercase <$> (Spec.storage_safe per <$> column_order)
      = Spec.lowercase <$> bq_friendly_columns.
Proof.
  intros [per H].
  assert (H9 := f_equal (fun l => String.length <$> l !! 9%nat) H).
  assert (H16 := f_equal (fun l => String.length <$> l !! 16%nat) H).
  cbn [fmap list_fmap lookup list_lookup column_order bq_friendly_columns
       option_fmap option_map] in H9, H16.
  rewrite length_lowercase in H9, H16.
  change (Spec.storage_safe per "kiln_burner_air_flow_m3/hr")
    with ("kiln_burner_air_flow_m3" ++ per ++ "hr")%string in H9.
  change (Spec.storage_safe per
            "kiln_specific_thermal_energy_Kcal/kg_clinker")
    with ("kiln_specific_thermal_energy_Kcal" ++ per ++ "kg_clinker")%string
    in H16.
  rewrite !length_append in H9, H16. simpl in H9, H16.
  injection H9 as H9. injection H16 as H16. lia.
Qed.

Lemma omap_numbers (data : DataFrame) (i : nat) (names : list string)
    (cols : list column) :
  length names = length cols ->
  (forall c, (i < length (num data c))%nat) ->
  omap (fun c : string * series => series_field c.2 i)
       (zip names ((fun c => Numbers (round2 <$> num data c)) <$> cols))
  = (fun c => Number (round2 (value data c i))) <$> cols.
Proof.
  intros Hlen Hi. revert names Hlen.
  induction cols as [|c cols IH]; intros [|name names] Hlen;
    try discriminate; [reflexivity|].
  injection Hlen as Hlen.
  change (zip (name :: names)
            ((fun c => Numbers (round2 <$> num data c)) <$> c :: cols))
    with ((name, Numbers (round2 <$> num data c))
          :: zip names ((fun c => Numbers (round2 <$> num data c)) <$> cols)).
  rewrite omap_cons. cbn [snd series_field].
  rewrite list_lookup_fmap, (lookup_cell _ i (Hi c)). cbn [fmap option_fmap option_map].
  rewrite (IH names Hlen). reflexivity.
Qed.

Lemma saved_numbers_row (data : DataFrame) (n i : nat) :
  complete n data -> (i < n)%nat ->
  omap (fun c : string * series => series_field c.2 i) (saved_numbers data)
  = (fun c => Number (round2 (value data c i))) <$> numeric_order.
Proof.
  intros [_ Hc] Hi. apply omap_numbers; [reflexivity|].
  intros c. rewrite Hc. exact Hi.
Qed.

Section Laws.
Context `{L : RandomLaws}.

Lemma perturbed_stage interval now n s :
  perturbed (simulate interval now n s).1 = (kiln_stage interval now n s).1.2.
Proof. rewrite simulate_stages. reflexivity. Qed.

(** C7, amended.  The file holds a header and exactly N records.  The
    header is the script's list of 21 storage names, and each record is the
    row's instant followed by its twenty numeric values in the canonical
    order of [column_order], every one rounded to two decimals.  The
    storage names follow the naming rule (percent to pct, slash to _per_,
    other non-alphanumeric characters to underscore) up to letter case in
    every column but one: [kiln_burner_air_flow_m3/hr] is stored as
    [kiln_burner_air_flow_m3_hr]. *)
Theorem saved_file interval now n s :
  let d := perturbed (simulate interval now n s).1 in
  exists csv,
    (generate interval now n s).1 = Some csv
    /\ header csv = bq_friendly_columns
    /\ length (header csv) = 21%nat
    /\ length (records csv) = n
    /\ (forall i, (i < n)%nat ->
          exists t, timestamp d !! i = Some t
            /\ records csv !! i
               = Some (Instant t
                       :: ((fun c => Number (round2 (value d c i)))
                             <$> numeric_order)))
    /\ (forall i r x, records csv !! i = Some r -> Number x ∈ r ->
          two_decimals x)
    /\ (head column_order = Some "timestamp"%string
        /\ column_name <$> numeric_order = tail column_order)
    /\ Spec.lowercase <$> bq_friendly_columns
       = Spec.lowercase
           <$> <[9%nat := "kiln_burner_air_flow_m3_hr"%string]>
                 (Spec.storage_safe "_per_" <$> column_order).
Proof.
  intros d.
  pose proof (run_facts interval now n s) as [(_ & _ & C3) _].
  cbv zeta in C3. fold d in C3.
  assert (Hg : (generate interval now n s).1 = finalize d).
  { unfold d. rewrite generate_file, perturbed_stage. reflexivity. }
  clearbody d.
  assert (Hrow : forall i, (i < n)%nat ->
            exists t, timestamp d !! i = Some t
              /\ records (to_csv (saved_table d)) !! i
                 = Some (Instant t
                         :: ((fun c => Number (round2 (value d c i)))
                               <$> numeric_order))).
  { intros i Hi.
    assert (Hi' : (i < length (timestamp d))%nat)
      by (destruct C3 as [Hn _]; unfold len in Hn; lia).
    destruct (lookup_lt_is_Some_2 _ _ Hi') as [t Ht].
    exists t. split; [exact Ht|].
    rewrite saved_records, list_lookup_fmap, lookup_seq_lt
      by (rewrite (proj1 C3); exact Hi).
    change (0 + i)%nat with i. cbn [fmap option_fmap option_map].
    rewrite (saved_row d i t Ht), (saved_numbers_row d n i C3 Hi).
    reflexivity. }
  exists (to_csv (saved_table d)).
  split; [rewrite Hg; apply finalize_table|].
  split; [apply saved_header|].
  split; [reflexivity|].
  split; [rewrite saved_records, length_fmap, length_seq; apply C3|].
  split; [exact Hrow|].
  split; [|split; [split; reflexivity|vm_compute; reflexivity]].
  intros i r x Hr Hx.
  assert (Hi : (i < n)%nat).
  { apply lookup_lt_Some in Hr.
    rewrite saved_records, length_fmap, length_seq in Hr.
    rewrite (proj1 C3) in Hr. exact Hr. }
  destruct (Hrow i Hi) as (t & _ & Hr'). rewrite Hr' in Hr.
  injection Hr as <-.
  apply elem_of_cons in Hx. destruct Hx as [Hx|Hx]; [discriminate|].
  repeat (apply elem_of_cons in Hx;
          destruct Hx as [Hx|Hx];
          [injection Hx as ->; apply round2_two_decimals|]).
  inversion Hx.
Qed.

End Laws.

Lemma saved_file_witness :
  let R := Script.scripted Demo.quiet in
  exists csv,
    (generate 15 Demo.ticking 20 (seed 42)).1 = Some csv
    /\ length (records csv) = 20%nat.
Proof.
  intros R.
  destruct (saved_file (L := ScriptFacts.scripted_laws Demo.quiet)
              15 Demo.ticking 20 (seed 42))
    as (csv & H1 & _ & _ & H4 & _).
  exists csv. split; assumption.
Defined.

(** *** Timestamps *)

(** Consecutive timestamps are one interval apart, less the time the
    clock advanced between the two readings. *)
Lemma timestamp_spacing interval now n i :
  (S i < n)%nat ->
  exists a b,
    timestamps interval now n !! i = Some a
    /\ timestamps interval now n !! S i = Some b
    /\ (a - b = interval * minute - (now (S i) - now i))%Z.
Proof.
  intros Hi. unfold timestamps.
  exists (now i - Z.of_nat i * interval * minute)%Z,
         (now (S i) - Z.of_nat (S i) * interval * minute)%Z.
  rewrite !list_lookup_fmap, !lookup_seq_lt by lia.
  repeat split. lia.
Qed.

(** The frame keeps its timestamps through every stage. *)
Lemma perturbed_timestamps `{R : RandomState} interval now n s :
  timestamp (perturbed (simulate interval now n s).1)
  = timestamps interval now n.
Proof.
  rewrite simulate_stages. cbn [perturbed].
  unfold kiln_stage, mill_stage, high_lsf_stage, kpis_stage. cbv zeta.
  run_program. reflexivity.
Qed.

(** C8.  With a clock that advances one microsecond between readings and
    the configured interval of 15 minutes, the first three timestamps
    are 0, 1 - 900000000 and 2 - 1800000000 microseconds: consecutive
    instants are 899999999 microseconds apart, not the 900000000 of the
    interval. *)
Theorem timestamp_spacing_drifts :
  let R := Script.scripted Demo.quiet in
  let ts := timestamp (perturbed
              (simulate INTERVAL_MINUTES Demo.ticking 3 (seed 42)).1) in
  ts = [0; -899999999; -1799999998]%Z
  /\ (INTERVAL_MINUTES * minute = 900000000)%Z
  /\ (forall a b, ts !! 0%nat = Some a -> ts !! 1%nat = Some b ->
        (a - b)%Z <> (INTERVAL_MINUTES * minute)%Z).
Proof.
  intros R ts.
  assert (E : ts = [0; -899999999; -1799999998]%Z).
  { unfold ts. rewrite perturbed_timestamps. reflexivity. }
  rewrite E. repeat split.
  intros a b Ha Hb. injection Ha as <-. injection Hb as <-.
  discriminate.
Qed.

End FileClaims.

(* ===================================================================== *)
(** * The services' claims *)
(* ===================================================================== *)

Module ServiceFacts.
Import Py PyList Http.
Open Scope string_scope.

Section Syntax.
Context `{F : FloatSyntax}.

(** The comprehension that collects the features never raises on a dict. *)
Lemma collect_features (o : list (string * json)) (l : list string) :
  traverse (fun f => try! v := get (JObj o) f JNull in Ok (f, v)) l
  = Ok ((fun f => (f, feature o f)) <$> l).
Proof.
  induction l as [|f l IH]; [reflexivity|].
  cbn [traverse]. rewrite IH. reflexivity.
Qed.

Lemma no_missing (o : list (string * json)) (l : list string) :
  (forall f, f ∈ l -> feature o f <> JNull) ->
  filter (fun fv : string * json => is_null fv.2 = true)
         ((fun f => (f, feature o f)) <$> l) = [].
Proof.
  induction l as [|f l IH]; intros H; [reflexivity|].
  rewrite fmap_cons, filter_cons_False.
  - apply IH. intros g Hg. apply H. right. exact Hg.
  - cbn [snd]. specialize (H f (list_elem_of_here f l)).
    destruct (feature o f); simpl; congruence.
Qed.

Lemma some_missing (o : list (string * json)) (l : list string) :
  (exists f, f ∈ l /\ feature o f = JNull) ->
  (filter (fun fv : string * json => is_null fv.2 = true)
          ((fun f => (f, feature o f)) <$> l)).*1 <> [].
Proof.
  intros (f & Hf & Hn) E.
  apply fmap_nil_inv in E.
  assert (Hin : (f, feature o f)
                ∈ filter (fun fv : string * json => is_null fv.2 = true)
                    ((fun f => (f, feature o f)) <$> l)).
  { apply list_elem_of_filter. split.
    - cbn [snd]. rewrite Hn. reflexivity.
    - apply list_elem_of_fmap. exists f. split; [reflexivity|exact Hf]. }
  rewrite E in Hin. inversion Hin.
Qed.

Lemma convert_features (o : list (string * json)) (l : list string) :
  traverse (fun kv : string * json => try! x := float kv.2 in Ok (kv.1, x))
           ((fun f => (f, feature o f)) <$> l)
  = traverse (fun f => try! x := float (feature o f) in Ok (f, x)) l.
Proof.
  induction l as [|f l IH]; [reflexivity|].
  rewrite fmap_cons. cbn [traverse fst snd]. rewrite IH. reflexivity.
Qed.

End Syntax.
End ServiceFacts.

Module FreeLimeClaims.
Import Py PyList Http ServiceFacts.
Open Scope string_scope.

Section Syntax.
Context `{F : FloatSyntax}.

(** C10, amended.  For a POST whose body is a JSON object the free-lime
    service answers 200 with the key [clinker_free_lime_%] set to null
    when the endpoint is not initialised, when a required feature is
    missing (or null), and, the features all being present and
    convertible to floats, when the prediction call yields no value
    (the call raises or the answer has an unexpected shape); with a
    value it answers 200 with that value rounded to two decimals. *)
Theorem free_lime_answers (eps : list (string * Endpoint))
    (o : list (string * json)) :
  let r := FreeLime.flask_predict eps (post (Some (JObj o))) in
  (assoc FreeLime.kpi_to_predict eps = None -> r = null_prediction)
  /\ (forall ep, assoc FreeLime.kpi_to_predict eps = Some ep ->
        (feature_missing o -> r = null_prediction)
        /\ (forall xs, features_convert o xs ->
              match FreeLime.get_vertex_prediction ep xs with
              | None => r = null_prediction
              | Some q => r = prediction q
              end)
        /\ (forall xs,
              (exists e, ep xs = Raise e) \/ ep xs = Ok []
              \/ (exists p l, ep xs = Ok (p :: l)
                    /\ is_number p = false
                    /\ forall m, p = JObj m -> lookup_key "value" m = None) ->
              FreeLime.get_vertex_prediction ep xs = None)).
Proof.
  intros r. subst r. unfold FreeLime.flask_predict, FreeLime.predict, post.
  cbn [method body get_json and_then is_null].
  split.
  - intros ->. reflexivity.
  - intros ep ->.
    fold free_lime_features. rewrite collect_features.
    cbn [and_then]. split; [|split].
    + intros Hm. apply some_missing in Hm.
      destruct ((filter _ _).*1) as [|m ms]; [congruence|]. reflexivity.
    + intros xs [Hp Hx]. rewrite (no_missing o _ Hp).
      cbn [fmap list_fmap]. rewrite convert_features, Hx. cbn [and_then].
      destruct (FreeLime.get_vertex_prediction ep xs); reflexivity.
    + intros xs [[e He]|[He|(p & l & He & Hp & Hm)]];
        unfold FreeLime.get_vertex_prediction; rewrite He;
        try reflexivity.
      destruct p as [|b|q|t|a|m]; try reflexivity; try discriminate.
      rewrite (Hm m eq_refl). reflexivity.
Qed.

End Syntax.

Lemma free_lime_answers_witness :
  let F := Demo.plain_digits in
  assoc FreeLime.kpi_to_predict Demo.offline = None
  /\ FreeLime.flask_predict Demo.offline
       (post (Some (JObj (Demo.reading (JNum 1)))))
     = null_prediction.
Proof.
  intros F. split; [reflexivity|].
  apply (free_lime_answers (F := Demo.plain_digits) Demo.offline
           (Demo.reading (JNum 1))).
  reflexivity.
Defined.

(** C10 as stated fails for well-formed bodies that are not objects with
    convertible features: the body [null] is answered with 400, and with
    the endpoint initialised an array body, or a payload whose fuel feed
    rate is an array, is answered with 500. *)
Lemma free_lime_counterexample :
  let F := Demo.plain_digits in
  (status (FreeLime.flask_predict Demo.offline (post (Some JNull))) = 400%nat
   /\ ~ always_ok Demo.offline JNull)
  /\ (status (FreeLime.flask_predict (Demo.live Demo.steady)
                (post (Some (JArr [])))) = 500%nat
      /\ ~ always_ok (Demo.live Demo.steady) (JArr []))
  /\ (status (FreeLime.flask_predict (Demo.live Demo.steady)
                (post (Some (JObj (Demo.reading (JArr []))))))
      = 500%nat
      /\ ~ always_ok (Demo.live Demo.steady)
            (JObj (Demo.reading (JArr [])))).
Proof.
  intros F. unfold always_ok.
  repeat split; try reflexivity; intros [p Hp];
    apply (f_equal status) in Hp; vm_compute in Hp; discriminate Hp.
Qed.

End FreeLimeClaims.

Module StatusClaims.
Import Py PyList Http ServiceFacts.
Open Scope string_scope.

Ltac branches :=
  repeat match goal with
    | |- context [match ?x with _ => _ end] => destruct x eqn:?
    | H : context [match ?x with _ => _ end] |- _ => destruct x eqn:?
    end.

Ltac settle :=
  repeat match goal with
    | H : Ok _ = Ok _ |- _ => injection H as H; subst
    | H : Raise _ = Raise _ |- _ => injection H as H; subst
    | H : Ok _ = Raise _ |- _ => discriminate H
    | H : Raise _ = Ok _ |- _ => discriminate H
    end.

Ltac classified :=
  first
    [ left; reflexivity
    | right; split;
      [ unfold error_status; cbn [status]; auto
      | unfold error_report; cbn [payload]; eexists; reflexivity ] ].

Lemma thermal_classified `{F : FloatSyntax} eps b :
  let r := ThermalEnergy.flask_predict eps (post b) in
  status r = 200%nat \/ (error_status r /\ error_report r).
Proof.
  intros r. subst r.
  unfold ThermalEnergy.flask_predict, post. cbn [method].
  destruct (ThermalEnergy.predict _ _) as [a|e] eqn:E.
  - unfold ThermalEnergy.predict, and_then in E.
    branches; settle; classified.
  - destruct e; classified.
Qed.

Lemma free_lime_classified `{F : FloatSyntax} eps b :
  let r := FreeLime.flask_predict eps (post b) in
  status r = 200%nat
  \/ ((status r = 400%nat \/ status r = 500%nat) /\ error_report r).
Proof.
  intros r. subst r.
  unfold FreeLime.flask_predict, post. cbn [method].
  destruct (FreeLime.predict _ _) as [a|e]; [left; reflexivity|].
  right. destruct e; (split; [cbn [status]; auto|eexists; reflexivity]).
Qed.

Lemma image_classified analyse b :
  let r := ImageAnalysis.flask_predict analyse (post b) in
  status r = 200%nat \/ (status r = 500%nat /\ error_report r).
Proof.
  intros r. subst r.
  unfold ImageAnalysis.flask_predict, post. cbn [method].
  destruct (ImageAnalysis.analyse_request _ _) as [a|e]; [left; reflexivity|].
  right. split; [reflexivity|eexists; reflexivity].
Qed.

Lemma recommendation_classified generate b :
  let r := Recommendation.flask_route_recommendations generate (post b) in
  status r = 200%nat \/ (status r = 500%nat /\ recommendation_error r).
Proof.
  intros r. subst r.
  unfold Recommendation.flask_route_recommendations, post. cbn [method].
  destruct (Recommendation.recommend _ _) as [a|e]; [left; reflexivity|].
  right. split; [reflexivity|exists e; reflexivity].
Qed.

Lemma thermal_statuses `{F : FloatSyntax} eps b :
  let r := ThermalEnergy.flask_predict eps (post b) in
  (b = None -> status r = 500%nat)
  /\ (b = Some JNull -> status r = 400%nat)
  /\ (forall v, b = Some v -> v <> JNull ->
        assoc ThermalEnergy.TARGET_KPI eps = None -> status r = 503%nat)
  /\ (forall o ep, b = Some (JObj o) ->
        assoc ThermalEnergy.TARGET_KPI eps = Some ep ->
        (exists f, f ∈ thermal_features /\ feature o f = JNull) ->
        status r = 400%nat).
Proof.
  intros r. subst r.
  unfold ThermalEnergy.flask_predict, ThermalEnergy.predict, post.
  cbv zeta. cbn [method body get_json and_then].
  split; [intros ->; reflexivity|].
  split; [intros ->; reflexivity|]. split.
  - intros v -> Hv ->. destruct v; try reflexivity. congruence.
  - intros o ep -> -> Hm. cbn [body get_json is_null and_then].
    fold thermal_features. rewrite collect_features. cbn [and_then].
    apply some_missing in Hm.
    destruct ((filter _ _).*1) as [|m ms]; [congruence|]. reflexivity.
Qed.

Lemma free_lime_statuses `{F : FloatSyntax} eps b :
  let r := FreeLime.flask_predict eps (post b) in
  (b = None -> status r = 500%nat)
  /\ (b = Some JNull -> status r = 400%nat)
  /\ (forall v, b = Some v -> v <> JNull ->
        assoc FreeLime.kpi_to_predict eps = None -> r = null_prediction).
Proof.
  intros r. subst r.
  unfold FreeLime.flask_predict, FreeLime.predict, post.
  cbn [method body get_json and_then].
  split; [intros ->; reflexivity|].
  split; [intros ->; reflexivity|].
  intros v -> Hv ->. destruct v; try reflexivity. congruence.
Qed.

Lemma image_statuses analyse b :
  let r := ImageAnalysis.flask_predict analyse (post b) in
  (b = None -> status r = 500%nat)
  /\ (b = Some JNull -> status r = 500%nat)
  /\ (forall o, b = Some (JObj o) ->
        lookup_key "image_data_b64" o = None -> status r = 500%nat).
Proof.
  intros r. subst r.
  unfold ImageAnalysis.flask_predict, ImageAnalysis.analyse_request, post.
  cbn [method body get_json and_then].
  split; [intros ->; reflexivity|].
  split; [intros ->; reflexivity|].
  intros o -> Ho. destruct o as [|kv o]; [reflexivity|].
  cbn [body get_json truthy negb contains and_then]. rewrite Ho.
  rewrite bool_decide_eq_false_2 by (intros [x Hx]; discriminate Hx).
  reflexivity.
Qed.

(** C9, amended.  Each service answers a failed POST with a fixed
    status, but the mapping is the service's own.  Thermal energy: 400
    for a null body and for a missing feature, 503 for an uninitialised
    endpoint, 500 for an unreadable body, and every answer other than 200
    carries 400, 503 or 500 with the body [{error: message}].  Free lime:
    400 or 500 with [{error: message}], never 503; an uninitialised
    endpoint is answered with 200 and a null prediction.  Image analysis:
    every failure, an unreadable or null body and a missing required
    field included, is answered with 500 and [{error: message}].
    Recommendation: every failure is answered with 500 and a body of two
    members, [error] and [message]. *)
Theorem status_mapping :
  (forall (F : FloatSyntax) eps b,
     let r := ThermalEnergy.flask_predict eps (post b) in
     (status r = 200%nat \/ (error_status r /\ error_report r))
     /\ (b = None -> status r = 500%nat)
     /\ (b = Some JNull -> status r = 400%nat)
     /\ (forall v, b = Some v -> v <> JNull ->
           assoc ThermalEnergy.TARGET_KPI eps = None -> status r = 503%nat)
     /\ (forall o ep, b = Some (JObj o) ->
           assoc ThermalEnergy.TARGET_KPI eps = Some ep ->
           (exists f, f ∈ thermal_features /\ feature o f = JNull) ->
           status r = 400%nat))
  /\ (forall (F : FloatSyntax) eps b,
       let r := FreeLime.flask_predict eps (post b) in
       (status r = 200%nat
        \/ ((status r = 400%nat \/ status r = 500%nat) /\ error_report r))
       /\ (b = None -> status r = 500%nat)
       /\ (b = Some JNull -> status r = 400%nat)
       /\ (forall v, b = Some v -> v <> JNull ->
             assoc FreeLime.kpi_to_predict eps = None ->
             r = null_prediction))
  /\ (forall analyse b,
       let r := ImageAnalysis.flask_predict analyse (post b) in
       (status r = 200%nat \/ (status r = 500%nat /\ error_report r))
       /\ (b = None -> status r = 500%nat)
       /\ (b = Some JNull -> status r = 500%nat)
       /\ (forall o, b = Some (JObj o) ->
             lookup_key "image_data_b64" o = None -> status r = 500%nat))
  /\ (forall generate b,
       let r := Recommendation.flask_route_recommendations generate (post b) in
       status r = 200%nat \/ (status r = 500%nat /\ recommendation_error r)).
Proof.
  split; [|split; [|split]].
  - intros F eps b r. split; [apply thermal_classified|].
    apply thermal_statuses.
  - intros F eps b r. split; [apply free_lime_classified|].
    apply free_lime_statuses.
  - intros analyse b r. split; [apply image_classified|].
    apply image_statuses.
  - intros generate b. apply recommendation_classified.
Qed.

Lemma status_mapping_witness :
  status (ThermalEnergy.flask_predict (H := Demo.plain_digits) []
            (post (Some JNull))) = 400%nat.
Proof.
  destruct status_mapping as [H _].
  destruct (H Demo.plain_digits [] (Some JNull)) as (_ & _ & H3 & _).
  apply H3. reflexivity.
Defined.

(** C9 as stated fails in three services.  The image service answers a
    payload without the required field [image_data_b64] with 500, not
    400; the recommendation service answers a payload without
    [predicted_kpis] with 500 and a body that is not [{error: message}];
    the free-lime service answers with 200, not 503, while its endpoint
    is not initialised. *)
Lemma status_mapping_counterexample :
  let F := Demo.plain_digits in
  let lacking := Some (JObj [("mime_type", JStr "image/png")]) in
  let partial := Some (JObj [("current_inputs", JObj [("x", JNum 1)])]) in
  (forall analyse,
     status (ImageAnalysis.flask_predict analyse (post lacking)) = 500%nat
     /\ ~ validation_error
           (ImageAnalysis.flask_predict analyse (post lacking)))
  /\ (forall generate,
       status (Recommendation.flask_route_recommendations generate
                 (post partial)) = 500%nat
       /\ ~ error_report
             (Recommendation.flask_route_recommendations generate
                (post partial)))
  /\ status (FreeLime.flask_predict Demo.offline
               (post (Some (JObj (Demo.reading (JNum 1)))))) = 200%nat.
Proof.
  intros F lacking partial. split; [|split].
  - intros analyse. split; [reflexivity|]. intros [H _]. discriminate H.
  - intros generate. split; [reflexivity|]. intros [msg H].
    discriminate H.
  - reflexivity.
Qed.

End StatusClaims.
(* ===================================================================== *)
(** * Further properties of the generator *)
(* ===================================================================== *)

Module GeneratorExtras.
Import Generator Rows GeneratorFacts AnomalyFacts RunFacts.

(** Two series of the same length with the same cells are the same. *)
Lemma cells_ext (a b : list Q) :
  length a = length b -> (forall i, cell a i = cell b i) -> a = b.
Proof.
  intros Hl Hc. apply list_eq. intros i.
  destruct (decide (i < length a)%nat) as [Hi|Hi].
  - rewrite (lookup_cell a i Hi), (lookup_cell b i) by lia.
    f_equal. apply Hc.
  - rewrite !lookup_ge_None_2 by lia. reflexivity.
Qed.

Section Laws.
Context `{L : RandomLaws}.

(** X1.  The three scenarios leave twelve columns as the base data and
    the KPI simulation computed them, on every row: the clay, iron-ore
    and bauxite percentages (the bauxite share is not derived again after
    scenario 1 raises the limestone share), the raw-meal, fuel and
    alternative-fuel rates, hood pressure, burner air flow, the clinker
    and gypsum feeds, the recirculation ratio and the NOx emissions. *)
Theorem columns_outside_scenarios interval now n s :
  let sim := (simulate interval now n s).1 in
  Forall (fun c => num (perturbed sim) c = num (baseline sim) c)
    [ clay_feed_rate; iron_ore_feed_rate; bauxite_feed_rate;
      raw_meal_feed_rate_tph; fuel_feed_rate_tph;
      fuel_alt_substitution_rate; kiln_hood_pressure_mmH2O;
      kiln_burner_air_flow; clinker_feed_rate_tph; gypsum_feed_rate_tph;
      mill_recirculation_ratio; kiln_exit_nox_emissions ].
Proof.
  pose proof (run_facts interval now n s) as H. cbv zeta in *.
  generalize dependent (simulate interval now n s).1. intros sim H.
  destruct H as (_ & _ & _ & (F1 & F2 & F3) & _).
  repeat constructor;
    (rewrite F3, F2, F1 by discriminate; reflexivity).
Qed.

(** X2.  A scenario changes its columns on its own rows only: outside
    the rows of scenario 1 the limestone share and the LSF ratio are the
    baseline's, outside those of scenario 2 the mill power, fineness and
    specific electrical energy, outside those of scenario 3 the drive
    current and the thermal energy; free lime, which scenarios 1 and 3
    both write, is the baseline's outside the rows of both. *)
Theorem scenario_locality interval now n s i :
  let sim := (simulate interval now n s).1 in
  let d0 := baseline sim in
  let d3 := perturbed sim in
  (i ∉ high_lsf_indices sim ->
     value d3 limestone_feed_rate i = value d0 limestone_feed_rate i
     /\ value d3 raw_meal_lsf_ratio i = value d0 raw_meal_lsf_ratio i)
  /\ (i ∉ mill_ineff_indices sim ->
     value d3 mill_motor_power_draw_kW i = value d0 mill_motor_power_draw_kW i
     /\ value d3 cement_fineness_blaine i = value d0 cement_fineness_blaine i
     /\ value d3 mill_specific_electrical_energy i
        = value d0 mill_specific_electrical_energy i)
  /\ (i ∉ kiln_instability_indices sim ->
     value d3 kiln_main_drive_current_Amp i
       = value d0 kiln_main_drive_current_Amp i
     /\ value d3 kiln_specific_thermal_energy i
        = value d0 kiln_specific_thermal_energy i)
  /\ (i ∉ high_lsf_indices sim -> i ∉ kiln_instability_indices sim ->
     value d3 clinker_free_lime i = value d0 clinker_free_lime i).
Proof.
  pose proof (run_facts interval now n s) as H. cbv zeta in *.
  generalize dependent (simulate interval now n s).1. intros sim H.
  destruct H as (_ & _ & (U1 & U2 & U3) & (F1 & F2 & F3) & _).
  unfold value in *.
  repeat split; intros.
  all: first
    [ rewrite F3, F2 by discriminate; apply U1; assumption
    | rewrite F3 by discriminate; rewrite <- F1 by discriminate;
      apply U2; assumption
    | rewrite <- F1, <- F2 by discriminate; apply U3; assumption
    | rewrite U3, F2 by (assumption || discriminate); apply U1; assumption ].
Qed.

(** X3.  The rows that no scenario selected are, in every column, the
    rows of the baseline, and the file holds the baseline's values
    rounded; the rows selected by some scenario number at most 15 % of
    the table. *)
Theorem rows_outside_selections interval now n s :
  let sim := (simulate interval now n s).1 in
  let touched := high_lsf_indices sim ++ mill_ineff_indices sim
                 ++ kiln_instability_indices sim in
  (20 * length touched <= 3 * n)%nat
  /\ forall i c, (i < n)%nat -> i ∉ touched ->
       value (perturbed sim) c i = value (baseline sim) c i
       /\ value (round (perturbed sim)) c i
          = round2 (value (baseline sim) c i).
Proof.
  pose proof (run_facts interval now n s) as H. cbv zeta in *.
  generalize dependent (simulate interval now n s).1. intros sim H.
  destruct H as ((_ & _ & C3) & (S1 & S2 & S3) & (U1 & U2 & U3) & _).
  split.
  - destruct S1 as [E1 _], S2 as [E2 _], S3 as [E3 _].
    rewrite !length_app, E1, E2, E3, anomaly_rows_share.
    pose proof (Nat.Div0.mul_div_le n 20). lia.
  - intros i c Hi Hn.
    rewrite !not_elem_of_app in Hn. destruct Hn as (N1 & N2 & N3).
    assert (E : value (perturbed sim) c i = value (baseline sim) c i).
    { rewrite U3, U2, U1 by assumption. reflexivity. }
    split; [exact E|].
    rewrite <- E. apply BalanceClaims.value_round.
    rewrite (proj2 C3 c). exact Hi.
Qed.

(** X4.  A table of fewer than twenty rows gets no anomaly at all: each
    scenario selects no row, and every column of the final frame is the
    baseline's. *)
Theorem no_anomalies_below_twenty interval now n s :
  (n < 20)%nat ->
  let sim := (simulate interval now n s).1 in
  high_lsf_indices sim = [] /\ mill_ineff_indices sim = []
  /\ kiln_instability_indices sim = []
  /\ forall c, num (perturbed sim) c = num (baseline sim) c.
Proof.
  intros Hn.
  pose proof (run_facts interval now n s) as H.
  pose proof (baseline_complete interval now n s) as C0.
  cbv zeta in *.
  generalize dependent (simulate interval now n s).1. intros sim H C0.
  destruct H as ((C1 & C2 & C3) & (S1 & S2 & S3) & (U1 & U2 & U3) & _).
  assert (Z : forall idx, selection n idx -> idx = []).
  { intros idx [E _]. rewrite anomaly_rows_share in E.
    rewrite Nat.div_small in E by exact Hn.
    destruct idx; [reflexivity|discriminate]. }
  apply Z in S1, S2, S3. repeat split; try assumption.
  intros c. apply cells_ext.
  - rewrite (proj2 C3 c), (proj2 C0 c). reflexivity.
  - intros i. change (value (perturbed sim) c i = value (baseline sim) c i).
    rewrite U3, U2, U1; [reflexivity|..].
    + rewrite S1. apply not_elem_of_nil.
    + rewrite S2. apply not_elem_of_nil.
    + rewrite S3. apply not_elem_of_nil.
Qed.

(** The baseline's mill power, row by row, as step 4 computes it. *)
Lemma baseline_power interval now n s i :
  let d := baseline (simulate interval now n s).1 in
  let e := kpi_noise n (after_base interval now n s) in
  (i < n)%nat ->
  value d mill_motor_power_draw_kW i ==
    4800 + (value d clinker_feed_rate_tph i - 110) * 20
    + (value d mill_recirculation_ratio i - 55) * 10
    - (value d clinker_free_lime i - 1) * 50 + cell (power_noise e) i.
Proof.
  intros d e Hi.
  pose proof (simulate_kpis_columns n (base_data interval now n s).1
                (after_base interval now n s)) as H.
  pose proof (kpi_noise_lengths n (after_base interval now n s)) as He.
  pose proof (baseline_complete interval now n s) as [_ Hc].
  change (simulate_kpis n _ _).1 with d in H.
  change (kpi_noise _ _) with e in H, He.
  fold d in Hc. cbv zeta in H, He.
  clearbody d e.
  destruct H as (_ & _ & _ & _ & H5 & _).
  destruct He as (E1 & E2 & E3 & E4 & E5 & E6).
  unfold value.
  pose proof (Hc clinker_feed_rate_tph).
  pose proof (Hc mill_recirculation_ratio). pose proof (Hc clinker_free_lime).
  unfold clinker_feed_rate_mill_mean, mill_recirculation_ratio_mean in *.
  rewrite H5 at 1. cells. lra.
Qed.

(** X5.  The mill power is not derived again after an anomaly changed
    the free lime it was computed from: on every row outside scenario 2
    the final power is still the formula of step 4 over the baseline's
    free lime, so it misses the formula over the final free lime by 50
    times the change in free lime. *)
Theorem mill_power_not_rederived interval now n s i :
  let sim := (simulate interval now n s).1 in
  let d0 := baseline sim in
  let d3 := perturbed sim in
  let e := kpi_noise n (after_base interval now n s) in
  let formula := fun free_lime =>
    4800 + (value d3 clinker_feed_rate_tph i - 110) * 20
    + (value d3 mill_recirculation_ratio i - 55) * 10
    - (free_lime - 1) * 50 + cell (power_noise e) i in
  (i < n)%nat -> i ∉ mill_ineff_indices sim ->
  value d3 mill_motor_power_draw_kW i == formula (value d0 clinker_free_lime i)
  /\ value d3 mill_motor_power_draw_kW i
     - formula (value d3 clinker_free_lime i)
     == 50 * (value d3 clinker_free_lime i - value d0 clinker_free_lime i).
Proof.
  intros sim d0 d3 e formula Hi Hn.
  pose proof (baseline_power interval now n s i Hi) as P.
  pose proof (run_facts interval now n s) as H.
  cbv zeta in P, H. subst formula d0 d3 e. fold sim in Hn |- *.
  revert P H Hn.
  generalize (kpi_noise n (after_base interval now n s)).
  subst sim.
  generalize (simulate interval now n s).1. intros sim e P H Hn.
  destruct H as (_ & _ & (_ & U2 & _) & (F1 & F2 & F3) & _).
  unfold value in *.
  rewrite (F3 mill_motor_power_draw_kW), (U2 _ _ Hn),
    (F1 mill_motor_power_draw_kW) by discriminate.
  rewrite (F3 clinker_feed_rate_tph), (F2 clinker_feed_rate_tph),
    (F1 clinker_feed_rate_tph) by discriminate.
  rewrite (F3 mill_recirculation_ratio), (F2 mill_recirculation_ratio),
    (F1 mill_recirculation_ratio) by discriminate.
  rewrite P. split; lra.
Qed.

End Laws.

Lemma columns_outside_scenarios_witness :
  let R := Script.scripted Demo.overlap in
  let sim := (simulate 15 Demo.ticking 20 (seed 42)).1 in
  num (perturbed sim) bauxite_feed_rate = num (baseline sim) bauxite_feed_rate.
Proof.
  intros R sim.
  pose proof (columns_outside_scenarios
                (L := ScriptFacts.scripted_laws Demo.overlap)
                15 Demo.ticking 20 (seed 42)) as H.
  cbv zeta in H. rewrite !Forall_cons in H.
  destruct H as (_ & _ & H & _). exact H.
Defined.

(** Scenario 1 of the run [Demo.overlap] selects row 2 only. *)
Lemma scenario_locality_witness :
  let R := Script.scripted Demo.overlap in
  let sim := (simulate 15 Demo.ticking 20 (seed 42)).1 in
  high_lsf_indices sim = [2%nat]
  /\ value (perturbed sim) limestone_feed_rate 7
     = value (baseline sim) limestone_feed_rate 7.
Proof.
  intros R sim.
  assert (E : high_lsf_indices sim = [2%nat]) by (vm_compute; reflexivity).
  split; [exact E|].
  destruct (scenario_locality
              (L := ScriptFacts.scripted_laws Demo.overlap)
              15 Demo.ticking 20 (seed 42) 7) as (H & _).
  apply H. change (7%nat ∉ high_lsf_indices sim).
  rewrite E, not_elem_of_cons. split; [lia|apply not_elem_of_nil].
Defined.

Lemma rows_outside_selections_witness :
  let R := Script.scripted Demo.overlap in
  let sim := (simulate 15 Demo.ticking 20 (seed 42)).1 in
  (20 * length (high_lsf_indices sim ++ mill_ineff_indices sim
                ++ kiln_instability_indices sim) <= 3 * 20)%nat.
Proof.
  intros R sim.
  destruct (rows_outside_selections
              (L := ScriptFacts.scripted_laws Demo.overlap)
              15 Demo.ticking 20 (seed 42)) as (H & _).
  exact H.
Defined.

(** Scenario 2 of the run [Demo.overlap] selects row 5 only. *)
Lemma mill_power_not_rederived_witness :
  let R := Script.scripted Demo.overlap in
  let sim := (simulate 15 Demo.ticking 20 (seed 42)).1 in
  mill_ineff_indices sim = [5%nat]
  /\ value (perturbed sim) mill_motor_power_draw_kW 2
     - (4800 + (value (perturbed sim) clinker_feed_rate_tph 2 - 110) * 20
        + (value (perturbed sim) mill_recirculation_ratio 2 - 55) * 10
        - (value (perturbed sim) clinker_free_lime 2 - 1) * 50
        + cell (power_noise
                  (kpi_noise 20 (after_base 15 Demo.ticking 20 (seed 42)))) 2)
     == 50 * (value (perturbed sim) clinker_free_lime 2
              - value (baseline sim) clinker_free_lime 2).
Proof.
  intros R sim.
  assert (E : mill_ineff_indices sim = [5%nat]) by (vm_compute; reflexivity).
  split; [exact E|].
  apply (mill_power_not_rederived
           (L := ScriptFacts.scripted_laws Demo.overlap)
           15 Demo.ticking 20 (seed 42) 2); [lia|].
  change (2%nat ∉ mill_ineff_indices sim).
  rewrite E, not_elem_of_cons. split; [lia|].
  apply not_elem_of_nil.
Defined.

Lemma no_anomalies_below_twenty_witness :
  let R := Script.scripted Demo.overlap in
  let sim := (simulate 15 Demo.ticking 19 (seed 42)).1 in
  (19 < 20)%nat
  /\ forall c, num (perturbed sim) c = num (baseline sim) c.
Proof.
  intros R sim. split; [lia|].
  apply (no_anomalies_below_twenty
           (L := ScriptFacts.scripted_laws Demo.overlap)
           15 Demo.ticking 19 (seed 42)). lia.
Defined.

(** X6.  While the clock does not run backwards and advances by less
    than the interval between two readings, consecutive timestamps
    strictly decrease and lie at most one interval apart; they lie
    exactly one interval apart only if the clock did not advance. *)
Theorem timestamps_decrease `{R : RandomState} interval now n s i :
  let ts := timestamp (perturbed (simulate interval now n s).1) in
  (S i < n)%nat ->
  (now i <= now (S i) < now i + interval * minute)%Z ->
  exists a b,
    ts !! i = Some a /\ ts !! S i = Some b
    /\ (b < a <= b + interval * minute)%Z
    /\ ((a - b)%Z = (interval * minute)%Z <-> now (S i) = now i).
Proof.
  intros ts Hi Hc. subst ts.
  rewrite FileClaims.perturbed_timestamps.
  destruct (FileClaims.timestamp_spacing interval now n i Hi)
    as (a & b & Ha & Hb & E).
  exists a, b. repeat split; try assumption; lia.
Qed.

Lemma timestamps_decrease_witness :
  let R := Script.scripted Demo.quiet in
  let ts := timestamp (perturbed
              (simulate INTERVAL_MINUTES Demo.ticking 3 (seed 42)).1) in
  exists a b,
    ts !! 0%nat = Some a /\ ts !! 1%nat = Some b
    /\ (b < a <= b + INTERVAL_MINUTES * minute)%Z
    /\ ((a - b)%Z = (INTERVAL_MINUTES * minute)%Z
        <-> Demo.ticking 1 = Demo.ticking 0).
Proof.
  intros R ts.
  apply (timestamps_decrease (R := Script.scripted Demo.quiet)
           INTERVAL_MINUTES Demo.ticking 3 (seed 42) 0);
    [lia | vm_compute; split; [discriminate | reflexivity]].
Defined.

(** A value with two decimals is its own rounding. *)
Lemma rint_hundredths (k : Z) : rint (inject_Z k / 100 * 100) = k.
Proof.
  assert (E : inject_Z k / 100 * 100 == inject_Z k) by field.
  assert (F : Qfloor (inject_Z k / 100 * 100) = k).
  { rewrite (Qfloor_comp _ _ E). apply Qfloor_Z. }
  unfold rint. rewrite F.
  destruct (Qcompare_spec (inject_Z k / 100 * 100 - inject_Z k) (1 # 2));
    [lra|reflexivity|lra].
Qed.

Lemma round2_idempotent (x : Q) : round2 (round2 x) = round2 x.
Proof. unfold round2 at 1 2. rewrite rint_hundredths. reflexivity. Qed.

(** X7.  [round(2)] is idempotent: rounding the rounded table again
    changes no cell, so the file can be re-rounded without loss. *)
Theorem round_idempotent (data : DataFrame) (c : column) :
  num (round (round data)) c = num (round data) c.
Proof.
  unfold round. cbn [num]. rewrite <- list_fmap_compose.
  apply list_fmap_ext. intros i x _. apply round2_idempotent.
Qed.

End GeneratorExtras.
(* ===================================================================== *)
(** * Further properties of the prediction services *)
(* ===================================================================== *)

Module ServiceExtras.
Import Py PyList Http ServiceFacts.
Open Scope string_scope.

(** The features collected from two payloads that agree on them. *)
Lemma features_agree (o o' : list (string * json)) (l : list string) :
  (forall f, f ∈ l -> lookup_key f o = lookup_key f o') ->
  (fun f => (f, feature o f)) <$> l = (fun f => (f, feature o' f)) <$> l.
Proof.
  intros H. apply list_eq. intros i. rewrite !list_lookup_fmap.
  destruct (l !! i) as [f|] eqn:E; [|reflexivity].
  cbn. unfold feature. rewrite (H f); [reflexivity|].
  apply list_elem_of_lookup. exists i. exact E.
Qed.

(** The names of the converted features are the features asked for. *)
Lemma converted_names `{F : FloatSyntax} (o : list (string * json))
    (l : list string) (xs : list (string * Q)) :
  traverse (fun f => try! x := float (feature o f) in Ok (f, x)) l = Ok xs ->
  xs.*1 = l.
Proof.
  revert xs. induction l as [|f l IH]; intros xs H.
  - cbn in H. inversion H. reflexivity.
  - cbn [traverse] in H.
    destruct (float (feature o f)) as [x|e]; [|discriminate].
    cbn [and_then] in H.
    destruct (traverse _ l) as [ys|e]; [|discriminate].
    cbn [and_then] in H. inversion H. cbn. f_equal. apply IH. reflexivity.
Qed.

(** The thermal-energy model's features are among the free-lime model's. *)
Lemma thermal_in_free_lime (f : string) :
  f ∈ thermal_features -> f ∈ free_lime_features.
Proof.
  unfold thermal_features, free_lime_features. cbn.
  rewrite !elem_of_cons.
  intros [->|[->|[->|[->|[->|[->|Hf]]]]]]; [..|inversion Hf];
    repeat match goal with
           | |- _ \/ _ => first [left; reflexivity | right]
           end.
Qed.

Section Syntax.
Context `{F : FloatSyntax}.

(** X8.  Both prediction services read nothing of an object payload but
    the features of their model: two payloads that agree on the eleven
    features of the free-lime model (which include the six of the
    thermal-energy model) get the same response from each service,
    whatever else they hold. *)
Theorem payload_read_by_features (eps eps' : list (string * Endpoint))
    (o o' : list (string * json)) :
  (forall f, f ∈ free_lime_features -> lookup_key f o = lookup_key f o') ->
  FreeLime.flask_predict eps (post (Some (JObj o)))
    = FreeLime.flask_predict eps (post (Some (JObj o')))
  /\ ThermalEnergy.flask_predict eps' (post (Some (JObj o)))
     = ThermalEnergy.flask_predict eps' (post (Some (JObj o'))).
Proof.
  intros H.
  assert (H' : forall f, f ∈ thermal_features ->
                 lookup_key f o = lookup_key f o').
  { intros f Hf. apply H, thermal_in_free_lime, Hf. }
  split.
  - unfold FreeLime.flask_predict, FreeLime.predict, post.
    cbn [method body get_json and_then is_null].
    destruct (assoc FreeLime.kpi_to_predict eps) as [ep|]; [|reflexivity].
    fold free_lime_features. rewrite !collect_features.
    rewrite (features_agree o o' _ H). reflexivity.
  - unfold ThermalEnergy.flask_predict, ThermalEnergy.predict, post.
    cbn [method body get_json and_then is_null].
    destruct (assoc ThermalEnergy.TARGET_KPI eps') as [ep|]; [|reflexivity].
    fold thermal_features. rewrite !collect_features.
    rewrite (features_agree o o' _ H'). reflexivity.
Qed.

(** X9.  Of the seven KPIs of the free-lime service only free lime has a
    deployed model: initialisation yields that one endpoint when the
    project is configured and the connection succeeds, and nothing
    otherwise; with nothing initialised every object payload is answered
    200 with a null prediction. *)
Theorem free_lime_initialisation (PROJECT_ID : option string)
    (connect : string -> result Endpoint) :
  let eps := FreeLime.init_global_endpoints PROJECT_ID connect in
  eps = (if is_set PROJECT_ID
         then match connect "6552534048172933120" with
              | Ok ep => [("clinker_free_lime_%", ep)]
              | Raise _ => []
              end
         else [])
  /\ (eps = [] ->
      forall o, FreeLime.flask_predict eps (post (Some (JObj o)))
                = null_prediction).
Proof.
  intros eps. split.
  - subst eps. unfold FreeLime.init_global_endpoints.
    destruct (is_set PROJECT_ID); cbn; [|reflexivity].
    destruct (connect "6552534048172933120"); reflexivity.
  - intros -> o. reflexivity.
Qed.

(** X10.  The thermal-energy service connects to its one model; without
    a configured project or with a failed connection it has no endpoint
    and answers every POST with a JSON body other than [null] with 503
    and a fixed message, whatever the payload. *)
Theorem thermal_initialisation (PROJECT_ID : option string)
    (connect : string -> result Endpoint) :
  let eps := ThermalEnergy.init_global_endpoints PROJECT_ID connect in
  eps = (if is_set PROJECT_ID
         then match connect "8596851619650338816" with
              | Ok ep => [("kiln_specific_thermal_energy_Kcal/kg_clinker", ep)]
              | Raise _ => []
              end
         else [])
  /\ (eps = [] ->
      forall v, v <> JNull ->
        ThermalEnergy.flask_predict eps (post (Some v))
        = {| status := 503;
             payload := error_body
               "Prediction service is unavailable for kiln_specific_thermal_energy_Kcal/kg_clinker." |}).
Proof.
  intros eps. split.
  - subst eps. unfold ThermalEnergy.init_global_endpoints.
    destruct (is_set PROJECT_ID); cbn; [|reflexivity].
    destruct (connect "8596851619650338816"); reflexivity.
  - intros -> v Hv. destruct v; try reflexivity. congruence.
Qed.

(** X11.  With its endpoint initialised and every feature present and
    convertible, the thermal-energy service calls the model on exactly
    the six features, in the order of the feature table, and answers a
    number (bare, or under the key [value] of an object) with status 200
    and that number rounded to two decimals. *)
Theorem thermal_prediction (eps : list (string * Endpoint)) (ep : Endpoint)
    (o : list (string * json)) (xs : list (string * Q)) (q : Q)
    (rest : list json) :
  assoc ThermalEnergy.TARGET_KPI eps = Some ep ->
  (forall f, f ∈ thermal_features -> feature o f <> JNull) ->
  traverse (fun f => try! x := float (feature o f) in Ok (f, x))
    thermal_features = Ok xs ->
  (ep xs = Ok (JNum q :: rest)
   \/ exists m, ep xs = Ok (JObj m :: rest)
                /\ lookup_key "value" m = Some (JNum q)) ->
  xs.*1 = thermal_features
  /\ ThermalEnergy.flask_predict eps (post (Some (JObj o)))
     = {| status := 200;
          payload := Json (JObj
            [("kiln_specific_thermal_energy_Kcal/kg_clinker",
              JNum (round2 q))]) |}
  /\ two_decimals (round2 q).
Proof.
  intros He Hp Hx Ha. split; [exact (converted_names o _ xs Hx)|].
  split; [|apply round2_two_decimals].
  unfold ThermalEnergy.flask_predict, ThermalEnergy.predict, post.
  cbn [method body get_json and_then is_null]. rewrite He.
  fold thermal_features. rewrite collect_features. cbn [and_then].
  rewrite (no_missing o _ Hp). cbn [fmap list_fmap].
  rewrite convert_features, Hx. cbn [and_then].
  unfold ThermalEnergy.get_vertex_prediction.
  destruct Ha as [->|(m & -> & Hm)]; [reflexivity|].
  rewrite Hm. reflexivity.
Qed.

(** X12.  A payload that lacks features (or holds [null] for them) is
    answered 400 by the thermal-energy service, and the message lists
    exactly the lacking features, in the order of the feature table,
    followed by all required ones; the model is not called. *)
Theorem thermal_missing_features (eps : list (string * Endpoint))
    (ep : Endpoint) (o : list (string * json)) :
  let missing :=
    filter (fun f => is_null (feature o f) = true) thermal_features in
  assoc ThermalEnergy.TARGET_KPI eps = Some ep ->
  missing <> [] ->
  ThermalEnergy.flask_predict eps (post (Some (JObj o)))
  = {| status := 400;
       payload := error_body
         ("Missing data for required features: " ++ repr_list missing
          ++ ". Required: " ++ repr_list thermal_features) |}.
Proof.
  intros missing He Hm.
  assert (E : (filter (fun fv : string * json => is_null fv.2 = true)
                 ((fun f => (f, feature o f)) <$> thermal_features)).*1
              = missing).
  { subst missing. clear. induction thermal_features as [|f l IH];
      [reflexivity|].
    rewrite fmap_cons, !filter_cons. cbn [snd].
    destruct (decide (is_null (feature o f) = true));
      [rewrite fmap_cons; cbn [fst]; f_equal|]; exact IH. }
  unfold ThermalEnergy.flask_predict, ThermalEnergy.predict, post.
  cbn [method body get_json and_then is_null]. rewrite He.
  fold thermal_features. rewrite collect_features. cbn [and_then].
  rewrite E. destruct missing as [|f l]; [congruence|]. reflexivity.
Qed.

(** X13.  A model call that raises is not told apart from a model that
    answers nothing usable: with all features accepted, an exception, an
    empty list of predictions and a first prediction that is [null], a
    string or a list all give status 500 with the same fixed message. *)
Theorem thermal_unusable_answer (eps : list (string * Endpoint))
    (ep : Endpoint) (o : list (string * json)) (xs : list (string * Q)) :
  assoc ThermalEnergy.TARGET_KPI eps = Some ep ->
  (forall f, f ∈ thermal_features -> feature o f <> JNull) ->
  traverse (fun f => try! x := float (feature o f) in Ok (f, x))
    thermal_features = Ok xs ->
  ((exists e, ep xs = Raise e) \/ ep xs = Ok []
   \/ exists p rest, ep xs = Ok (p :: rest)
         /\ (p = JNull \/ (exists t, p = JStr t) \/ exists l, p = JArr l)) ->
  ThermalEnergy.flask_predict eps (post (Some (JObj o)))
  = {| status := 500;
       payload := error_body
         "Prediction returned an invalid or null value." |}.
Proof.
  intros He Hp Hx Ha.
  unfold ThermalEnergy.flask_predict, ThermalEnergy.predict, post.
  cbn [method body get_json and_then is_null]. rewrite He.
  fold thermal_features. rewrite collect_features. cbn [and_then].
  rewrite (no_missing o _ Hp). cbn [fmap list_fmap].
  rewrite convert_features, Hx. cbn [and_then].
  unfold ThermalEnergy.get_vertex_prediction.
  destruct Ha as [[e ->]|[->|(p & rest & -> & [->|[[t ->]|[l ->]]])]];
    reflexivity.
Qed.

End Syntax.

Lemma payload_read_by_features_witness :
  let F := Demo.plain_digits in
  let o := Demo.reading (JNum 1) in
  let o' := ("operator", JStr "night shift") :: Demo.reading (JNum 1) in
  FreeLime.flask_predict (Demo.live Demo.steady) (post (Some (JObj o)))
  = FreeLime.flask_predict (Demo.live Demo.steady) (post (Some (JObj o'))).
Proof.
  intros F o o'.
  assert (H : forall f, f ∈ free_lime_features ->
                lookup_key f o = lookup_key f o').
  { intros f Hf. unfold free_lime_features in Hf. cbn in Hf.
    rewrite !elem_of_cons in Hf.
    destruct Hf as [->|[->|[->|[->|[->|[->|[->|[->|[->|[->|[->|Hf]]]]]]]]]]];
      try reflexivity.
    inversion Hf. }
  exact (proj1 (payload_read_by_features (F := Demo.plain_digits)
                  (Demo.live Demo.steady) [] o o' H)).
Defined.

(** The payload [Demo.reading] holds every feature of the thermal-energy
    model, and the features convert to the number 1 each. *)
Lemma reading_complete (f : string) :
  f ∈ thermal_features -> feature (Demo.reading (JNum 1)) f <> JNull.
Proof.
  intros Hf. unfold thermal_features in Hf. cbn in Hf.
  rewrite !elem_of_cons in Hf.
  destruct Hf as [->|[->|[->|[->|[->|[->|Hf]]]]]];
    [..|inversion Hf]; vm_compute; discriminate.
Qed.

Lemma thermal_prediction_witness :
  let F := Demo.plain_digits in
  let eps := [(ThermalEnergy.TARGET_KPI, Demo.steady)] in
  ThermalEnergy.flask_predict eps (post (Some (JObj (Demo.reading (JNum 1)))))
  = {| status := 200;
       payload := Json (JObj
         [("kiln_specific_thermal_energy_Kcal/kg_clinker",
           JNum (round2 (1234 # 1000)))]) |}.
Proof.
  intros F eps.
  apply (thermal_prediction (F := Demo.plain_digits) eps Demo.steady
           (Demo.reading (JNum 1))
           ((fun f => (f, 1%Q)) <$> thermal_features) (1234 # 1000) []);
    [reflexivity | exact reading_complete | reflexivity
    | left; reflexivity].
Defined.

Lemma thermal_missing_features_witness :
  let F := Demo.plain_digits in
  let eps := [(ThermalEnergy.TARGET_KPI, Demo.steady)] in
  let o := [("fuel_feed_rate_tph", JNum 1)] in
  filter (fun f => is_null (feature o f) = true) thermal_features
  = [ "raw_meal_feed_rate_tph"; "fuel_alt_substitution_rate_pct";
      "kiln_hood_pressure_mmH2O"; "kiln_burner_air_flow_m3_hr";
      "kiln_main_drive_current_amp" ]
  /\ status (ThermalEnergy.flask_predict eps (post (Some (JObj o))))
     = 400%nat.
Proof.
  intros F eps o. split; [vm_compute; reflexivity|].
  pose proof (thermal_missing_features (F := F) eps
                Demo.steady o) as H.
  cbv zeta in H. rewrite H; [reflexivity|reflexivity|].
  vm_compute. discriminate.
Defined.

Lemma thermal_unusable_answer_witness :
  let F := Demo.plain_digits in
  let eps := [(ThermalEnergy.TARGET_KPI, Demo.broken)] in
  ThermalEnergy.flask_predict eps (post (Some (JObj (Demo.reading (JNum 1)))))
  = {| status := 500;
       payload := error_body
         "Prediction returned an invalid or null value." |}.
Proof.
  intros F eps.
  apply (thermal_unusable_answer (F := Demo.plain_digits) eps Demo.broken
           (Demo.reading (JNum 1))
           ((fun f => (f, 1%Q)) <$> thermal_features));
    [reflexivity | exact reading_complete | reflexivity
    | left; eexists; reflexivity].
Defined.

End ServiceExtras.
(* ===================================================================== *)
(** * The image service's few-shot prompt *)
(* ===================================================================== *)

Module KilnPromptFacts.
Import Py PyList Gemini KilnPrompt.
Open Scope string_scope.

#[global] Instance str_le_total : Total str_le.
Proof. intros a b. apply String.leb_total. Qed.

(** [endswith] holds exactly of the strings that end in the suffix. *)
Lemma endswith_spec (s suffix : string) :
  endswith s suffix = true <-> exists p, s = p ++ suffix.
Proof.
  split.
  - induction s as [|c s IH]; cbn [endswith]; intros H.
    + apply orb_true_iff in H as [H|H]; [|discriminate].
      apply String.eqb_eq in H. exists EmptyString. exact H.
    + apply orb_true_iff in H as [H|H].
      * apply String.eqb_eq in H. exists EmptyString. exact H.
      * destruct (IH H) as [p ->]. exists (String c p). reflexivity.
  - intros [p ->]. induction p as [|c p IH].
    + destruct suffix; cbn [endswith append];
        rewrite String.eqb_refl; reflexivity.
    + cbn [append endswith]. rewrite IH. apply orb_true_r.
Qed.

Section Bucket.
Variable list_blobs : string -> string -> result (list string).

(** X14.  When the listing of images succeeds, the result is not empty
    and in ascending order, and it holds exactly the [gs://] addresses
    of the listed blobs other than the folder itself whose name ends,
    letter case aside, in [.jpg], [.jpeg], [.png] or [.webp], each as
    often as it is listed. *)
Theorem image_uris_listed (bucket_name prefix : string)
    (uris : list string) :
  get_gcs_image_uris list_blobs bucket_name prefix = Ok uris ->
  exists blobs,
    list_blobs bucket_name prefix = Ok blobs
    /\ uris <> []
    /\ Sorted str_le uris
    /\ uris ≡ₚ gs_uri bucket_name
                 <$> filter (fun name => is_image prefix name = true) blobs
    /\ forall u, u ∈ uris <->
         exists name, u = gs_uri bucket_name name /\ name ∈ blobs
           /\ name <> prefix
           /\ exists suffix p, suffix ∈ image_suffixes
                /\ lower name = p ++ suffix.
Proof.
  unfold get_gcs_image_uris. intros H.
  destruct (list_blobs bucket_name prefix) as [blobs|e]; [|discriminate].
  cbn [and_then] in H. exists blobs. split; [reflexivity|].
  set (l := gs_uri bucket_name <$> filter _ blobs) in *.
  assert (P : uris ≡ₚ l /\ l <> []).
  { destruct l as [|u l']; [discriminate|]. inversion H.
    split; [apply merge_sort_Permutation|discriminate]. }
  destruct P as [P N].
  assert (S : Sorted str_le uris).
  { destruct l; [congruence|]. inversion H. apply Sorted_merge_sort, _. }
  repeat split; try assumption.
  - intros ->. apply Permutation_nil_l in P. congruence.
  - intros Hu. rewrite P in Hu. subst l.
    apply list_elem_of_fmap in Hu as (name & -> & Hn).
    apply list_elem_of_filter in Hn as [Hi Hn].
    exists name. unfold is_image in Hi.
    apply andb_true_iff in Hi as [Hp Hs].
    apply negb_true_iff, String.eqb_neq in Hp.
    apply existsb_exists in Hs as (suffix & Hs & He).
    apply endswith_spec in He as [p He].
    repeat split; try assumption.
    exists suffix, p. split; [apply list_elem_of_In, Hs|exact He].
  - intros (name & -> & Hn & Hp & suffix & p & Hs & He).
    rewrite P. subst l. apply list_elem_of_fmap. exists name.
    split; [reflexivity|]. apply list_elem_of_filter. split; [|exact Hn].
    unfold is_image. apply andb_true_iff. split.
    + apply negb_true_iff, String.eqb_neq, Hp.
    + apply existsb_exists. exists suffix.
      split; [apply list_elem_of_In, Hs|].
      apply endswith_spec. exists p. exact He.
Qed.

(** X15.  A bucket folder without a single image is an error, not an
    empty prompt: when the listing itself succeeds, the function raises
    its [ValueError] exactly if no listed blob is an image, and an
    exception of the storage client is passed on unchanged. *)
Theorem image_uris_missing (bucket_name prefix : string) :
  (forall e, list_blobs bucket_name prefix = Raise e ->
     get_gcs_image_uris list_blobs bucket_name prefix = Raise e)
  /\ (forall blobs, list_blobs bucket_name prefix = Ok blobs ->
        ((forall name, name ∈ blobs -> is_image prefix name = false)
         <-> get_gcs_image_uris list_blobs bucket_name prefix
             = Raise (ValueError
                 ("No few-shot images found in gs://" ++ bucket_name ++ "/"
                  ++ prefix ++ ". Please verify images and path.")))).
Proof.
  unfold get_gcs_image_uris. split.
  - intros e ->. reflexivity.
  - intros blobs ->. cbn [and_then].
    destruct (filter (fun name => is_image prefix name = true) blobs)
      as [|x l] eqn:E; cbn [fmap list_fmap].
    + split; [reflexivity|]. intros _ name Hn.
      destruct (is_image prefix name) eqn:Hi; [|reflexivity].
      assert (Hx : name ∈ filter (fun name => is_image prefix name = true)
                     blobs)
        by (apply list_elem_of_filter; split; assumption).
      rewrite E in Hx. inversion Hx.
    + split; [|discriminate]. intros H.
      assert (Hx : x ∈ filter (fun name => is_image prefix name = true) blobs)
        by (rewrite E; left).
      apply list_elem_of_filter in Hx as [Hi Hx].
      rewrite (H x Hx) in Hi. discriminate.
Qed.

End Bucket.

(** X16.  Every few-shot label obeys the rules the system instruction
    gives the model: severity [low] goes with [MAINTAIN] and value 0,
    [medium] with [DECREASE] and 0.2, [high] with [DECREASE] and 0.3.
    The file name decides, in this order: a name containing
    [kiln_operating_normal] is labelled [low] even if it also names an
    anomaly, and only a name without it that contains
    [kiln_overheating_anomaly_high] is labelled [high]. *)
Theorem labels_follow_rules (uri : string) :
  exists recommendation_type visual_finding severity action value
         recommendation,
    get_target_json uri
    = target recommendation_type visual_finding severity action value
        recommendation
    /\ ((severity = "low" /\ action = "MAINTAIN" /\ value = 0%Q)
        \/ (severity = "medium" /\ action = "DECREASE" /\ value = 2 # 10)
        \/ (severity = "high" /\ action = "DECREASE" /\ value = 3 # 10))
    /\ (severity = "low" <-> substring "kiln_operating_normal" uri = true)
    /\ (severity = "high" <->
          substring "kiln_operating_normal" uri = false
          /\ substring "kiln_overheating_anomaly_high" uri = true).
Proof.
  unfold get_target_json.
  destruct (substring "kiln_operating_normal" uri);
    [|destruct (substring "kiln_overheating_anomaly_high" uri);
      [|destruct (substring "kiln_overheating_anomaly_medium" uri)]];
    do 6 eexists; (split; [reflexivity|]);
    (split; [auto 6|]); split; split;
    first [ reflexivity | discriminate | intros [? ?]; discriminate
          | split; reflexivity | idtac ].
Qed.

Lemma image_uris_listed_witness :
  get_gcs_image_uris PromptDemo.shelf GCS_BUCKET_NAME KILN_GCS_PREFIX
  = Ok [ "gs://hackathon-cement-plant-image-data/kiln/kiln_operating_normal_1.jpg";
         "gs://hackathon-cement-plant-image-data/kiln/kiln_overheating_anomaly_high_2.PNG" ]
  /\ exists blobs,
       PromptDemo.shelf GCS_BUCKET_NAME KILN_GCS_PREFIX = Ok blobs
       /\ length blobs = 4%nat.
Proof.
  assert (E : get_gcs_image_uris PromptDemo.shelf GCS_BUCKET_NAME
                KILN_GCS_PREFIX
              = Ok [ "gs://hackathon-cement-plant-image-data/kiln/kiln_operating_normal_1.jpg";
                     "gs://hackathon-cement-plant-image-data/kiln/kiln_overheating_anomaly_high_2.PNG" ])
    by (vm_compute; reflexivity).
  split; [exact E|].
  destruct (image_uris_listed PromptDemo.shelf _ _ _ E) as (blobs & H & _).
  exists blobs. split; [exact H|].
  inversion H. reflexivity.
Defined.

(** The contents a loop appends two at a time. *)
Lemma concat_imap_pairs {A B : Type} (g h : nat -> A -> B) (l : list A) :
  length (concat (imap (fun i x => [g i x; h i x]) l)) = (2 * length l)%nat
  /\ forall i x, l !! i = Some x ->
       concat (imap (fun i x => [g i x; h i x]) l) !! (2 * i)%nat
         = Some (g i x)
       /\ concat (imap (fun i x => [g i x; h i x]) l) !! (2 * i + 1)%nat
          = Some (h i x).
Proof.
  revert g h. induction l as [|a l IH]; intros g h.
  - split; [reflexivity|]. intros i x H. inversion H.
  - cbn [imap concat]. unfold compose.
    destruct (IH (fun i => g (S i)) (fun i => h (S i))) as [IL IK].
    split.
    + cbn [app length]. rewrite IL. cbn [length]. lia.
    + intros [|i] x H.
      * inversion H. subst. split; reflexivity.
      * cbn in H. destruct (IK i x H) as [K1 K2].
        replace (2 * S i)%nat with (S (S (2 * i))) by lia.
        replace (S (S (2 * i)) + 1)%nat with (S (S (2 * i + 1))) by lia.
        split; [exact K1|exact K2].
Qed.

Section Prompt.
Variable list_blobs : string -> string -> result (list string).
Variable dumps : json -> string.
Variable b64decode : json -> result string.
Variable from_bytes : string -> json -> result Part.

(** X17.  A prompt that is built has, for the images listed in
    ascending order, one user turn and one model turn per image (the
    user turn numbers the example from 1 and attaches the image, always
    declared as [image/jpeg]; the model turn is the label of that image
    serialised) and then the user turn with the final task and the
    decoded live image under the MIME type of the request: [2k + 1]
    contents for [k] images, with the fixed system instruction. *)
Theorem prompt_shape (test_image_b64 test_image_mimetype : json)
    (contents : list Content) (instruction : string) :
  create_kiln_prompt list_blobs dumps b64decode from_bytes
    test_image_b64 test_image_mimetype = Ok (contents, instruction) ->
  exists uris live_image_bytes final_image_part,
    get_gcs_image_uris list_blobs GCS_BUCKET_NAME KILN_GCS_PREFIX = Ok uris
    /\ b64decode test_image_b64 = Ok live_image_bytes
    /\ from_bytes live_image_bytes test_image_mimetype = Ok final_image_part
    /\ length contents = (2 * length uris + 1)%nat
    /\ (forall i uri, uris !! i = Some uri ->
          contents !! (2 * i)%nat
            = Some {| role := "user";
                      parts := [ Text_part ("EXAMPLE " ++ decimal (i + 1)
                                            ++ ": Analyze this image at "
                                            ++ uri);
                                 File_part uri "image/jpeg" ] |}
          /\ contents !! (2 * i + 1)%nat
             = Some {| role := "model";
                       parts := [ Text_part (dumps (get_target_json uri)) ] |})
    /\ contents !! (2 * length uris)%nat
       = Some {| role := "user";
                 parts := [ Text_part final_text; final_image_part ] |}
    /\ instruction = system_instruction.
Proof.
  unfold create_kiln_prompt. intros H.
  destruct (get_gcs_image_uris list_blobs GCS_BUCKET_NAME KILN_GCS_PREFIX)
    as [uris|e]; [|discriminate].
  cbn [and_then] in H.
  destruct (b64decode test_image_b64) as [bytes|e]; [|discriminate].
  cbn [and_then] in H.
  destruct (from_bytes bytes test_image_mimetype) as [part|e] eqn:P;
    [|discriminate].
  cbn [and_then] in H. inversion H. subst. clear H.
  exists uris, bytes, part.
  unfold few_shot.
  destruct (concat_imap_pairs
              (fun i uri =>
                 {| role := "user";
                    parts := [ Text_part ("EXAMPLE " ++ decimal (i + 1)
                                          ++ ": Analyze this image at " ++ uri);
                               File_part uri "image/jpeg" ] |})
              (fun (i : nat) uri =>
                 {| role := "model";
                    parts := [ Text_part (dumps (get_target_json uri)) ] |})
              uris) as [HL HK].
  set (c := concat _) in *.
  repeat split.
  - exact P.
  - rewrite length_app, HL. cbn [length]. lia.
  - rewrite lookup_app_l; [apply (HK i uri H)|].
    rewrite HL. apply lookup_lt_Some in H. lia.
  - rewrite lookup_app_l; [apply (HK i uri H)|].
    rewrite HL. apply lookup_lt_Some in H. lia.
  - rewrite lookup_app_r by lia. rewrite HL, Nat.sub_diag. reflexivity.
Qed.

End Prompt.

(** The prompt for the folder [PromptDemo.shelf] is built. *)
Lemma prompt_shape_example :
  exists contents,
    create_kiln_prompt PromptDemo.shelf PromptDemo.flat PromptDemo.plain
      PromptDemo.inline (JStr "aGVsbG8=") (JStr "image/png")
    = Ok (contents, system_instruction).
Proof. eexists. vm_compute. reflexivity. Qed.

Lemma prompt_shape_witness :
  exists contents,
    create_kiln_prompt PromptDemo.shelf PromptDemo.flat PromptDemo.plain
      PromptDemo.inline (JStr "aGVsbG8=") (JStr "image/png")
    = Ok (contents, system_instruction)
    /\ length contents = 5%nat
    /\ contents !! 4%nat
       = Some {| role := "user";
                 parts := [ Text_part final_text;
                            Bytes_part "aGVsbG8=" "image/png" ] |}.
Proof.
  destruct prompt_shape_example as (contents & E).
  destruct (prompt_shape _ _ _ _ _ _ _ _ E)
    as (uris & bytes & part & U & B & P & L & _ & F & I).
  assert (U' : length uris = 2%nat).
  { vm_compute in U. inversion U. reflexivity. }
  exists contents. split; [exact E|].
  rewrite U' in L, F. split; [exact L|].
  cbn in B. inversion B. subst bytes.
  cbn in P. inversion P. subst part. exact F.
Defined.

(** X18.  The model client is built at most once: a client that was
    obtained is kept and handed out again whatever the environment has
    become, a constructor that raises leaves nothing cached, and when a
    client is built with a non-empty [GEMINI_API_KEY] the key is used and
    the project variable is not consulted. *)
Theorem client_built_once {Client : Type}
    (environ environ' : string -> option string)
    (genai_Client genai_Client' : credentials -> result Client)
    (cached : option Client) :
  (forall client cached',
     get_gemini_client environ genai_Client cached = (Ok client, cached') ->
     cached' = Some client
     /\ get_gemini_client environ' genai_Client' cached'
        = (Ok client, cached'))
  /\ (forall e cached',
        get_gemini_client environ genai_Client cached = (Raise e, cached') ->
        cached = None /\ cached' = None)
  /\ (forall key,
        cached = None -> environ "GEMINI_API_KEY" = Some key ->
        key <> EmptyString ->
        (get_gemini_client environ genai_Client cached).1
        = genai_Client (ApiKey key)).
Proof.
  unfold get_gemini_client. split; [|split].
  - intros client cached' H.
    assert (E : cached' = Some client).
    { destruct cached as [c|]; [inversion H; reflexivity|].
      cbv zeta in H.
      destruct (if is_set _ then _ else _); inversion H; reflexivity. }
    split; [exact E|]. rewrite E. reflexivity.
  - intros e cached' H.
    destruct cached as [c|]; [inversion H|]. cbv zeta in H.
    destruct (if is_set _ then _ else _); inversion H. split; reflexivity.
  - intros key -> Hk Hn. cbv zeta. rewrite Hk.
    destruct key; [congruence|]. cbn.
    destruct (genai_Client _); reflexivity.
Qed.

(** The listing of a folder without images. *)
Lemma no_images_listed (list_blobs : string -> string -> result (list string))
    (bucket_name prefix : string) (blobs : list string) :
  list_blobs bucket_name prefix = Ok blobs ->
  (forall name, name ∈ blobs -> is_image prefix name = false) ->
  get_gcs_image_uris list_blobs bucket_name prefix
  = Raise (ValueError
      ("No few-shot images found in gs://" ++ bucket_name ++ "/"
       ++ prefix ++ ". Please verify images and path.")).
Proof.
  intros E H. unfold get_gcs_image_uris. rewrite E. cbn [and_then].
  replace (filter (fun name => is_image prefix name = true) blobs)
    with (@nil string); [reflexivity|].
  symmetry. clear E. induction blobs as [|b l IH]; [reflexivity|].
  rewrite filter_cons_False.
  - apply IH. intros name Hn. apply H. right. exact Hn.
  - rewrite (H b); [discriminate|left].
Qed.

Section Service.
Variable list_blobs : string -> string -> result (list string).
Variable dumps : json -> string.
Variable b64decode : json -> result string.
Variable from_bytes : string -> json -> result Part.
Context {Client : Type}.
Variable environ : string -> option string.
Variable genai_Client : credentials -> result Client.
Variable generate_content :
  Client -> list Content -> string -> result string.

#[local] Abbreviation service :=
  (flask_predict list_blobs dumps b64decode from_bytes environ genai_Client
     generate_content).

(** An accepted payload reaches the analysis with its image and its MIME
    type, [image/jpeg] when the payload has none. *)
Lemma accepted_payload (analysis : ImageAnalysis.Analysis)
    (o : list (string * json)) (image : json) :
  lookup_key "image_data_b64" o = Some image ->
  ImageAnalysis.analyse_request analysis (Http.post (Some (JObj o)))
  = analysis image (default (JStr "image/jpeg") (lookup_key "mime_type" o)).
Proof.
  intros H. unfold ImageAnalysis.analyse_request, Http.post.
  cbn [get_json body and_then]. 
  destruct o as [|kv o']; [discriminate|].
  cbn [truthy negb contains and_then]. rewrite H.
  cbn [is_Some bool_decide negb getitem and_then get].
  rewrite bool_decide_true by (eexists; reflexivity).
  cbn [negb]. rewrite H. reflexivity.
Qed.

(** X19.  With a client at hand and a bucket folder that holds no image,
    every payload that carries image data is answered 500 with the
    message of the listing; the image data is not looked at, so the
    answer is the same for data that is not base64 at all. *)
Theorem service_without_examples (cached : option Client) (client : Client)
    (blobs : list string) (o : list (string * json)) (image : json) :
  lookup_key "image_data_b64" o = Some image ->
  (get_gemini_client environ genai_Client cached).1 = Ok client ->
  list_blobs GCS_BUCKET_NAME KILN_GCS_PREFIX = Ok blobs ->
  (forall name, name ∈ blobs -> is_image KILN_GCS_PREFIX name = false) ->
  service cached (Http.post (Some (JObj o)))
  = {| status := 500;
       payload := error_body
         "No few-shot images found in gs://hackathon-cement-plant-image-data/kiln/. Please verify images and path." |}.
Proof.
  intros Hk Hc Hb Hn. unfold flask_predict, ImageAnalysis.flask_predict.
  cbn [method Http.post]. rewrite (accepted_payload _ o image Hk).
  unfold analyse. rewrite Hc. cbn [and_then].
  unfold create_kiln_prompt.
  rewrite (no_images_listed _ _ _ blobs Hb Hn). reflexivity.
Qed.

(** X20.  When the client, the prompt and the model call all succeed,
    the answer is status 200 with the text of the model as it came; the
    prompt is built from the payload's image and its [mime_type], or
    [image/jpeg] when the payload names none. *)
Theorem service_answer (cached : option Client) (client : Client)
    (o : list (string * json)) (image : json) (contents : list Content)
    (instruction text : string) :
  lookup_key "image_data_b64" o = Some image ->
  (get_gemini_client environ genai_Client cached).1 = Ok client ->
  create_kiln_prompt list_blobs dumps b64decode from_bytes image
    (default (JStr "image/jpeg") (lookup_key "mime_type" o))
  = Ok (contents, instruction) ->
  generate_content client contents instruction = Ok text ->
  service cached (Http.post (Some (JObj o)))
  = {| status := 200; payload := Text text |}.
Proof.
  intros Hk Hc Hp Hg. unfold flask_predict, ImageAnalysis.flask_predict.
  cbn [method Http.post]. rewrite (accepted_payload _ o image Hk).
  unfold analyse. rewrite Hc. cbn [and_then]. rewrite Hp.
  cbn [and_then fst snd]. rewrite Hg. reflexivity.
Qed.

(** X21.  The client comes first: if none is cached and the constructor
    raises, every payload that carries image data is answered 500 with
    the constructor's message, and neither the bucket nor the image data
    is touched. *)
Theorem service_without_client (e : exception) (o : list (string * json))
    (image : json) :
  lookup_key "image_data_b64" o = Some image ->
  (get_gemini_client environ genai_Client None).1 = Raise e ->
  service None (Http.post (Some (JObj o)))
  = {| status := 500; payload := error_body (str e) |}.
Proof.
  intros Hk Hc. unfold flask_predict, ImageAnalysis.flask_predict.
  cbn [method Http.post]. rewrite (accepted_payload _ o image Hk).
  unfold analyse. rewrite Hc. reflexivity.
Qed.

End Service.

Lemma service_without_examples_witness :
  flask_predict PromptDemo.bare PromptDemo.flat PromptDemo.plain
    PromptDemo.inline PromptDemo.unset PromptDemo.ready
    (PromptDemo.canned "{}") None
    (Http.post (Some (JObj [("image_data_b64", JNum 7)])))
  = {| status := 500;
       payload := error_body
         "No few-shot images found in gs://hackathon-cement-plant-image-data/kiln/. Please verify images and path." |}.
Proof.
  apply (service_without_examples PromptDemo.bare PromptDemo.flat
           PromptDemo.plain PromptDemo.inline PromptDemo.unset
           PromptDemo.ready (PromptDemo.canned "{}") None tt
           [KILN_GCS_PREFIX; "kiln/notes.txt"]
           [("image_data_b64", JNum 7)] (JNum 7));
    [reflexivity | reflexivity | reflexivity |].
  intros name Hn. rewrite !elem_of_cons in Hn.
  destruct Hn as [->|[->|Hn]]; [reflexivity|reflexivity|inversion Hn].
Defined.

Lemma service_answer_witness :
  flask_predict PromptDemo.shelf PromptDemo.flat PromptDemo.plain
    PromptDemo.inline PromptDemo.unset PromptDemo.ready
    (PromptDemo.canned "{}") None
    (Http.post (Some (JObj PromptDemo.snapshot)))
  = {| status := 200; payload := Text "{}" |}.
Proof.
  destruct prompt_shape_example as (contents & E).
  apply (service_answer PromptDemo.shelf PromptDemo.flat PromptDemo.plain
           PromptDemo.inline PromptDemo.unset PromptDemo.ready
           (PromptDemo.canned "{}") None tt PromptDemo.snapshot
           (JStr "aGVsbG8=") contents system_instruction "{}");
    [reflexivity | reflexivity | exact E | reflexivity].
Defined.

Lemma service_without_client_witness :
  let refusing : credentials -> result unit :=
    fun _ => Raise (Error "DefaultCredentialsError"
                      "Your default credentials were not found.") in
  flask_predict PromptDemo.shelf PromptDemo.flat PromptDemo.plain
    PromptDemo.inline PromptDemo.unset refusing (PromptDemo.canned "{}")
    None (Http.post (Some (JObj PromptDemo.snapshot)))
  = {| status := 500;
       payload := error_body "Your default credentials were not found." |}.
Proof.
  intros refusing.
  apply (service_without_client PromptDemo.shelf PromptDemo.flat
           PromptDemo.plain PromptDemo.inline PromptDemo.unset refusing
           (PromptDemo.canned "{}")
           (Error "DefaultCredentialsError"
              "Your default credentials were not found.")
           PromptDemo.snapshot (JStr "aGVsbG8="));
    reflexivity.
Defined.

End KilnPromptFacts.
(* ===================================================================== *)
(** * The recommendation service's call to the model *)
(* ===================================================================== *)

Module RecommendationFacts.
Import Py PyList Gemini RecommendationPrompt.
Open Scope string_scope.

Section Service.
Variable dumps_indent : json -> string.
Variable loads : string -> result json.
Context {Client : Type}.
Variable environ : string -> option string.
Variable genai_Client : credentials -> result Client.
Variable generate_content :
  Client -> list string -> string -> result string.

#[local] Abbreviation service :=
  (flask_route_recommendations dumps_indent loads environ genai_Client
     generate_content).

(** The body of the error report for an exception. *)
#[local] Abbreviation failure e :=
  {| status := 500;
     payload := Json (JObj
       [ ("error", JStr (str e));
         ("message", JStr
    "The LLM recommendation engine encountered an error. Please check the logs.") ]) |}.

(** X22.  For a payload whose two documents are both non-empty, and a
    client at hand, the model is sent one user prompt (built from the
    two documents) with the fixed system instruction, and the route
    answers by what happens to the model's text: a model call that
    raises gives 500; a text that decodes gives 200 with the decoded
    document as it is, whether or not it is the array of
    recommendations the instruction asks for; a text that is not JSON
    gives 500. *)
Theorem recommendation_answer (cached : option Client) (client : Client)
    (o : list (string * json)) (current_inputs predicted_kpis : json) :
  lookup_key "current_inputs" o = Some current_inputs ->
  lookup_key "predicted_kpis" o = Some predicted_kpis ->
  truthy current_inputs = true -> truthy predicted_kpis = true ->
  (get_gemini_client environ genai_Client cached).1 = Ok client ->
  service cached (Http.post (Some (JObj o)))
  = match generate_content client
            [user_prompt dumps_indent current_inputs predicted_kpis]
            SYSTEM_INSTRUCTION with
    | Raise e => failure e
    | Ok text =>
        match loads text with
        | Ok recommendations =>
            {| status := 200; payload := Json recommendations |}
        | Raise e => failure e
        end
    end.
Proof.
  intros Hc Hp Tc Tp Hg.
  unfold flask_route_recommendations,
    Recommendation.flask_route_recommendations, Recommendation.recommend,
    Http.post.
  cbn [method get_json body and_then].
  destruct o as [|kv o']; [discriminate|].
  cbn [truthy negb get and_then]. rewrite Hc, Hp.
  unfold default. cbn [from_option id].
  rewrite Tc, Tp. cbn [negb orb].
  unfold generate_recommendations_llm. rewrite Hg. cbn [and_then].
  destruct (generate_content client _ SYSTEM_INSTRUCTION) as [text|e];
    [|reflexivity].
  cbn [and_then]. destruct (loads text); reflexivity.
Qed.

End Service.

Lemma recommendation_answer_witness :
  let answer := JObj [("note", JStr "no change needed")] in
  flask_route_recommendations PromptDemo.flat
    (PromptDemo.reads "{}" answer) PromptDemo.unset PromptDemo.ready
    (PromptDemo.canned "{}") None
    (Http.post (Some (JObj PromptDemo.situation)))
  = {| status := 200; payload := Json answer |}.
Proof.
  intros answer.
  rewrite (recommendation_answer PromptDemo.flat
             (PromptDemo.reads "{}" answer) PromptDemo.unset
             PromptDemo.ready (PromptDemo.canned "{}") None tt
             PromptDemo.situation
             (JObj [("fuel_feed_rate_tph", JNum (95 # 10))])
             (JObj [("clinker_free_lime_%", JNum (14 # 10))]));
    reflexivity.
Defined.

End RecommendationFacts.
